(** * ThreatFox / URLhaus ETL connectors: a shallow embedding

    The development follows the two Python connectors of the repository:

    - [src/etl_connector.py], class [ThreatFoxETLConnector]
      (connection, extraction, transform, classification helpers, MongoDB
      load, statistics, pipeline driver) and [main], embedded in module
      [ThreatFox];
    - [src/harsha_urlhaus_etl/etl_connector.py], whose [transform], [load]
      and script are embedded in module [UrlHaus].

    Python values are dynamically typed, so the embedding works on one
    inductive type of values ([Py.value]) and an error monad ([Py.result])
    in which a raised exception is an explicit outcome.  The MongoDB
    collection is a list of stored documents together with its indexes
    (module [Mongo]). *)

From Stdlib Require Import ZArith List String Ascii Bool Lia PeanoNat.
From Stdlib Require Import Floats Uint63.
Import ListNotations.

Local Open Scope string_scope.
Local Open Scope Z_scope.

(* ================================================================== *)
(** * Python values and the builtins the connectors use *)
(* ================================================================== *)

Module Py.

(** A naive or aware [datetime], as microseconds on the proleptic
    Gregorian time line.  Only differences and comparisons are used. *)
Definition datetime := Z.

(** What [json.loads] can produce, plus [datetime] objects, which the
    transform step puts into the documents it builds.  A dictionary is
    the list of its items in insertion order; a Python dictionary has one
    item per key, and the lookups below take the first.  Strings are
    ASCII text.  The induction principle that reaches into lists and
    dictionaries is [value_ind'], further down. *)
#[local] Unset Elimination Schemes.
Inductive value : Type :=
| VNone
| VBool (b : bool)
| VInt (n : Z)
| VFloat (f : float)
| VStr (s : string)
| VList (l : list value)
| VDict (d : list (string * value))
| VDatetime (t : datetime).
#[local] Set Elimination Schemes.

(** Exceptions the embedded code can meet. *)
Inductive exn : Type :=
| TypeError | AttributeError | KeyError | ValueError
| OperationFailure | InvalidDocument.

Inductive result (A : Type) : Type :=
| Ok (a : A)
| Raise (e : exn).
Arguments Ok {A} a.
Arguments Raise {A} e.

Definition bind {A B} (m : result A) (k : A -> result B) : result B :=
  match m with
  | Ok a => k a
  | Raise e => Raise e
  end.

Declare Scope py_scope.
Delimit Scope py_scope with py.
Notation "x <- m ;; k" := (bind m (fun x => k))
  (at level 61, m at next level, right associativity) : py_scope.
Local Open Scope py_scope.

(** ** Characters and strings (ASCII text) *)

Definition is_upper (c : ascii) : bool :=
  let n := nat_of_ascii c in (65 <=? n)%nat && (n <=? 90)%nat.

Definition is_lower (c : ascii) : bool :=
  let n := nat_of_ascii c in (97 <=? n)%nat && (n <=? 122)%nat.

Definition is_alpha (c : ascii) : bool := is_upper c || is_lower c.

(** [str.isspace] on one ASCII character: TAB..CR, FS..US and the space. *)
Definition is_space (c : ascii) : bool :=
  let n := nat_of_ascii c in
  ((9 <=? n)%nat && (n <=? 13)%nat) || ((28 <=? n)%nat && (n <=? 32)%nat).

Definition to_lower (c : ascii) : ascii :=
  if is_upper c then ascii_of_nat (nat_of_ascii c + 32) else c.

Definition to_upper (c : ascii) : ascii :=
  if is_lower c then ascii_of_nat (nat_of_ascii c - 32) else c.

(** [s.lower()] *)
Fixpoint lower (s : string) : string :=
  match s with
  | EmptyString => EmptyString
  | String c t => String (to_lower c) (lower t)
  end.

(** [needle in hay] on strings: [needle] occurs as a contiguous block. *)
Fixpoint contains (needle hay : string) : bool :=
  String.prefix needle hay ||
  match hay with
  | EmptyString => false
  | String _ t => contains needle t
  end.

Fixpoint lstrip (s : string) : string :=
  match s with
  | EmptyString => EmptyString
  | String c t => if is_space c then lstrip t else s
  end.

Fixpoint rstrip (s : string) : string :=
  match s with
  | EmptyString => EmptyString
  | String c t =>
      match rstrip t with
      | EmptyString => if is_space c then EmptyString else String c EmptyString
      | t' => String c t'
      end
  end.

(** [s.strip()] *)
Definition strip (s : string) : string := rstrip (lstrip s).

(** [s.replace(old, new)] for a non-empty [old]: occurrences are taken
    left to right and do not overlap.  [skip] counts the characters of a
    matched occurrence still to be dropped. *)
Fixpoint replace_from (old new : string) (skip : nat) (s : string) : string :=
  match s with
  | EmptyString => EmptyString
  | String c t =>
      match skip with
      | S k => replace_from old new k t
      | O =>
          if String.prefix old s
          then new ++ replace_from old new (Nat.pred (String.length old)) t
          else String c (replace_from old new O t)
      end
  end.

Definition replace (old new s : string) : string := replace_from old new O s.

(** [s.title()]: a letter that follows a letter is lowered, any other
    letter is raised; other characters are kept. *)
Fixpoint title_from (prev_cased : bool) (s : string) : string :=
  match s with
  | EmptyString => EmptyString
  | String c t =>
      String (if is_alpha c
              then (if prev_cased then to_lower c else to_upper c)
              else c)
             (title_from (is_alpha c) t)
  end.

Definition title (s : string) : string := title_from false s.

(** ** Numbers *)

Definition float_of_Z (n : Z) : float :=
  if n <? 0 then (- PrimFloat.of_uint63 (Uint63.of_Z (- n)))%float
  else PrimFloat.of_uint63 (Uint63.of_Z n).

Definition Z_of_bool (b : bool) : Z := if b then 1 else 0.

(** [v > n] and [v >= n] against an [int] constant [n]: defined on
    [int], [bool] and [float]; any other operand raises [TypeError]. *)
Definition gt_int (v : value) (n : Z) : result bool :=
  match v with
  | VInt z => Ok (n <? z)
  | VBool b => Ok (n <? Z_of_bool b)
  | VFloat f => Ok (PrimFloat.ltb (float_of_Z n) f)
  | _ => Raise TypeError
  end.

Definition ge_int (v : value) (n : Z) : result bool :=
  match v with
  | VInt z => Ok (n <=? z)
  | VBool b => Ok (n <=? Z_of_bool b)
  | VFloat f => Ok (PrimFloat.leb (float_of_Z n) f)
  | _ => Raise TypeError
  end.

(** Nearest integer to [num / den] ([den > 0]), ties to the even one. *)
Definition round_half_even (num den : Z) : Z :=
  let q := num / den in
  let r := num mod den in
  if 2 * r <? den then q
  else if den <? 2 * r then q + 1
  else if Z.even q then q else q + 1.

(** The decimal [h / 10^ndigits] nearest to the magnitude of the binary64
    number [x], as the integer [h]; defined when [x] is finite and has a
    fractional part.  Zeros, infinities, NaN and integral floats are
    their own rounding. *)
Definition round_digits (x : float) (ndigits : nat) : option Z :=
  match Prim2SF x with
  | S754_finite _ m e =>
      if e <? 0
      then Some (round_half_even (Z.pos m * 10 ^ Z.of_nat ndigits) (2 ^ (- e)))
      else None
  | _ => None
  end.

(** [round(x, ndigits)] on a float: CPython rounds the exact binary value
    to [ndigits] decimals (ties to even) and returns the binary64 number
    nearest to that decimal.  A correctly rounded quotient of two exactly
    represented integers is that number, which holds here as long as
    [h < 2^53] (the connectors round scores between 0 and 1 and averages
    of confidence levels). *)
Definition round (x : float) (ndigits : nat) : float :=
  match round_digits x ndigits with
  | Some h =>
      let r := (float_of_Z h / float_of_Z (10 ^ Z.of_nat ndigits))%float in
      if PrimFloat.ltb x 0%float then (- r)%float else r
  | None => x
  end.

(** [round(v, ndigits)] on an arbitrary value: an [int] (or [bool]) is
    returned as an [int], a [float] is rounded, anything else has no
    [__round__]. *)
Definition round_method (v : value) (ndigits : nat) : result value :=
  match v with
  | VInt n => Ok (VInt n)
  | VBool b => Ok (VInt (Z_of_bool b))
  | VFloat f => Ok (VFloat (round f ndigits))
  | _ => Raise TypeError
  end.

(** ** Truth value, dictionaries *)

(** [bool(v)] *)
Definition truthy (v : value) : bool :=
  match v with
  | VNone => false
  | VBool b => b
  | VInt n => negb (n =? 0)
  | VFloat f => negb (PrimFloat.eqb f 0%float)
  | VStr s => negb (s =? "")%string
  | VList l => match l with [] => false | _ => true end
  | VDict d => match d with [] => false | _ => true end
  | VDatetime _ => true
  end.

Fixpoint assoc (k : string) (d : list (string * value)) : option value :=
  match d with
  | [] => None
  | (k', v) :: rest => if (k' =? k)%string then Some v else assoc k rest
  end.

(** [d.get(k, default)]; a value that is not a [dict] has no [get]. *)
Definition get (d : value) (k : string) (default : value) : result value :=
  match d with
  | VDict m => Ok (match assoc k m with Some v => v | None => default end)
  | _ => Raise AttributeError
  end.

(** [d[k]] *)
Definition getitem (d : value) (k : string) : result value :=
  match d with
  | VDict m => match assoc k m with Some v => Ok v | None => Raise KeyError end
  | _ => Raise TypeError
  end.

(** [d[k] = v] on a dictionary: an existing key keeps its position. *)
Fixpoint setitem (k : string) (v : value) (d : list (string * value))
  : list (string * value) :=
  match d with
  | [] => [(k, v)]
  | (k', v') :: rest =>
      if (k' =? k)%string then (k, v) :: rest else (k', v') :: setitem k v rest
  end.

(** [s.strip()] and [s.lower()] as method calls on an arbitrary value:
    only [str] has them. *)
Definition strip_method (v : value) : result string :=
  match v with
  | VStr s => Ok (strip s)
  | _ => Raise AttributeError
  end.

Definition lower_method (v : value) : result string :=
  match v with
  | VStr s => Ok (lower s)
  | _ => Raise AttributeError
  end.

(** [a or b] *)
Definition or_else (a b : value) : value := if truthy a then a else b.

(** ** Equality of values *)

Fixpoint value_eqb (a b : value) {struct a} : bool :=
  match a, b with
  | VNone, VNone => true
  | VBool x, VBool y => Bool.eqb x y
  | VInt x, VInt y => (x =? y)
  | VFloat x, VFloat y => PrimFloat.Leibniz.eqb x y
  | VStr x, VStr y => (x =? y)%string
  | VList x, VList y =>
      (fix go (l1 l2 : list value) {struct l1} : bool :=
         match l1, l2 with
         | [], [] => true
         | u :: l1', w :: l2' => value_eqb u w && go l1' l2'
         | _, _ => false
         end) x y
  | VDict x, VDict y =>
      (fix go (l1 l2 : list (string * value)) {struct l1} : bool :=
         match l1, l2 with
         | [], [] => true
         | (k1, u) :: l1', (k2, w) :: l2' =>
             (k1 =? k2)%string && value_eqb u w && go l1' l2'
         | _, _ => false
         end) x y
  | VDatetime x, VDatetime y => (x =? y)
  | _, _ => false
  end.

(** ** Length, iteration, item assignment *)

(** [len(v)] *)
Definition len (v : value) : result Z :=
  match v with
  | VStr s => Ok (Z.of_nat (String.length s))
  | VList l => Ok (Z.of_nat (List.length l))
  | VDict d => Ok (Z.of_nat (List.length d))
  | _ => Raise TypeError
  end.

Fixpoint characters (s : string) : list value :=
  match s with
  | EmptyString => []
  | String c t => VStr (String c EmptyString) :: characters t
  end.

(** What [for x in v] runs through: the elements of a list, the keys of
    a dictionary, the characters of a string. *)
Definition iterate (v : value) : result (list value) :=
  match v with
  | VList l => Ok l
  | VDict d => Ok (List.map (fun kv => VStr (fst kv)) d)
  | VStr s => Ok (characters s)
  | _ => Raise TypeError
  end.

(** [target[k] = v] with a string key: only a dictionary takes it. *)
Definition setitem_method (target : value) (k : string) (v : value)
  : result value :=
  match target with
  | VDict d => Ok (VDict (setitem k v d))
  | _ => Raise TypeError
  end.

End Py.

(* ================================================================== *)
(** * The document store *)
(* ================================================================== *)

Module Mongo.
Import Py.
Local Open Scope py_scope.

Record index : Type := mk_index { idx_field : string; idx_unique : bool }.

(** A collection: the stored documents in insertion order and the
    indexes created so far.  The server-assigned [_id] of a stored
    document is left out: a replacement keeps it, and no query of the
    connectors reads it. *)
Record collection : Type := mk_collection {
  docs : list value;
  indexes : list index
}.

Definition empty : collection := mk_collection [] [].

(** The value a query or an index sees at a top-level field: a missing
    field reads as null. *)
Definition field (name : string) (doc : value) : value :=
  match doc with
  | VDict m => match assoc name m with Some v => v | None => VNone end
  | _ => VNone
  end.

(** The filter [{name: v}]: equality on the field, a missing field
    matching null.  This is how the store compares the scalars the
    connectors query on (strings, booleans, null, integers among
    themselves).  Three refinements of MongoDB are left out: an
    array-valued field also matches on its elements, an integer and a
    float of the same numeric value are one key, and a dictionary given
    as the filter value is read as query operators.  The statements on
    what is stored under a key are therefore made for keys that are
    strings, booleans, null or integers ([plain], further down). *)
Definition matches (name : string) (v : value) (doc : value) : bool :=
  value_eqb (field name doc) v.

(** [collection.count_documents({name: v})] and
    [collection.count_documents({})] *)
Definition count_documents (name : string) (v : value) (c : collection) : Z :=
  Z.of_nat (List.length (List.filter (matches name v) (docs c))).

Definition count_all (c : collection) : Z := Z.of_nat (List.length (docs c)).

Fixpoint has_duplicates (l : list value) : bool :=
  match l with
  | [] => false
  | v :: rest => List.existsb (value_eqb v) rest || has_duplicates rest
  end.

Definition find_index (name : string) (c : collection) : option index :=
  List.find (fun i => (idx_field i =? name)%string) (indexes c).

(** [collection.create_index(name, unique=u)]: a no-op when the same
    index exists; refused when an index on the field exists with other
    options, or when a unique index is asked for over documents that
    already share a value. *)
Definition create_index (name : string) (u : bool) (c : collection)
  : result collection :=
  match find_index name c with
  | Some i => if Bool.eqb (idx_unique i) u then Ok c else Raise OperationFailure
  | None =>
      if u && has_duplicates (List.map (field name) (docs c))
      then Raise OperationFailure
      else Ok (mk_collection (docs c) (indexes c ++ [mk_index name u]))
  end.

(** What [replace_one] reports: [upserted_id] is set exactly when a
    document was inserted. *)
Record update_result : Type := mk_update_result {
  upserted : bool;
  matched_count : Z;
  modified_count : Z
}.

(** Replace the first document matching [{name: v}] by [replacement], or
    append [replacement] when none matches ([upsert=True]).  A
    replacement equal to the stored document modifies nothing. *)
Fixpoint replace_first (name : string) (v replacement : value)
  (l : list value) : update_result * list value :=
  match l with
  | [] => (mk_update_result true 0 0, [replacement])
  | d :: rest =>
      if matches name v d
      then (mk_update_result false 1 (if value_eqb d replacement then 0 else 1),
            replacement :: rest)
      else let (r, rest') := replace_first name v replacement rest in
           (r, d :: rest')
  end.

Section Driver.

(** Whether the driver and the server accept a document: [replace_one]
    raises for one they refuse (not BSON-encodable, too large, ...). *)
Variable encodable : value -> bool.

(** [collection.replace_one({name: v}, replacement, upsert=True)] *)
Definition replace_one (name : string) (v replacement : value)
  (c : collection) : result (update_result * collection) :=
  if encodable replacement
  then let (r, l) := replace_first name v replacement (docs c) in
       Ok (r, mk_collection l (indexes c))
  else Raise InvalidDocument.

End Driver.

(** The aggregation pipelines [get_pipeline_stats] sends. *)
Inductive pipeline : Type :=
| AvgConfidence   (* $match confidence_level > 0, $group avg *)
| TopMalware.     (* $match family != Unknown, $group count, $sort, $limit 5 *)

(** Server-side queries whose result the connector only post-processes:
    [find_one({}, sort=[(key, -1)])] and [aggregate]. *)
Record server : Type := mk_server {
  find_one_sorted_desc : string -> list value -> option value;
  aggregate : pipeline -> list value -> list value
}.

End Mongo.

(* ================================================================== *)
(** * [ThreatFoxETLConnector] *)
(* ================================================================== *)

Module ThreatFox.
Import Py Mongo.
Local Open Scope py_scope.

(** [timedelta(days=1)] in microseconds. *)
Definition DAY : Z := 86400000000.

Definition of_optional_datetime (o : option datetime) : value :=
  match o with Some t => VDatetime t | None => VNone end.

Definition of_optional_int (o : option Z) : value :=
  match o with Some n => VInt n | None => VNone end.

Section Transform.

(** [datetime.strptime(s, fmt)]; [None] stands for the [ValueError] it
    raises when [s] does not match [fmt]. *)
Variable strptime : string -> string -> option datetime.

(** The reading of [datetime.now()] (naive, local time).  Every call the
    helpers make while one record is derived is given this one reading:
    the microseconds that pass between the calls are not modelled. *)
Variable now : datetime.

(** ** Classification and scoring helpers *)

Definition total_checks : float := 7%float.

Definition add_check (passed : bool) (score : float) : float :=
  if passed then (score + 1 / total_checks)%float else score.

Definition _calculate_threat_quality (threat : value) : result float :=
  let score := 0%float in
  id <- get threat "id" VNone ;;
  let score := add_check (truthy id) score in
  ioc_value <- get threat "ioc_value" VNone ;;
  let score := add_check (truthy ioc_value) score in
  ioc_type <- get threat "ioc_type" VNone ;;
  let score := add_check (truthy ioc_type) score in
  threat_type <- get threat "threat_type" VNone ;;
  let score := add_check (truthy threat_type) score in
  malware <- get threat "malware" VNone ;;
  let score := add_check (truthy malware) score in
  first_seen <- get threat "first_seen" VNone ;;
  let score := add_check (truthy first_seen) score in
  confidence_level <- get threat "confidence_level" (VInt 0) ;;
  positive <- gt_int confidence_level 0 ;;
  let score := add_check positive score in
  Ok (round score 2).

Definition _parse_threatfox_date (date_str : value) : result (option datetime) :=
  if negb (truthy date_str) then Ok None
  else match date_str with
       | VStr s =>
           match strptime s "%Y-%m-%d %H:%M:%S" with
           | Some t => Ok (Some t)
           | None =>
               match strptime s "%Y-%m-%d" with
               | Some t => Ok (Some t)
               | None => Ok None
               end
           end
       | _ => Raise TypeError
       end.

Definition _is_recent_threat (first_seen : option datetime) : bool :=
  match first_seen with
  | None => false
  | Some t => let cutoff := now - 30 * DAY in cutoff <? t
  end.

Definition _is_active_threat (last_seen : option datetime) : bool :=
  match last_seen with
  | None => false
  | Some t => let cutoff := now - 7 * DAY in cutoff <? t
  end.

Definition severity_keywords : list string := ["botnet"; "ransomware"; "trojan"].

Definition _calculate_threat_severity (confidence threat_type malware : value)
  : result string :=
  c75 <- ge_int confidence 75 ;;
  if c75 then Ok "HIGH"
  else
    c50 <- ge_int confidence 50 ;;
    if c50 then
      lowered <- lower_method threat_type ;;
      if List.existsb (fun keyword => contains keyword lowered) severity_keywords
      then Ok "HIGH" else Ok "MEDIUM"
    else
      c25 <- ge_int confidence 25 ;;
      if c25 then Ok "MEDIUM" else Ok "LOW".

Definition _categorize_ioc_type (ioc_type : value) : result string :=
  ioc_lower <- lower_method ioc_type ;;
  if contains "domain" ioc_lower || contains "url" ioc_lower then Ok "NETWORK"
  else if contains "ip" ioc_lower then Ok "NETWORK"
  else if contains "hash" ioc_lower || contains "md5" ioc_lower
          || contains "sha" ioc_lower then Ok "FILE"
  else if contains "email" ioc_lower then Ok "EMAIL"
  else Ok "OTHER".

Definition _clean_malware_name (malware_name : value) : result string :=
  if negb (truthy malware_name) then Ok "Unknown"
  else
    stripped <- strip_method malware_name ;;
    let cleaned := replace "trojan:" "" (replace "win32:" "" stripped) in
    Ok (if (cleaned =? "")%string then "Unknown" else title cleaned).

Definition _days_since_date (date_obj : option datetime) : option Z :=
  match date_obj with
  | None => None
  | Some t => Some ((now - t) / DAY)
  end.

Definition _categorize_threat_age (first_seen : option datetime) : string :=
  match first_seen with
  | None => "Unknown"
  | Some t =>
      let days_old := (now - t) / DAY in
      if days_old <=? 7 then "New"
      else if days_old <=? 30 then "Recent"
      else if days_old <=? 90 then "Moderate"
      else "Old"
  end.

(** ** [transform_data] *)

(** The body of the [try] block: one raw record to one document, or the
    exception that makes the loop skip the record. *)
Definition transform_record (current_timestamp : datetime) (threat_record : value)
  : result value :=
  threat_id <- get threat_record "id" (VStr "unknown") ;;
  ioc_id <- get threat_record "ioc_id" (VStr "unknown") ;;
  ioc_value <- get threat_record "ioc_value" (VStr "") ;;
  ioc_type <- get threat_record "ioc_type" (VStr "") ;;
  threat_type <- get threat_record "threat_type" (VStr "") ;;
  malware <- get threat_record "malware" (VStr "") ;;
  malware_alias <- get threat_record "malware_alias" (VStr "") ;;
  malware_printable <- get threat_record "malware_printable" (VStr "") ;;
  first_seen <- get threat_record "first_seen" (VStr "") ;;
  last_seen <- get threat_record "last_seen" (VStr "") ;;
  confidence_level <- get threat_record "confidence_level" (VInt 0) ;;
  reference <- get threat_record "reference" (VStr "") ;;
  reporter <- get threat_record "reporter" (VStr "") ;;
  tags <- get threat_record "tags" (VList []) ;;
  first_seen_parsed <- _parse_threatfox_date first_seen ;;
  last_seen_parsed <- _parse_threatfox_date last_seen ;;
  let is_recent := _is_recent_threat first_seen_parsed in
  let is_active := _is_active_threat last_seen_parsed in
  threat_severity <- _calculate_threat_severity confidence_level threat_type malware ;;
  ioc_category <- _categorize_ioc_type ioc_type ;;
  data_quality_score <- _calculate_threat_quality threat_record ;;
  ioc_value' <- strip_method ioc_value ;;
  ioc_type' <- strip_method ioc_type ;;
  threat_type' <- strip_method threat_type ;;
  malware' <- strip_method malware ;;
  malware_alias' <- strip_method malware_alias ;;
  malware_printable' <- strip_method malware_printable ;;
  reference' <- strip_method reference ;;
  reporter' <- strip_method reporter ;;
  malware_family_clean <- _clean_malware_name (or_else malware_printable malware) ;;
  meta1 <- get threat_record "extraction_metadata" (VDict []) ;;
  extracted_at <- get meta1 "extracted_at" VNone ;;
  meta2 <- get threat_record "extraction_metadata" (VDict []) ;;
  source_url <- get meta2 "source_url" VNone ;;
  meta3 <- get threat_record "extraction_metadata" (VDict []) ;;
  batch_size <- get meta3 "total_records_in_batch" VNone ;;
  Ok (VDict [
    ("original_data", threat_record);
    ("etl_metadata", VDict [
       ("ingestion_timestamp", VDatetime current_timestamp);
       ("source", VStr "threatfox_json");
       ("version", VStr "1.0");
       ("record_id", threat_id);
       ("data_quality_score", VFloat data_quality_score)]);
    ("threat_id", threat_id);
    ("ioc_id", ioc_id);
    ("ioc_value", VStr ioc_value');
    ("ioc_type", VStr ioc_type');
    ("threat_type", VStr threat_type');
    ("malware", VStr malware');
    ("malware_alias", VStr malware_alias');
    ("malware_printable", VStr malware_printable');
    ("first_seen", first_seen);
    ("last_seen", last_seen);
    ("first_seen_parsed", of_optional_datetime first_seen_parsed);
    ("last_seen_parsed", of_optional_datetime last_seen_parsed);
    ("confidence_level", confidence_level);
    ("reference", VStr reference');
    ("reporter", VStr reporter');
    ("tags", match tags with VList _ => tags | _ => VList [] end);
    ("is_recent_threat", VBool is_recent);
    ("is_active_threat", VBool is_active);
    ("threat_severity", VStr threat_severity);
    ("ioc_category", VStr ioc_category);
    ("tag_count", match tags with
                  | VList l => VInt (Z.of_nat (List.length l))
                  | _ => VInt 0
                  end);
    ("has_reference", VBool (negb (reference' =? "")%string));
    ("malware_family_clean", VStr malware_family_clean);
    ("days_since_first_seen", of_optional_int (_days_since_date first_seen_parsed));
    ("days_since_last_seen", of_optional_int (_days_since_date last_seen_parsed));
    ("threat_age_category", VStr (_categorize_threat_age first_seen_parsed));
    ("extraction_timestamp", extracted_at);
    ("source_url", source_url);
    ("batch_size", batch_size)]).

(** The loop of [transform_data]: a record whose derivation raises is
    skipped, any other appends its document.  [current_timestamp] is the
    reading of [datetime.now(timezone.utc)] taken before the loop. *)
Definition transform_step (current_timestamp : datetime)
  (transformed_data : list value) (threat_record : value) : list value :=
  match transform_record current_timestamp threat_record with
  | Ok transformed_record => transformed_data ++ [transformed_record]
  | Raise _ => transformed_data
  end.

Definition transform_data (current_timestamp : datetime) (raw_data : list value)
  : list value :=
  List.fold_left (transform_step current_timestamp) raw_data [].

End Transform.

(** ** [load_data] *)

Section Load.

Variable encodable : value -> bool.

(** The indexes [load_data] asks for, in source order, with their
    [unique] option. *)
Definition index_specs : list (string * bool) :=
  [("etl_metadata.ingestion_timestamp", false);
   ("threat_id", true);
   ("ioc_type", false);
   ("threat_severity", false);
   ("malware_family_clean", false);
   ("is_active_threat", false);
   ("first_seen_parsed", false)].

(** The [create_index] calls in sequence; the first one that raises stops
    the sequence, and the indexes created before it stay. *)
Fixpoint create_indexes (specs : list (string * bool)) (c : collection)
  : collection * option exn :=
  match specs with
  | [] => (c, None)
  | (name, u) :: rest =>
      match create_index name u c with
      | Ok c' => create_indexes rest c'
      | Raise e => (c, Some e)
      end
  end.

Record load_state : Type := mk_load_state {
  inserted_count : Z;
  updated_count : Z;
  coll : collection
}.

(** One iteration of the loop.  The inner [try] does the upsert and the
    counting; its handler formats a warning with
    [record.get('threat_id', 'unknown')], which itself raises when the
    record is not a dictionary, and that exception leaves the loop. *)
Definition load_record (record : value) (st : load_state) : result load_state :=
  match (threat_id <- getitem record "threat_id" ;;
         replace_one encodable "threat_id" threat_id record (coll st)) with
  | Ok (res, c') =>
      if upserted res
      then Ok (mk_load_state (inserted_count st + 1) (updated_count st) c')
      else if 0 <? modified_count res
      then Ok (mk_load_state (inserted_count st) (updated_count st + 1) c')
      else Ok (mk_load_state (inserted_count st) (updated_count st) c')
  | Raise _ =>
      _ <- get record "threat_id" (VStr "unknown") ;;
      Ok st
  end.

Fixpoint load_loop (records : list value) (st : load_state)
  : load_state * option exn :=
  match records with
  | [] => (st, None)
  | record :: rest =>
      match load_record record st with
      | Ok st' => load_loop rest st'
      | Raise e => (st, Some e)
      end
  end.

(** The outcome of a [load_data] call: the boolean it returns, the two
    counters (zero on the paths that do not reach the loop) and the
    collection handle afterwards. *)
Record load_outcome : Type := mk_load_outcome {
  load_ok : bool;
  inserted : Z;
  updated : Z;
  collection_after : option collection
}.

(** [self_collection] is [None] before [connect_to_mongodb] succeeds. *)
Definition load_data (self_collection : option collection)
  (transformed_data : list value) : load_outcome :=
  match transformed_data with
  | [] => mk_load_outcome true 0 0 self_collection
  | _ =>
      match self_collection with
      | None => mk_load_outcome false 0 0 None
      | Some c =>
          match create_indexes index_specs c with
          | (c1, Some _) => mk_load_outcome false 0 0 (Some c1)
          | (c1, None) =>
              match load_loop transformed_data (mk_load_state 0 0 c1) with
              | (st, None) =>
                  mk_load_outcome true (inserted_count st) (updated_count st)
                                  (Some (coll st))
              | (st, Some _) =>
                  mk_load_outcome false (inserted_count st) (updated_count st)
                                  (Some (coll st))
              end
          end
      end
  end.

End Load.

(** ** [get_pipeline_stats] *)

Section Stats.

Variable srv : server.

Fixpoint map_result {A B} (f : A -> result B) (l : list A) : result (list B) :=
  match l with
  | [] => Ok []
  | x :: rest => y <- f x ;; ys <- map_result f rest ;; Ok (y :: ys)
  end.

(** The body of the [try] block for a connected collection.  A document
    the server returns carries its [_id], so [if latest_record:] holds
    whenever one is found. *)
Definition stats_body (c : collection) : result (list (string * value)) :=
  let total_records := count_all c in
  let stats :=
    [("total_threats", VInt total_records);
     ("high_severity_count", VInt (count_documents "threat_severity" (VStr "HIGH") c));
     ("medium_severity_count", VInt (count_documents "threat_severity" (VStr "MEDIUM") c));
     ("active_threats", VInt (count_documents "is_active_threat" (VBool true) c));
     ("recent_threats", VInt (count_documents "is_recent_threat" (VBool true) c));
     ("network_iocs", VInt (count_documents "ioc_category" (VStr "NETWORK") c));
     ("file_iocs", VInt (count_documents "ioc_category" (VStr "FILE") c));
     ("latest_ingestion", VNone);
     ("avg_confidence_level", VInt 0);
     ("top_malware_families", VList [])] in
  if 0 <? total_records then
    stats1 <-
      match find_one_sorted_desc srv "etl_metadata.ingestion_timestamp" (docs c) with
      | Some latest_record =>
          meta <- get latest_record "etl_metadata" (VDict []) ;;
          ts <- get meta "ingestion_timestamp" VNone ;;
          Ok (setitem "latest_ingestion" ts stats)
      | None => Ok stats
      end ;;
    stats2 <-
      match aggregate srv AvgConfidence (docs c) with
      | first :: _ =>
          avg <- get first "avg_confidence" (VInt 0) ;;
          rounded <- round_method avg 1 ;;
          Ok (setitem "avg_confidence_level" rounded stats1)
      | [] => Ok stats1
      end ;;
    families <-
      map_result
        (fun item =>
           family <- getitem item "_id" ;;
           count <- getitem item "count" ;;
           Ok (VDict [("family", family); ("count", count)]))
        (aggregate srv TopMalware (docs c)) ;;
    Ok (setitem "top_malware_families" (VList families) stats2)
  else Ok stats.

Definition get_pipeline_stats (self_collection : option collection) : value :=
  match self_collection with
  | None => VDict []
  | Some c =>
      match stats_body c with
      | Ok stats => VDict stats
      | Raise _ => VDict []
      end
  end.

End Stats.

(** ** [run_etl_pipeline] *)

Section Pipeline.

Variable strptime : string -> string -> option datetime.
Variable now : datetime.
Variable encodable : value -> bool.

(** [connect] is what [connect_to_mongodb] yields ([None]: it returned
    [False]), [extracted] what [extract_data] returned (the empty list on
    any fetch failure), [current_timestamp] the clock reading
    [transform_data] takes.  The result is the returned boolean and the
    collection handle afterwards. *)
Definition run_etl_pipeline (connect : option collection)
  (extracted : list value) (current_timestamp : datetime)
  : bool * option collection :=
  match connect with
  | None => (false, None)
  | Some c =>
      let raw_data := extracted in
      match raw_data with
      | [] => (false, Some c)
      | _ =>
          let transformed_data :=
            transform_data strptime now current_timestamp raw_data in
          match transformed_data with
          | [] => (false, Some c)
          | _ =>
              let out := load_data encodable (Some c) transformed_data in
              if negb (load_ok out) then (false, collection_after out)
              else (true, collection_after out)
          end
      end
  end.

End Pipeline.

(** ** The connector object, [connect_to_mongodb], [extract_data], [main] *)

(** The configuration attributes [_init_] assigns ([rate_limit_delay]
    only sets the length of a sleep and is left out). *)
Record settings : Type := mk_settings {
  base_url : string;
  endpoint : string;
  mongo_uri : string;
  database_name : string;
  collection_name : string
}.

(** An instance of the class.  The class defines [_init_], with single
    underscores, and no [__init__]: the call [ThreatFoxETLConnector()]
    runs none of its assignments and returns an instance without any
    attribute, [Bare].  [Configured] is an instance on which the
    assignments of [_init_] have been made; its second field is
    [self.collection] ([None] until a connection succeeds).  The
    attributes [mongo_client], [database] and [session] are not part of
    the model: [connect_to_mongodb] assigns [mongo_client] before it
    pings, so that after a failed connection the instance differs from
    the one before in that attribute, which this type does not show. *)
Inductive connector : Type :=
| Bare
| Configured (cfg : settings) (self_collection : option collection).

Definition ThreatFoxETLConnector : connector := Bare.

(** What happens when the client pings the deployment of a URI. *)
Inductive reach_outcome : Type :=
| Reached (store : string -> string -> collection)
| Unreachable                 (* a ConnectionFailure *)
| Failed (e : exn).           (* any other exception *)

Section Connect.

Variable reach : string -> reach_outcome.

(** The returned boolean and the instance afterwards, or the exception
    that is not a [ConnectionFailure]. *)
Definition connect_to_mongodb (self : connector) : result (bool * connector) :=
  match self with
  | Bare => Raise AttributeError
  | Configured cfg coll =>
      match reach (mongo_uri cfg) with
      | Reached store =>
          Ok (true,
              Configured cfg
                (Some (store (database_name cfg) (collection_name cfg))))
      | Unreachable => Ok (false, Configured cfg coll)
      | Failed e => Raise e
      end
  end.

End Connect.

(** What [session.get] gives: an exception of [requests], or a response
    with its status code and its body as JSON ([None]: the body does not
    decode). *)
Inductive http_outcome : Type :=
| RequestFailed
| Response (status_code : Z) (json : option value).

(** [response.raise_for_status()] raises on 4xx and 5xx. *)
Definition is_error_status (status_code : Z) : bool :=
  (400 <=? status_code) && (status_code <? 600).

Section Extract.

(** The outcome of the first [session.get], and of the second one, made
    only after a 429. *)
Variable first_get second_get : http_outcome.

(** [datetime.now(timezone.utc).isoformat()] *)
Variable extraction_timestamp : string.

(** The loop that stamps every record, as a traversal that stops at the
    first item that takes no item assignment. *)
Fixpoint add_metadata (meta : value) (items : list value) : result (list value) :=
  match items with
  | [] => Ok []
  | threat :: rest =>
      threat' <- setitem_method threat "extraction_metadata" meta ;;
      rest' <- add_metadata meta rest ;;
      Ok (threat' :: rest')
  end.

(** The records with their metadata, for a decoded body; [threats] is
    returned as the object it is, its dictionaries updated in place. *)
Definition stamp (url : string) (threats : value) : result value :=
  n <- len threats ;;
  let meta := VDict [("extracted_at", VStr extraction_timestamp);
                     ("source_url", VStr url);
                     ("total_records_in_batch", VInt n)] in
  items <- iterate threats ;;
  stamped <- add_metadata meta items ;;
  Ok (match threats with
      | VList _ => VList stamped
      | _ => threats
      end).

(** The body of the [try] block for a configured instance; [None] stands
    for an exception, of whichever of the three handled kinds. *)
Definition extract_body (cfg : settings) : option value :=
  let url := (base_url cfg ++ endpoint cfg)%string in
  match first_get with
  | RequestFailed => None
  | Response status _ =>
      match (if status =? 429 then second_get else first_get) with
      | RequestFailed => None
      | Response status body =>
          if is_error_status status then None
          else
            match body with
            | None => None
            | Some threats =>
                match stamp url threats with
                | Ok stamped => Some stamped
                | Raise _ => None
                end
            end
      end
  end.

(** Every exception ends in the empty list; on an instance without
    attributes the first one is the [AttributeError] of [self.base_url]. *)
Definition extract_data (self : connector) : value :=
  match self with
  | Bare => VList []
  | Configured cfg _ =>
      match extract_body cfg with
      | Some threats => threats
      | None => VList []
      end
  end.

End Extract.

(** How a process ends: [sys.exit(code)], or an exception nobody
    catches. *)
Inductive ending : Type :=
| Exit (code : Z)
| Uncaught (e : exn).

Section Main.

Variable strptime : string -> string -> option datetime.
Variable now : datetime.
Variable encodable : value -> bool.
Variable reach : string -> reach_outcome.
Variable first_get second_get : http_outcome.
Variable extraction_timestamp : string.
Variable current_timestamp : datetime.

(** The records [transform_data] loops over, for what [extract_data]
    returned: a list, or one of the empty values, on which the pipeline
    stops as on the empty list. *)
Definition records_of (raw_data : value) : list value :=
  match raw_data with
  | VList l => l
  | _ => []
  end.

(** [run_etl_pipeline] as a method: steps 1 and 2 are the instance's own
    [connect_to_mongodb] and [extract_data]; an exception of step 1 is
    caught by the outer handler. *)
Definition run_etl_pipeline_method (self : connector) : bool * connector :=
  match connect_to_mongodb reach self with
  | Raise _ => (false, self)
  | Ok (false, self') => (false, self')
  | Ok (true, self') =>
      match self' with
      | Bare => (false, self')
      | Configured cfg coll =>
          let raw_data := extract_data first_get second_get extraction_timestamp self' in
          let (ok, coll') :=
            run_etl_pipeline strptime now encodable coll (records_of raw_data)
                             current_timestamp in
          (ok, Configured cfg coll')
      end
  end.

(** The [try] / [finally] of [main] on a given instance: the exit code
    follows the pipeline, and the [finally] block reads
    [connector.mongo_client] and [connector.session]. *)
Definition main_on (self : connector) : ending * connector :=
  let (success, self') := run_etl_pipeline_method self in
  match self' with
  | Bare => (Uncaught AttributeError, self')
  | Configured _ _ => (Exit (if success then 0 else 1), self')
  end.

(** [main()]: the instance is the one the class call returns. *)
Definition main : ending * connector := main_on ThreatFoxETLConnector.

End Main.

End ThreatFox.

(* ================================================================== *)
(** * The URLhaus connector *)
(* ================================================================== *)

Module UrlHaus.
Import Py Mongo.

(** [load(data)]: [insert_many] appends every document of a non-empty
    batch; nothing is looked up first.  The documents are the ones
    [transform] builds anew for each run, without an [_id]: the server
    gives each inserted copy a fresh one. *)
Definition load (c : collection) (data : list value) : collection :=
  match data with
  | [] => c
  | _ => mk_collection (docs c ++ data) (indexes c)
  end.

(** [transform(data)].  [utcnow i] is the reading of [datetime.utcnow()]
    taken for the item of index [i].  Nothing is caught: an exception
    leaves the function. *)
Definition transform_item (ingested_at : datetime) (item : value) : result value :=
  Py.bind (get item "id" VNone) (fun url_id =>
  Py.bind (get item "url" VNone) (fun url =>
  Py.bind (get item "threat" VNone) (fun threat =>
  Py.bind (get item "url_status" VNone) (fun status =>
  Py.bind (get item "date_added" VNone) (fun date_added =>
  Py.bind (get item "tags" VNone) (fun tags =>
  Ok (VDict [("url_id", url_id); ("url", url); ("threat", threat);
             ("status", status); ("date_added", date_added); ("tags", tags);
             ("ingested_at", VDatetime ingested_at)]))))))).

Fixpoint transform_items (utcnow : nat -> datetime) (i : nat) (items : list value)
  : result (list value) :=
  match items with
  | [] => Ok []
  | item :: rest =>
      Py.bind (transform_item (utcnow i) item) (fun doc =>
      Py.bind (transform_items utcnow (S i) rest) (fun docs =>
      Ok (doc :: docs)))
  end.

Definition transform (utcnow : nat -> datetime) (data : value) : result (list value) :=
  Py.bind (get data "urls" VNone) (fun root =>
  Py.bind (if truthy root then Ok root
           else Py.bind (get data "data" (VDict [])) (fun inner =>
                get inner "urls" (VList []))) (fun urls_data =>
  Py.bind (iterate urls_data) (fun items =>
  transform_items utcnow O items))).

(** The script: [extract], [transform], [load] under one handler that
    prints the exception.  [file] is what [extract] finds: no file, a
    file that is not JSON, or the parsed content; the store is taken to
    be reachable.  The result is the collection afterwards and whether
    the success line was printed. *)
Definition main (utcnow : nat -> datetime) (file : option (option value))
  (c : collection) : collection * bool :=
  match file with
  | None => (c, false)
  | Some None => (c, false)
  | Some (Some raw_data) =>
      match transform utcnow raw_data with
      | Ok clean_data => (load c clean_data, true)
      | Raise _ => (c, false)
      end
  end.

End UrlHaus.

(* ================================================================== *)
(** * Reference instances of the environment *)
(* ================================================================== *)

(** Concrete stand-ins for what the connector takes from its
    environment, used where a statement is evaluated on an example. *)
Module Reference.
Import Py Mongo.

Definition digit (c : ascii) : option Z :=
  let n := nat_of_ascii c in
  if (48 <=? n)%nat && (n <=? 57)%nat then Some (Z.of_nat (n - 48)) else None.

(** Exactly [n] decimal digits. *)
Fixpoint number (n : nat) (acc : Z) (s : string) : option (Z * string) :=
  match n with
  | O => Some (acc, s)
  | S k =>
      match s with
      | String c t =>
          match digit c with
          | Some d => number k (10 * acc + d) t
          | None => None
          end
      | EmptyString => None
      end
  end.

Definition expect (c : ascii) (s : string) : option string :=
  match s with
  | String c' t => if Ascii.eqb c c' then Some t else None
  | EmptyString => None
  end.

Definition is_leap (y : Z) : bool :=
  ((y mod 4 =? 0) && negb (y mod 100 =? 0)) || (y mod 400 =? 0).

Definition days_in_month (y m : Z) : Z :=
  if m =? 2 then (if is_leap y then 29 else 28)
  else if (m =? 4) || (m =? 6) || (m =? 9) || (m =? 11) then 30 else 31.

Definition days_before_month (y m : Z) : Z :=
  List.fold_left (fun acc k => acc + days_in_month y (Z.of_nat k))
                 (List.seq 1 (Z.to_nat (m - 1))) 0.

(** Days from 0001-01-01 to the given date. *)
Definition days_from_civil (y m d : Z) : Z :=
  let y' := y - 1 in
  y' * 365 + y' / 4 - y' / 100 + y' / 400 + days_before_month y m + (d - 1).

Definition parse_date (s : string) : option (Z * string) :=
  match number 4 0 s with
  | Some (y, s1) =>
    match expect "-" s1 with
    | Some s2 =>
      match number 2 0 s2 with
      | Some (m, s3) =>
        match expect "-" s3 with
        | Some s4 =>
          match number 2 0 s4 with
          | Some (d, s5) =>
              if (1 <=? y) && (1 <=? m) && (m <=? 12) && (1 <=? d)
                 && (d <=? days_in_month y m)
              then Some (days_from_civil y m d, s5) else None
          | None => None
          end
        | None => None
        end
      | None => None
      end
    | None => None
    end
  | None => None
  end.

Definition parse_time (s : string) : option (Z * string) :=
  match number 2 0 s with
  | Some (h, s1) =>
    match expect ":" s1 with
    | Some s2 =>
      match number 2 0 s2 with
      | Some (mi, s3) =>
        match expect ":" s3 with
        | Some s4 =>
          match number 2 0 s4 with
          | Some (sec, s5) =>
              if (h <=? 23) && (mi <=? 59) && (sec <=? 59)
              then Some (h * 3600 + mi * 60 + sec, s5) else None
          | None => None
          end
        | None => None
        end
      | None => None
      end
    | None => None
    end
  | None => None
  end.

(** [strptime] on the zero-padded forms of the two formats the connector
    passes. *)
Definition strptime (s fmt : string) : option datetime :=
  if (fmt =? "%Y-%m-%d")%string then
    match parse_date s with
    | Some (days, EmptyString) => Some (days * 86400 * 1000000)
    | _ => None
    end
  else if (fmt =? "%Y-%m-%d %H:%M:%S")%string then
    match parse_date s with
    | Some (days, rest) =>
        match expect " " rest with
        | Some rest' =>
            match parse_time rest' with
            | Some (secs, EmptyString) => Some ((days * 86400 + secs) * 1000000)
            | _ => None
            end
        | None => None
        end
    | None => None
    end
  else None.

(** 2025-01-15 12:00:00 *)
Definition now : datetime :=
  Eval cbv in match strptime "2025-01-15 12:00:00" "%Y-%m-%d %H:%M:%S" with
              | Some t => t
              | None => 0
              end.

(** BSON integers are 64-bit: a document holding a larger [int] is
    refused by the driver. *)
Fixpoint encodable (v : value) : bool :=
  match v with
  | VInt n => (- 2 ^ 63 <=? n) && (n <? 2 ^ 63)
  | VList l => List.forallb encodable l
  | VDict d => List.forallb (fun kv => encodable (snd kv)) d
  | _ => true
  end.

Definition ingestion_timestamp (doc : value) : Z :=
  match field "ingestion_timestamp" (field "etl_metadata" doc) with
  | VDatetime t => t
  | _ => -1
  end.

Definition latest (l : list value) : option value :=
  List.fold_left
    (fun best d =>
       match best with
       | None => Some d
       | Some b => if ingestion_timestamp b <? ingestion_timestamp d
                   then Some d else best
       end) l None.

Definition positive_confidences (l : list value) : list Z :=
  List.flat_map
    (fun d => match field "confidence_level" d with
              | VInt n => if 0 <? n then [n] else []
              | _ => []
              end) l.

Fixpoint bump (family : value) (groups : list (value * Z)) : list (value * Z) :=
  match groups with
  | [] => [(family, 1)]
  | (f, n) :: rest =>
      if value_eqb f family then (f, n + 1) :: rest else (f, n) :: bump family rest
  end.

Fixpoint insert_desc (g : value * Z) (sorted : list (value * Z)) : list (value * Z) :=
  match sorted with
  | [] => [g]
  | h :: rest => if snd h <? snd g then g :: sorted else h :: insert_desc g rest
  end.

Definition top_families (l : list value) : list value :=
  let named := List.filter
                 (fun d => negb (value_eqb (field "malware_family_clean" d)
                                           (VStr "Unknown"))) l in
  let groups := List.fold_left
                  (fun acc d => bump (field "malware_family_clean" d) acc) named [] in
  let sorted := List.fold_right insert_desc [] groups in
  List.map (fun g => VDict [("_id", fst g); ("count", VInt (snd g))])
           (List.firstn 5 sorted).

(** A small in-memory server for integer confidence levels. *)
Definition server : Mongo.server :=
  mk_server
    (fun _ l => latest l)
    (fun p l =>
       match p with
       | AvgConfidence =>
           match positive_confidences l with
           | [] => []
           | cs => [VDict [("_id", VNone);
                           ("avg_confidence",
                            VFloat (float_of_Z (List.fold_left Z.add cs 0)
                                    / float_of_Z (Z.of_nat (List.length cs))))]]
           end
       | TopMalware => top_families l
       end).

End Reference.

(* ================================================================== *)
(** * Facts about values and strings *)
(* ================================================================== *)

Import Py Mongo.
Local Open Scope py_scope.

Section ValueInduction.

Variable P : value -> Prop.
Hypothesis HNone : P VNone.
Hypothesis HBool : forall b, P (VBool b).
Hypothesis HInt : forall n, P (VInt n).
Hypothesis HFloat : forall f, P (VFloat f).
Hypothesis HStr : forall s, P (VStr s).
Hypothesis HList : forall l, Forall P l -> P (VList l).
Hypothesis HDict : forall d, Forall (fun kv => P (snd kv)) d -> P (VDict d).
Hypothesis HDatetime : forall t, P (VDatetime t).

Fixpoint value_ind' (v : value) : P v :=
  match v with
  | VNone => HNone
  | VBool b => HBool b
  | VInt n => HInt n
  | VFloat f => HFloat f
  | VStr s => HStr s
  | VList l =>
      HList l ((fix all (l : list value) : Forall P l :=
                  match l with
                  | [] => Forall_nil P
                  | x :: r => Forall_cons x (value_ind' x) (all r)
                  end) l)
  | VDict d =>
      HDict d ((fix all (d : list (string * value))
                  : Forall (fun kv => P (snd kv)) d :=
                  match d with
                  | [] => Forall_nil _
                  | kv :: r => Forall_cons kv (value_ind' (snd kv)) (all r)
                  end) d)
  | VDatetime t => HDatetime t
  end.

End ValueInduction.

Lemma value_eqb_eq (a b : value) : value_eqb a b = true <-> a = b.
Proof.
  revert b. induction a using value_ind'; intros b0; destruct b0;
    simpl; try (split; [discriminate | congruence]).
  - tauto.
  - rewrite Bool.eqb_true_iff. split; congruence.
  - rewrite Z.eqb_eq. split; congruence.
  - rewrite FloatAxioms.Leibniz.eqb_spec. split; congruence.
  - rewrite String.eqb_eq. split; congruence.
  - revert l0. induction H as [|x l Hx Hl IH]; intros [|y l0];
      try (split; [discriminate | congruence]).
    + tauto.
    + rewrite andb_true_iff, Hx. specialize (IH l0). split.
      * intros [-> Hgo]. apply IH in Hgo. congruence.
      * intros E. inversion E; subst. split; [reflexivity|].
        apply IH. reflexivity.
  - revert d0. induction H as [|[k x] d Hx Hd IH]; intros [|[k' y] d0];
      try (split; [discriminate | congruence]).
    + tauto.
    + rewrite !andb_true_iff, String.eqb_eq. simpl in Hx. rewrite Hx.
      specialize (IH d0). split.
      * intros [[-> ->] Hgo]. apply IH in Hgo. congruence.
      * intros E. inversion E; subst. repeat split. apply IH. reflexivity.
  - rewrite Z.eqb_eq. split; congruence.
Qed.

Lemma value_eqb_refl (a : value) : value_eqb a a = true.
Proof. apply value_eqb_eq. reflexivity. Qed.

Lemma value_eqb_neq (a b : value) : value_eqb a b = false <-> a <> b.
Proof.
  rewrite <- value_eqb_eq. destruct (value_eqb a b); split; congruence.
Qed.

Lemma value_eqb_sym (a b : value) : value_eqb a b = value_eqb b a.
Proof.
  destruct (value_eqb a b) eqn:E.
  - apply value_eqb_eq in E. subst. symmetry. apply value_eqb_refl.
  - apply value_eqb_neq in E. symmetry. apply value_eqb_neq. congruence.
Qed.

(** ** Substrings *)

Lemma prefix_spec (p s : string) :
  String.prefix p s = true <-> exists post, s = p ++ post.
Proof.
  revert s. induction p as [|c p IH]; intros s.
  - split; [intros _; exists s; reflexivity | intros _; destruct s; reflexivity].
  - destruct s as [|c' s]; simpl.
    + split; [discriminate | intros [post E]; discriminate].
    + destruct (Ascii.ascii_dec c c') as [->|Hne].
      * rewrite IH. split; intros [post E]; exists post; simpl in *; congruence.
      * split; [discriminate | intros [post E]; simpl in E; congruence].
Qed.

Lemma contains_cons (needle : string) (c : ascii) (hay : string) :
  contains needle (String c hay)
  = String.prefix needle (String c hay) || contains needle hay.
Proof. reflexivity. Qed.

Lemma contains_nil (needle : string) :
  contains needle "" = String.prefix needle "".
Proof. unfold contains. apply orb_false_r. Qed.

(** [contains] decides occurrence as a contiguous block. *)
Lemma contains_spec (needle hay : string) :
  contains needle hay = true <-> exists pre post, hay = pre ++ needle ++ post.
Proof.
  induction hay as [|c hay IH].
  - rewrite contains_nil, prefix_spec. split.
    + intros [post E]. exists "", post. exact E.
    + intros [[|c pre] [post E]]; simpl in E; [exists post; exact E | discriminate].
  - rewrite contains_cons, orb_true_iff, prefix_spec, IH. split.
    + intros [[post E] | [pre [post E]]].
      * exists "", post. exact E.
      * exists (String c pre), post. simpl. congruence.
    + intros [[|c' pre] [post E]]; simpl in E.
      * left. exists post. exact E.
      * right. exists pre, post. congruence.
Qed.

Lemma lower_app (a b : string) : lower (a ++ b) = lower a ++ lower b.
Proof. induction a; simpl; congruence. Qed.

Lemma lower_app_inv (s a b : string) :
  lower s = a ++ b -> exists x y, s = x ++ y /\ lower x = a /\ lower y = b.
Proof.
  revert s. induction a as [|c a IH]; intros s E; simpl in E.
  - exists "", s. auto.
  - destruct s as [|c' s]; simpl in E; [discriminate|].
    injection E as Ec E. destruct (IH _ E) as (x & y & -> & Hx & Hy).
    exists (String c' x), y. simpl. repeat split; congruence.
Qed.

(** An occurrence of [keyword] in [text] up to the case of ASCII letters. *)
Definition occurs_ignoring_case (keyword text : string) : Prop :=
  exists pre mid post, text = pre ++ mid ++ post /\ lower mid = keyword.

Lemma contains_lower_spec (keyword text : string) :
  contains keyword (lower text) = true <-> occurs_ignoring_case keyword text.
Proof.
  rewrite contains_spec. split.
  - intros (pre & post & E).
    destruct (lower_app_inv _ _ _ E) as (x & y & -> & _ & Hy).
    destruct (lower_app_inv _ _ _ Hy) as (m & z & -> & Hm & _).
    exists x, m, z. auto.
  - intros (pre & mid & post & -> & <-).
    exists (lower pre), (lower post). now rewrite !lower_app.
Qed.

(* ================================================================== *)
(** * Classification helpers *)
(* ================================================================== *)

Import ThreatFox.

(** The threat-type text mentions one of the severity keywords. *)
Definition mentions_severity_keyword (threat_type : string) : Prop :=
  exists keyword,
    In keyword severity_keywords /\ occurs_ignoring_case keyword threat_type.

Lemma mentions_severity_keyword_spec (threat_type : string) :
  List.existsb (fun keyword => contains keyword (lower threat_type))
               severity_keywords = true
  <-> mentions_severity_keyword threat_type.
Proof.
  rewrite existsb_exists. unfold mentions_severity_keyword.
  split; intros (k & Hin & Hk); exists k; split; auto;
    now apply contains_lower_spec.
Qed.

Lemma severity_of_int (confidence : Z) (threat_type malware : string) :
  _calculate_threat_severity (VInt confidence) (VStr threat_type) (VStr malware)
  = Ok (if 75 <=? confidence then "HIGH"
        else if 50 <=? confidence then
               (if List.existsb (fun keyword => contains keyword (lower threat_type))
                                severity_keywords
                then "HIGH" else "MEDIUM")
        else if 25 <=? confidence then "MEDIUM" else "LOW").
Proof.
  unfold _calculate_threat_severity, ge_int, lower_method, bind.
  destruct (75 <=? confidence); [reflexivity|].
  destruct (50 <=? confidence).
  - destruct (List.existsb _ _); reflexivity.
  - destruct (25 <=? confidence); reflexivity.
Qed.

(** C2. On an integer confidence level and two strings the severity
    function always returns a tier: HIGH from 75 up; between 50 and 74,
    HIGH when the threat-type text contains botnet, ransomware or trojan
    in any letter case and MEDIUM otherwise; MEDIUM between 25 and 49;
    LOW below 25.  The malware name plays no part.  The five sample
    values of the specification are included. *)
Theorem C2_severity_tiers :
  (forall (confidence : Z) (threat_type malware : string),
     let severity :=
       _calculate_threat_severity (VInt confidence) (VStr threat_type)
                                  (VStr malware) in
     (exists tier, severity = Ok tier /\ In tier ["HIGH"; "MEDIUM"; "LOW"]) /\
     (75 <= confidence -> severity = Ok "HIGH") /\
     (50 <= confidence < 75 ->
      mentions_severity_keyword threat_type -> severity = Ok "HIGH") /\
     (50 <= confidence < 75 ->
      ~ mentions_severity_keyword threat_type -> severity = Ok "MEDIUM") /\
     (25 <= confidence < 50 -> severity = Ok "MEDIUM") /\
     (confidence < 25 -> severity = Ok "LOW")) /\
  _calculate_threat_severity (VInt 90) (VStr "") (VStr "") = Ok "HIGH" /\
  _calculate_threat_severity (VInt 60) (VStr "ransomware campaign") (VStr "")
  = Ok "HIGH" /\
  _calculate_threat_severity (VInt 60) (VStr "phishing") (VStr "") = Ok "MEDIUM" /\
  _calculate_threat_severity (VInt 30) (VStr "") (VStr "") = Ok "MEDIUM" /\
  _calculate_threat_severity (VInt 10) (VStr "") (VStr "") = Ok "LOW".
Proof.
  split; [|repeat split; reflexivity].
  intros confidence threat_type malware severity. subst severity.
  rewrite severity_of_int.
  pose proof (mentions_severity_keyword_spec threat_type) as Hkw.
  destruct (List.existsb _ _) eqn:Ekw.
  - assert (Hm : mentions_severity_keyword threat_type) by (apply Hkw; reflexivity).
    repeat split.
    + destruct (75 <=? confidence), (50 <=? confidence), (25 <=? confidence);
        eexists; (split; [reflexivity | simpl; tauto]).
    + intros H. apply Z.leb_le in H. now rewrite H.
    + intros [H1 H2] _. apply Z.leb_le in H1. apply Z.leb_gt in H2.
      now rewrite H2, H1.
    + intros _ Hn. contradiction.
    + intros [H1 H2].
      assert (E75 : (75 <=? confidence) = false) by (apply Z.leb_gt; lia).
      assert (E50 : (50 <=? confidence) = false) by (apply Z.leb_gt; lia).
      apply Z.leb_le in H1. now rewrite E75, E50, H1.
    + intros H.
      assert (E75 : (75 <=? confidence) = false) by (apply Z.leb_gt; lia).
      assert (E50 : (50 <=? confidence) = false) by (apply Z.leb_gt; lia).
      assert (E25 : (25 <=? confidence) = false) by (apply Z.leb_gt; lia).
      now rewrite E75, E50, E25.
  - assert (Hm : ~ mentions_severity_keyword threat_type).
    { intros Hm. apply Hkw in Hm. discriminate. }
    repeat split.
    + destruct (75 <=? confidence), (50 <=? confidence), (25 <=? confidence);
        eexists; (split; [reflexivity | simpl; tauto]).
    + intros H. apply Z.leb_le in H. now rewrite H.
    + intros _ Hy. contradiction.
    + intros [H1 H2] _. apply Z.leb_le in H1. apply Z.leb_gt in H2.
      now rewrite H2, H1.
    + intros [H1 H2].
      assert (E75 : (75 <=? confidence) = false) by (apply Z.leb_gt; lia).
      assert (E50 : (50 <=? confidence) = false) by (apply Z.leb_gt; lia).
      apply Z.leb_le in H1. now rewrite E75, E50, H1.
    + intros H.
      assert (E75 : (75 <=? confidence) = false) by (apply Z.leb_gt; lia).
      assert (E50 : (50 <=? confidence) = false) by (apply Z.leb_gt; lia).
      assert (E25 : (25 <=? confidence) = false) by (apply Z.leb_gt; lia).
      now rewrite E75, E50, E25.
Qed.

(** The category as a function of which keywords occur. *)
Lemma category_of_string (ioc_type : string) :
  _categorize_ioc_type (VStr ioc_type)
  = let has := fun keyword => contains keyword (lower ioc_type) in
    Ok (if has "domain" || has "url" then "NETWORK"
        else if has "ip" then "NETWORK"
        else if has "hash" || has "md5" || has "sha" then "FILE"
        else if has "email" then "EMAIL"
        else "OTHER").
Proof.
  unfold _categorize_ioc_type, lower_method, bind. cbv zeta.
  repeat match goal with
         | |- context [if ?b then _ else _] => destruct b; try reflexivity
         end.
Qed.

Ltac decide_occurrence keyword text :=
  let E := fresh "E" in
  let H := fresh "H" in
  destruct (contains keyword (lower text)) eqn:E;
  [ assert (H : occurs_ignoring_case keyword text)
      by (apply contains_lower_spec; exact E)
  | assert (H : ~ occurs_ignoring_case keyword text)
      by (intros H; apply contains_lower_spec in H; congruence) ].

(** C4. The IOC category of a type tag is settled by occurrences, in any
    letter case, tried in a fixed order: domain or url give NETWORK; else
    ip gives NETWORK; else hash, md5 or sha give FILE; else email gives
    EMAIL; else the category is OTHER.  The five sample values of the
    specification are included. *)
Theorem C4_ioc_category_order :
  (forall ioc_type : string,
     let category := _categorize_ioc_type (VStr ioc_type) in
     let has := fun keyword => occurs_ignoring_case keyword ioc_type in
     let network1 := has "domain" \/ has "url" in
     let network2 := has "ip" in
     let file := has "hash" \/ has "md5" \/ has "sha" in
     let email := has "email" in
     (network1 -> category = Ok "NETWORK") /\
     (~ network1 -> network2 -> category = Ok "NETWORK") /\
     (~ network1 -> ~ network2 -> file -> category = Ok "FILE") /\
     (~ network1 -> ~ network2 -> ~ file -> email -> category = Ok "EMAIL") /\
     (~ network1 -> ~ network2 -> ~ file -> ~ email -> category = Ok "OTHER")) /\
  _categorize_ioc_type (VStr "domain") = Ok "NETWORK" /\
  _categorize_ioc_type (VStr "md5_hash") = Ok "FILE" /\
  _categorize_ioc_type (VStr "email_address") = Ok "EMAIL" /\
  _categorize_ioc_type (VStr "ip:port") = Ok "NETWORK" /\
  _categorize_ioc_type (VStr "") = Ok "OTHER".
Proof.
  split; [|repeat split; reflexivity].
  intros ioc_type category has network1 network2 file email.
  subst category has network1 network2 file email. cbv beta.
  rewrite category_of_string. cbv zeta beta.
  decide_occurrence "domain" ioc_type;
  decide_occurrence "url" ioc_type;
  decide_occurrence "ip" ioc_type;
  decide_occurrence "hash" ioc_type;
  decide_occurrence "md5" ioc_type;
  decide_occurrence "sha" ioc_type;
  decide_occurrence "email" ioc_type;
  simpl; repeat split; intros; try reflexivity; tauto.
Qed.

(* ================================================================== *)
(** * Quality score *)
(* ================================================================== *)

(** The score after [k] passed checks: [k] additions of [1/7] to [0.0],
    then [round(_, 2)]. *)
Definition score_of_count (k : nat) : float :=
  round (Nat.iter k (fun s => (s + 1 / total_checks)%float) 0%float) 2.

(** [k/7] rounded to two decimals, for [k = 0 .. 7]. *)
Definition quality_levels : list float :=
  List.map (fun k => round (float_of_Z k / 7)%float 2) [0; 1; 2; 3; 4; 5; 6; 7].

Definition count_passed (checks : list bool) : nat :=
  List.length (List.filter (fun b => b) checks).

Lemma fold_add_check (checks : list bool) (s : float) :
  List.fold_left (fun s passed => add_check passed s) checks s
  = Nat.iter (count_passed checks) (fun s => (s + 1 / total_checks)%float) s.
Proof.
  revert s. induction checks as [|b checks IH]; intros s; [reflexivity|].
  simpl. rewrite IH. destruct b; simpl; [|reflexivity].
  unfold count_passed. clear IH.
  induction (List.length (List.filter (fun b => b) checks)) as [|n IHn];
    simpl; [reflexivity | now rewrite IHn].
Qed.

Lemma count_passed_le_length (checks : list bool) :
  (count_passed checks <= List.length checks)%nat.
Proof. apply List.filter_length_le. Qed.

Lemma count_passed_mono (l l' : list bool) :
  Forall2 (fun b b' => b = true -> b' = true) l l' ->
  (count_passed l <= count_passed l')%nat.
Proof.
  unfold count_passed. induction 1 as [|b b' l l' Hb _ IH]; [apply Nat.le_refl|].
  simpl. destruct b; [rewrite (Hb eq_refl); simpl; lia|].
  destruct b'; simpl; lia.
Qed.

Lemma score_of_count_levels (k : nat) :
  (k <= 7)%nat -> In (score_of_count k) quality_levels.
Proof.
  intros Hk.
  do 8 (destruct k as [|k]; [vm_compute; tauto|]). lia.
Qed.

Lemma score_of_count_range (k : nat) :
  (k <= 7)%nat ->
  PrimFloat.leb 0%float (score_of_count k) = true /\
  PrimFloat.leb (score_of_count k) 1%float = true.
Proof.
  intros Hk.
  do 8 (destruct k as [|k]; [vm_compute; tauto|]). lia.
Qed.

Lemma score_of_count_mono (k k' : nat) :
  (k <= k')%nat -> (k' <= 7)%nat ->
  PrimFloat.leb (score_of_count k) (score_of_count k') = true.
Proof.
  intros Hle Hk'.
  do 8 (destruct k as [|k];
        [do 8 (destruct k' as [|k']; [first [lia | vm_compute; reflexivity]|]); lia|]).
  lia.
Qed.

(** The outcome of the seven presence checks of
    [_calculate_threat_quality], in source order; the last one compares
    and so can raise. *)
Definition quality_checks (threat : value) : result (list bool) :=
  id <- get threat "id" VNone ;;
  ioc_value <- get threat "ioc_value" VNone ;;
  ioc_type <- get threat "ioc_type" VNone ;;
  threat_type <- get threat "threat_type" VNone ;;
  malware <- get threat "malware" VNone ;;
  first_seen <- get threat "first_seen" VNone ;;
  confidence_level <- get threat "confidence_level" (VInt 0) ;;
  positive <- gt_int confidence_level 0 ;;
  Ok [truthy id; truthy ioc_value; truthy ioc_type; truthy threat_type;
      truthy malware; truthy first_seen; positive].

(** What [_calculate_threat_quality] returns, through the outcome of the
    seven checks. *)
Lemma quality_by_checks (threat : value) (score : float) :
  _calculate_threat_quality threat = Ok score ->
  exists checks,
    quality_checks threat = Ok checks /\ List.length checks = 7%nat /\
    score = score_of_count (count_passed checks).
Proof.
  unfold _calculate_threat_quality, quality_checks.
  destruct threat as [| | | | | |m|]; try discriminate.
  simpl get. cbn [bind].
  destruct (gt_int _ 0) as [positive|e]; cbn [bind]; [|discriminate].
  intros [= <-]. eexists. split; [reflexivity|]. split; [reflexivity|].
  unfold score_of_count. now rewrite <- fold_add_check.
Qed.

(** A field of a raw record passes its presence check. *)
Definition present (threat : value) (key : string) : Prop :=
  exists v, get threat key VNone = Ok v /\ truthy v = true.

(** The confidence level of a raw record is above zero. *)
Definition positive_confidence (threat : value) : Prop :=
  exists v, get threat "confidence_level" (VInt 0) = Ok v /\ gt_int v 0 = Ok true.

Definition presence_keys : list string :=
  ["id"; "ioc_value"; "ioc_type"; "threat_type"; "malware"; "first_seen"].

(** [threat'] passes every presence check that [threat] passes. *)
Definition passes_superset (threat threat' : value) : Prop :=
  (forall key, In key presence_keys -> present threat key -> present threat' key) /\
  (positive_confidence threat -> positive_confidence threat').

Lemma get_dict_ok (threat : value) (key : string) (default v : value) :
  get threat key default = Ok v -> exists m, threat = VDict m.
Proof. destruct threat; simpl; try discriminate. eauto. Qed.

Lemma checks_superset (threat threat' : value) (checks checks' : list bool) :
  quality_checks threat = Ok checks ->
  quality_checks threat' = Ok checks' ->
  passes_superset threat threat' ->
  Forall2 (fun b b' => b = true -> b' = true) checks checks'.
Proof.
  intros E E' [Hkeys Hconf].
  destruct threat as [| | | | | |m|]; try discriminate E.
  destruct threat' as [| | | | | |m'|]; try discriminate E'.
  unfold quality_checks in E, E'. simpl in E, E'.
  destruct (gt_int _ 0) as [p|] eqn:Ep in E; simpl in E; [|discriminate].
  destruct (gt_int _ 0) as [p'|] eqn:Ep' in E'; simpl in E'; [|discriminate].
  injection E as <-. injection E' as <-.
  assert (Hk : forall key, In key presence_keys ->
             truthy (match assoc key m with Some v => v | None => VNone end) = true ->
             truthy (match assoc key m' with Some v => v | None => VNone end) = true).
  { intros key Hin Ht.
    destruct (Hkeys key Hin) as (v' & Hv' & Htv').
    - eexists. split; [reflexivity | exact Ht].
    - simpl in Hv'. injection Hv' as <-. exact Htv'. }
  repeat constructor; try (apply Hk; simpl; tauto).
  intros ->. destruct Hconf as (v' & Hv' & Hgt).
  - eexists. split; [reflexivity | exact Ep].
  - simpl in Hv'. injection Hv' as <-. congruence.
Qed.

(** C3. Whenever the quality score of a raw record is computed, it is one
    of the eight values k/7 (k = 0..7) rounded to two decimals, so it
    lies between 0.0 and 1.0; and a record that passes every presence
    check another record passes never scores lower than that record. *)
Theorem C3_quality_score_levels_and_monotone :
  forall (threat : value) (score : float),
    _calculate_threat_quality threat = Ok score ->
    In score quality_levels /\
    PrimFloat.leb 0%float score = true /\
    PrimFloat.leb score 1%float = true /\
    (forall (threat' : value) (score' : float),
       _calculate_threat_quality threat' = Ok score' ->
       passes_superset threat threat' ->
       PrimFloat.leb score score' = true).
Proof.
  intros threat score H.
  destruct (quality_by_checks _ _ H) as (checks & Hc & Hlen & ->).
  pose proof (count_passed_le_length checks) as Hle. rewrite Hlen in Hle.
  split; [now apply score_of_count_levels|].
  destruct (score_of_count_range _ Hle) as [H0 H1].
  repeat split; trivial.
  intros threat' score' H' Hsup.
  destruct (quality_by_checks _ _ H') as (checks' & Hc' & Hlen' & ->).
  pose proof (count_passed_le_length checks') as Hle'. rewrite Hlen' in Hle'.
  apply score_of_count_mono; [|exact Hle'].
  apply count_passed_mono. eapply checks_superset; eassumption.
Qed.

(* ================================================================== *)
(** * Malware family name *)
(* ================================================================== *)

(** [s.replace(old, '')] as a relation: scanning left to right, an
    occurrence of [old] at the current position is dropped, any other
    character is kept. *)
Inductive removed (old : string) : string -> string -> Prop :=
| removed_nil : removed old "" ""
| removed_hit (s out : string) :
    removed old s out -> removed old (old ++ s) out
| removed_keep (c : ascii) (s out : string) :
    String.prefix old (String c s) = false ->
    removed old s out -> removed old (String c s) (String c out).

Lemma length_app (a b : string) :
  String.length (a ++ b) = (String.length a + String.length b)%nat.
Proof. induction a; simpl; congruence. Qed.

Lemma replace_from_skip (old new a s : string) :
  replace_from old new (String.length a) (a ++ s) = replace_from old new O s.
Proof. induction a; simpl; auto. Qed.

Lemma replace_hit (old new s : string) :
  old <> "" -> replace old new (old ++ s) = new ++ replace old new s.
Proof.
  destruct old as [|c o]; [congruence|]. intros _. unfold replace.
  change (String c o ++ s) with (String c (o ++ s)).
  assert (Hp : String.prefix (String c o) (String c (o ++ s)) = true).
  { apply prefix_spec. exists s. reflexivity. }
  cbn [replace_from]. rewrite Hp. f_equal. apply replace_from_skip.
Qed.

Lemma replace_keep (old new : string) (c : ascii) (s : string) :
  String.prefix old (String c s) = false ->
  replace old new (String c s) = String c (replace old new s).
Proof. intros Hp. unfold replace. cbn [replace_from]. now rewrite Hp. Qed.

(** The executable [replace] meets the relation. *)
Lemma replace_removed (old s : string) :
  old <> "" -> removed old s (replace old "" s).
Proof.
  intros Hold. remember (String.length s) as n eqn:Hn. revert s Hn.
  induction n as [n IH] using lt_wf_ind. intros s Hn.
  destruct s as [|c s]; [constructor|].
  destruct (String.prefix old (String c s)) eqn:Hp.
  - apply prefix_spec in Hp. destruct Hp as [post E]. rewrite E.
    rewrite replace_hit by assumption. simpl. constructor.
    apply (IH (String.length post)); [|reflexivity].
    subst n. rewrite E, length_app.
    destruct old; [congruence | simpl; lia].
  - rewrite replace_keep by assumption. constructor; [assumption|].
    apply (IH (String.length s)); [subst n; simpl; lia | reflexivity].
Qed.

(** The rule [_clean_malware_name] applies to the chosen name. *)
Definition clean_rule (name : string) : string :=
  let cleaned := replace "trojan:" "" (replace "win32:" "" (strip name)) in
  if (cleaned =? "")%string then "Unknown" else title cleaned.

Lemma clean_of_strings (printable raw : string) :
  _clean_malware_name (or_else (VStr printable) (VStr raw))
  = Ok (clean_rule (if (printable =? "")%string then raw else printable)).
Proof.
  unfold or_else, _clean_malware_name, clean_rule. simpl truthy.
  destruct (printable =? "")%string eqn:Ep; simpl.
  - destruct (raw =? "")%string eqn:Er; simpl; [|reflexivity].
    apply String.eqb_eq in Er. subst raw. reflexivity.
  - rewrite Ep. reflexivity.
Qed.

(** The cleaning rule in the words of the specification: the chosen name
    is trimmed, a leading "win32:" and a leading "trojan:" are dropped
    whatever their letter case, the rest is title-cased, and an empty
    rest gives "Unknown". *)
Definition drop_prefix_ignoring_case (p s : string) : string :=
  if String.prefix p (lower s)
  then String.substring (String.length p) (String.length s - String.length p) s
  else s.

Definition cleaned_name_as_specified (printable raw : string) : string :=
  let name := strip (if (printable =? "")%string then raw else printable) in
  let rest := drop_prefix_ignoring_case "trojan:"
                (drop_prefix_ignoring_case "win32:" name) in
  if (rest =? "")%string then "Unknown" else title rest.

(* ================================================================== *)
(** * The transform step *)
(* ================================================================== *)

Definition is_str (v : value) : bool :=
  match v with VStr _ => true | _ => false end.

Definition is_number (v : value) : bool :=
  match v with VInt _ | VBool _ | VFloat _ => true | _ => false end.

Definition is_dict (v : value) : bool :=
  match v with VDict _ => true | _ => false end.

(** What [_parse_threatfox_date] accepts without raising: a string, or
    anything falsy. *)
Definition date_like (v : value) : bool := is_str v || negb (truthy v).

(** The fields [transform_data] calls [strip] on. *)
Definition trimmed_fields : list string :=
  ["ioc_value"; "ioc_type"; "threat_type"; "malware"; "malware_alias";
   "malware_printable"; "reference"; "reporter"].

Definition item_or (m : list (string * value)) (key : string) (default : value)
  : value :=
  match assoc key m with Some v => v | None => default end.

(** The raw records the transform step turns into a document: a
    dictionary whose trimmed fields are strings where present, whose two
    date fields are strings or falsy, whose confidence level is a number
    and whose extraction metadata is a dictionary. *)
Definition transformable (threat_record : value) : bool :=
  match threat_record with
  | VDict m =>
      List.forallb (fun key => is_str (item_or m key (VStr ""))) trimmed_fields
      && date_like (item_or m "first_seen" (VStr ""))
      && date_like (item_or m "last_seen" (VStr ""))
      && is_number (item_or m "confidence_level" (VInt 0))
      && is_dict (item_or m "extraction_metadata" (VDict []))
  | _ => false
  end.

Lemma bind_ok_inv {A B} (m : result A) (k : A -> result B) (b : B) :
  bind m k = Ok b -> exists a, m = Ok a /\ k a = Ok b.
Proof. destruct m; simpl; [eauto | discriminate]. Qed.

Ltac invert_ok H :=
  repeat (cbv beta zeta in H;
          match type of H with
          | bind _ _ = Ok _ =>
              let a := fresh "v" in
              let E := fresh "E" in
              apply bind_ok_inv in H; destruct H as (a & E & H)
          end).

Lemma get_dict (m : list (string * value)) (key : string) (default : value) :
  get (VDict m) key default = Ok (item_or m key default).
Proof. reflexivity. Qed.

Lemma is_str_inv (v : value) : is_str v = true -> exists s, v = VStr s.
Proof. destruct v; try discriminate. eauto. Qed.

Lemma is_dict_inv (v : value) : is_dict v = true -> exists m, v = VDict m.
Proof. destruct v; try discriminate. eauto. Qed.

Lemma strip_ok_is_str (v : value) (s : string) :
  strip_method v = Ok s -> is_str v = true.
Proof. destruct v; simpl; congruence. Qed.

Lemma ge_int_ok_number (v : value) (n : Z) (b : bool) :
  ge_int v n = Ok b -> is_number v = true.
Proof. destruct v; simpl; congruence. Qed.

Lemma ge_int_number (v : value) (n : Z) :
  is_number v = true -> exists b, ge_int v n = Ok b.
Proof. destruct v; simpl; try discriminate; eauto. Qed.

Lemma gt_int_number (v : value) (n : Z) :
  is_number v = true -> exists b, gt_int v n = Ok b.
Proof. destruct v; simpl; try discriminate; eauto. Qed.

Lemma severity_total (confidence : value) (threat_type : string) (malware : value) :
  is_number confidence = true ->
  exists tier,
    _calculate_threat_severity confidence (VStr threat_type) malware = Ok tier.
Proof.
  intros Hn. unfold _calculate_threat_severity.
  destruct (ge_int_number _ 75 Hn) as [b75 ->].
  destruct (ge_int_number _ 50 Hn) as [b50 ->].
  destruct (ge_int_number _ 25 Hn) as [b25 ->].
  simpl. destruct b75; [eauto|]. destruct b50.
  - match goal with
    | |- context [if ?b then _ else _] => destruct b; eauto
    end.
  - destruct b25; eauto.
Qed.

Lemma severity_ok_number (confidence threat_type malware : value) (tier : string) :
  _calculate_threat_severity confidence threat_type malware = Ok tier ->
  is_number confidence = true.
Proof.
  unfold _calculate_threat_severity. intros H.
  apply bind_ok_inv in H. destruct H as (b & E & _).
  eapply ge_int_ok_number. exact E.
Qed.

Lemma quality_total (m : list (string * value)) :
  is_number (item_or m "confidence_level" (VInt 0)) = true ->
  exists score, _calculate_threat_quality (VDict m) = Ok score.
Proof.
  intros Hn. unfold _calculate_threat_quality, quality_checks.
  rewrite !get_dict. cbn [bind].
  destruct (gt_int_number _ 0 Hn) as [b ->]. cbn [bind]. eauto.
Qed.

Section TransformFacts.

Variable strptime : string -> string -> option datetime.
Variable now : datetime.
Variable current_timestamp : datetime.

Local Abbreviation parse := (_parse_threatfox_date strptime).
Local Abbreviation transform := (transform_record strptime now current_timestamp).

Lemma parse_total (v : value) :
  date_like v = true -> exists o, parse v = Ok o.
Proof.
  unfold date_like, _parse_threatfox_date. intros H.
  destruct (truthy v) eqn:Et; simpl; [|eauto].
  rewrite orb_false_r in H. destruct (is_str_inv _ H) as [s ->].
  destruct (strptime s _); [eauto|]. destruct (strptime s _); eauto.
Qed.

Lemma parse_ok_date_like (v : value) (o : option datetime) :
  parse v = Ok o -> date_like v = true.
Proof.
  unfold date_like, _parse_threatfox_date.
  destruct (truthy v); simpl; [|intros _; apply orb_true_r].
  destruct v; try discriminate. reflexivity.
Qed.

(** A string that matches neither format parses to [None] without an
    exception. *)
Lemma parse_unparseable (s : string) :
  strptime s "%Y-%m-%d %H:%M:%S" = None ->
  strptime s "%Y-%m-%d" = None ->
  parse (VStr s) = Ok None.
Proof.
  intros H1 H2. unfold _parse_threatfox_date.
  destruct (truthy (VStr s)); simpl; [|reflexivity]. now rewrite H1, H2.
Qed.

(** The transform step succeeds exactly on the transformable records. *)
Lemma transform_ok_transformable (threat_record doc : value) :
  transform threat_record = Ok doc -> transformable threat_record = true.
Proof.
  intros H. unfold transform_record in H. invert_ok H.
  destruct (get_dict_ok _ _ _ _ E) as [m ->].
  rewrite get_dict in *.
  repeat match goal with
         | E : Ok _ = Ok ?x |- _ => injection E as E; try subst x
         end.
  unfold transformable, trimmed_fields. cbn [List.forallb].
  repeat match goal with
         | E : strip_method _ = Ok _ |- _ => apply strip_ok_is_str in E; rewrite E
         | E : parse _ = Ok _ |- _ => apply parse_ok_date_like in E; rewrite E
         | E : _calculate_threat_severity _ _ _ = Ok _ |- _ =>
             apply severity_ok_number in E; rewrite E
         end.
  simpl.
  match goal with
  | E : get ?meta "extracted_at" _ = Ok _ |- _ =>
      destruct (get_dict_ok _ _ _ _ E) as [em Hem]
  end.
  rewrite Hem. reflexivity.
Qed.

Lemma transformable_transform_ok (threat_record : value) :
  transformable threat_record = true -> exists doc, transform threat_record = Ok doc.
Proof.
  destruct threat_record as [| | | | | |m|]; try discriminate.
  unfold transformable, trimmed_fields. cbn [List.forallb].
  rewrite !andb_true_iff.
  intros [[[[(H1 & H2 & H3 & H4 & H5 & H6 & H7 & H8 & _) Hf] Hl] Hc] Hm].
  destruct (is_str_inv _ H1) as [s1 E1]. destruct (is_str_inv _ H2) as [s2 E2].
  destruct (is_str_inv _ H3) as [s3 E3]. destruct (is_str_inv _ H4) as [s4 E4].
  destruct (is_str_inv _ H5) as [s5 E5]. destruct (is_str_inv _ H6) as [s6 E6].
  destruct (is_str_inv _ H7) as [s7 E7]. destruct (is_str_inv _ H8) as [s8 E8].
  destruct (parse_total _ Hf) as [fs Efs]. destruct (parse_total _ Hl) as [ls Els].
  destruct (is_dict_inv _ Hm) as [em Eem].
  destruct (quality_total m Hc) as [q Eq].
  unfold transform_record. rewrite !get_dict. cbn [bind].
  rewrite Efs, Els, E1, E2, E3, E4, E5, E6, E7, E8, Eq, Eem. cbn [bind].
  destruct (severity_total _ s3 (VStr s4) Hc) as [tier ->].
  rewrite category_of_string, clean_of_strings. cbv zeta.
  cbn [bind strip_method]. rewrite !get_dict. cbn [bind]. eauto.
Qed.

Lemma transform_raise_iff (threat_record : value) :
  transformable threat_record = false <-> exists e, transform threat_record = Raise e.
Proof.
  split.
  - intros Hf. destruct (transform threat_record) as [doc|e] eqn:E; [|eauto].
    apply transform_ok_transformable in E. congruence.
  - intros [e He]. destruct (transformable threat_record) eqn:Ht; [|reflexivity].
    destruct (transformable_transform_ok _ Ht) as [doc Hd]. congruence.
Qed.

End TransformFacts.

Local Open Scope list_scope.

Section TransformClaims.

Variable strptime : string -> string -> option datetime.
Variable now : datetime.
Variable current_timestamp : datetime.

Local Abbreviation transform := (transform_record strptime now current_timestamp).
Local Abbreviation transform_all := (transform_data strptime now current_timestamp).

(** What a produced document holds in the fields the claims speak of. *)
Lemma transform_ok_fields (threat_record doc : value) :
  transform threat_record = Ok doc ->
  exists m printable raw first_seen_parsed,
    threat_record = VDict m /\
    item_or m "malware_printable" (VStr "") = VStr printable /\
    item_or m "malware" (VStr "") = VStr raw /\
    _parse_threatfox_date strptime (item_or m "first_seen" (VStr ""))
    = Ok first_seen_parsed /\
    getitem doc "threat_id" = Ok (item_or m "id" (VStr "unknown")) /\
    field "first_seen" doc = item_or m "first_seen" (VStr "") /\
    field "first_seen_parsed" doc = of_optional_datetime first_seen_parsed /\
    field "is_recent_threat" doc = VBool (_is_recent_threat now first_seen_parsed) /\
    field "days_since_first_seen" doc
    = of_optional_int (_days_since_date now first_seen_parsed) /\
    field "threat_age_category" doc
    = VStr (_categorize_threat_age now first_seen_parsed) /\
    field "malware_family_clean" doc
    = VStr (clean_rule (if (printable =? "")%string then raw else printable)).
Proof.
  intros H. unfold transform_record in H. invert_ok H.
  destruct (get_dict_ok _ _ _ _ E) as [m ->].
  rewrite get_dict in *.
  repeat match goal with
         | E : Ok _ = Ok ?x |- _ => injection E as E; try subst x
         end.
  match goal with
  | E : strip_method (item_or m "malware_printable" _) = Ok _ |- _ =>
      destruct (is_str_inv _ (strip_ok_is_str _ _ E)) as [printable Ep]
  end.
  match goal with
  | E : strip_method (item_or m "malware" _) = Ok _ |- _ =>
      destruct (is_str_inv _ (strip_ok_is_str _ _ E)) as [raw Er]
  end.
  match goal with
  | E : _clean_malware_name _ = Ok _ |- _ =>
      rewrite Ep, Er, clean_of_strings in E; injection E as E
  end.
  match goal with
  | E : _parse_threatfox_date _ (item_or m "first_seen" _) = Ok ?o |- _ =>
      exists m, printable, raw, o
  end.
  subst. repeat split; try assumption; reflexivity.
Qed.

(** The trimmed copies: a produced document holds, for each trimmed
    field, the stripped string of the record, the empty string when the
    key is absent. *)
Lemma transform_ok_trimmed (m : list (string * value)) (doc : value) (name : string) :
  transform (VDict m) = Ok doc ->
  In name trimmed_fields ->
  exists s, item_or m name (VStr "") = VStr s /\ field name doc = VStr (strip s).
Proof.
  intros H Hin. unfold transform_record in H. invert_ok H.
  rewrite get_dict in *.
  repeat match goal with
         | E : Ok _ = Ok ?x |- _ => injection E as E; try subst x
         end.
  repeat match goal with
         | E : strip_method ?v = Ok ?s |- _ =>
             let Es := fresh "Es" in
             destruct (is_str_inv _ (strip_ok_is_str _ _ E)) as [? Es];
             rewrite Es in E; simpl in E; injection E as E; subst s
         end.
  simpl in Hin.
  repeat (destruct Hin as [<- | Hin]; [eexists; split; [eassumption | reflexivity]|]).
  contradiction.
Qed.


Lemma transform_step_fold (raw_data acc : list value) :
  List.fold_left (transform_step strptime now current_timestamp) raw_data acc
  = (acc ++ List.flat_map
              (fun r => match transform r with Ok doc => [doc] | Raise _ => [] end)
              raw_data)%list.
Proof.
  revert acc. induction raw_data as [|r raw IH]; intros acc; simpl.
  - now rewrite app_nil_r.
  - rewrite IH. unfold transform_step. destruct (transform r); simpl.
    + now rewrite <- app_assoc.
    + reflexivity.
Qed.

(** The transformed batch holds, in order, the documents of the records
    whose derivation did not raise. *)
Lemma transform_data_flat_map (raw_data : list value) :
  transform_all raw_data
  = List.flat_map
      (fun r => match transform r with Ok doc => [doc] | Raise _ => [] end)
      raw_data.
Proof. unfold transform_data. now rewrite transform_step_fold. Qed.

Lemma transform_data_app (l1 l2 : list value) :
  transform_all (l1 ++ l2) = (transform_all l1 ++ transform_all l2)%list.
Proof. rewrite !transform_data_flat_map. apply flat_map_app. Qed.


(** C5 (as amended).  For a record that is transformed, the cleaned
    family name is obtained from the printable name when that is not
    empty and from the raw malware name otherwise: the name is trimmed,
    every occurrence of the exact text win32: is deleted, then every
    occurrence of the exact text trojan:, and what is left is title-cased,
    an empty rest giving Unknown. *)
Theorem C5_family_clean_exact_noise :
  forall threat_record doc : value,
    transform threat_record = Ok doc ->
    exists printable raw mid cleaned : string,
      get threat_record "malware_printable" (VStr "") = Ok (VStr printable) /\
      get threat_record "malware" (VStr "") = Ok (VStr raw) /\
      removed "win32:"
              (strip (if (printable =? "")%string then raw else printable)) mid /\
      removed "trojan:" mid cleaned /\
      field "malware_family_clean" doc
      = VStr (if (cleaned =? "")%string then "Unknown" else title cleaned).
Proof.
  intros r doc H.
  destruct (transform_ok_fields _ _ H)
    as (m & printable & raw & fs & -> & Ep & Er & _ & _ & _ & _ & _ & _ & _ & Hfam).
  exists printable, raw. eexists. eexists.
  rewrite !get_dict, Ep, Er. repeat split.
  - apply replace_removed. discriminate.
  - apply replace_removed. discriminate.
  - exact Hfam.
Qed.

(** C6 (as amended).  For a transformable record whose first-seen string
    matches neither date format, the transform step produces a document
    whose parsed first-seen is null, whose recency flag is false, whose
    days-since-first-seen is null and whose age category is Unknown. *)
Theorem C6_unparseable_first_seen :
  forall (threat_record : value) (s : string),
    get threat_record "first_seen" (VStr "") = Ok (VStr s) ->
    strptime s "%Y-%m-%d %H:%M:%S" = None ->
    strptime s "%Y-%m-%d" = None ->
    transformable threat_record = true ->
    exists doc,
      transform threat_record = Ok doc /\
      transform_all [threat_record] = [doc] /\
      field "first_seen_parsed" doc = VNone /\
      field "is_recent_threat" doc = VBool false /\
      field "days_since_first_seen" doc = VNone /\
      field "threat_age_category" doc = VStr "Unknown".
Proof.
  intros r s Hs H1 H2 Ht.
  destruct (transformable_transform_ok strptime now current_timestamp _ Ht)
    as [doc Hdoc].
  exists doc. split; [exact Hdoc|].
  split; [rewrite transform_data_flat_map; simpl; now rewrite Hdoc|].
  destruct (transform_ok_fields _ _ Hdoc)
    as (m & printable & raw & fs & -> & _ & _ & Hp & _ & _ & F1 & F2 & F3 & F4 & _).
  rewrite get_dict in Hs. injection Hs as Hs.
  rewrite Hs, (parse_unparseable strptime s H1 H2) in Hp. injection Hp as <-.
  repeat split; assumption.
Qed.


End TransformClaims.

(* ================================================================== *)
(** * The load step *)
(* ================================================================== *)

(** The upsert key of a stored or incoming document. *)
Definition key (doc : value) : value := field "threat_id" doc.

Definition keys (l : list value) : list value := List.map key l.

(** A canonical document: a dictionary that carries a [threat_id]. *)
Definition canonical (doc : value) : Prop :=
  exists m k, doc = VDict m /\ assoc "threat_id" m = Some k.

(** The identifiers on which the equality match of the store is the
    structural one of [Mongo.matches]: strings, booleans, null and
    integers.  A float is matched by its numeric value, an array also
    by its elements, and a dictionary in a filter is read as query
    operators; [transform_data] passes an identifier through as it
    came, so the statements on stored keys assume the identifiers of
    the stored and of the loaded documents to be plain. *)
Definition plain (v : value) : bool :=
  match v with
  | VNone | VBool _ | VInt _ | VStr _ => true
  | _ => false
  end.

Definition plain_keys (l : list value) : Prop :=
  Forall (fun doc => plain (key doc) = true) l.

Lemma matches_key (k doc : value) :
  matches "threat_id" k doc = true <-> key doc = k.
Proof. unfold matches, key. apply value_eqb_eq. Qed.

Lemma matches_not_key (k doc : value) :
  matches "threat_id" k doc = false <-> key doc <> k.
Proof. unfold matches, key. apply value_eqb_neq. Qed.

Lemma existsb_value_eqb (v : value) (l : list value) :
  List.existsb (value_eqb v) l = true <-> In v l.
Proof.
  rewrite existsb_exists. split.
  - intros (x & Hin & E). apply value_eqb_eq in E. now subst.
  - intros Hin. exists v. split; [assumption | apply value_eqb_refl].
Qed.

Lemma has_duplicates_NoDup (l : list value) :
  has_duplicates l = false <-> NoDup l.
Proof.
  induction l as [|v l IH]; simpl.
  - split; [constructor | reflexivity].
  - rewrite orb_false_iff, IH. split.
    + intros [He Hn]. constructor; [|assumption].
      intros Hin. apply existsb_value_eqb in Hin. congruence.
    + intros Hnd. inversion Hnd as [|? ? Hnin Hnd']; subst. split; [|assumption].
      destruct (List.existsb (value_eqb v) l) eqn:E; [|reflexivity].
      apply existsb_value_eqb in E. contradiction.
Qed.

Lemma canonical_getitem (doc : value) :
  canonical doc -> getitem doc "threat_id" = Ok (key doc).
Proof.
  intros (m & k & -> & Hk). unfold key. simpl. now rewrite Hk.
Qed.

Lemma canonical_get (doc : value) (default : value) :
  canonical doc -> exists v, get doc "threat_id" default = Ok v.
Proof. intros (m & k & -> & Hk). simpl. eauto. Qed.

(** ** [replace_one] on the key *)

Lemma replace_first_absent (k doc : value) (l : list value) :
  ~ In k (keys l) ->
  replace_first "threat_id" k doc l = (mk_update_result true 0 0, l ++ [doc]).
Proof.
  induction l as [|d l IH]; simpl; intros Hnin; [reflexivity|].
  destruct (matches "threat_id" k d) eqn:Em.
  - apply matches_key in Em. tauto.
  - rewrite IH by tauto. reflexivity.
Qed.

Lemma replace_first_present (k doc : value) (l : list value) :
  key doc = k ->
  In k (keys l) ->
  exists modified l',
    replace_first "threat_id" k doc l = (mk_update_result false 1 modified, l') /\
    keys l' = keys l /\
    In doc l' /\
    (forall x, In x l -> key x <> k -> In x l') /\
    (forall x, In x l' -> x = doc \/ In x l).
Proof.
  intros Hk. induction l as [|d l IH]; simpl; intros Hin; [contradiction|].
  destruct (matches "threat_id" k d) eqn:Em.
  - apply matches_key in Em. eexists. eexists. split; [reflexivity|].
    simpl. repeat split.
    + congruence.
    + now left.
    + intros x [-> | Hx] Hne; [contradiction | now right].
    + intros x [<- | Hx]; auto.
  - apply matches_not_key in Em.
    destruct Hin as [Hd | Hin]; [contradiction|].
    destruct (IH Hin) as (modified & l' & -> & Hkeys & Hdoc & Hkeep & Hfrom).
    exists modified, (d :: l'). split; [reflexivity|]. simpl. repeat split.
    + congruence.
    + now right.
    + intros x [-> | Hx] Hne; [now left | right; auto].
    + intros x [<- | Hx]; [auto|]. destruct (Hfrom x Hx); auto.
Qed.


(** What is stored after a replacement was stored before, or is the
    replacement. *)
Lemma replace_first_from (name : string) (v doc : value) (l : list value) (x : value) :
  In x (snd (replace_first name v doc l)) -> x = doc \/ In x l.
Proof.
  induction l as [|d l IH]; simpl.
  - intros [<- | []]. now left.
  - destruct (matches name v d); simpl.
    + intros [<- | Hx]; auto.
    + destruct (replace_first name v doc l) as [r l']. simpl in *.
      intros [<- | Hx]; [auto|]. destruct (IH Hx); auto.
Qed.

Lemma In_keys_dec (k : value) (l : list value) :
  {In k (keys l)} + {~ In k (keys l)}.
Proof.
  destruct (List.existsb (value_eqb k) (keys l)) eqn:E.
  - left. now apply existsb_value_eqb.
  - right. intros Hin. apply existsb_value_eqb in Hin. congruence.
Qed.

Lemma count_one (k : value) (l : list value) :
  NoDup (keys l) -> In k (keys l) ->
  List.length (List.filter (matches "threat_id" k) l) = 1%nat.
Proof.
  induction l as [|d l IH]; simpl; intros Hnd Hin; [contradiction|].
  inversion Hnd as [|? ? Hnin Hnd']; subst.
  destruct (matches "threat_id" k d) eqn:Em.
  - apply matches_key in Em. simpl. f_equal.
    assert (Hnone : forall x, In x l -> matches "threat_id" k x = false).
    { intros x Hx. apply matches_not_key. intros Ex. apply Hnin.
      rewrite Em, <- Ex. now apply in_map. }
    clear -Hnone. induction l as [|x l IHl]; [reflexivity|]. simpl.
    rewrite (Hnone x) by now left. apply IHl. intros y Hy. apply Hnone. now right.
  - apply matches_not_key in Em. destruct Hin as [Hd | Hin]; [contradiction|].
    now apply IH.
Qed.

(** ** Index creation *)

(** The collection respects the key (no two stored documents share a
    [threat_id]) and none of its indexes has other options than the ones
    [load_data] asks for. *)
Definition compatible (c : collection) : bool :=
  negb (has_duplicates (keys (docs c)))
  && List.forallb
       (fun spec =>
          match find_index (fst spec) c with
          | Some i => Bool.eqb (idx_unique i) (snd spec)
          | None => true
          end) index_specs.

(** Every index [load_data] asks for exists with the options asked for. *)
Definition indexed (c : collection) : Prop :=
  forall name u, In (name, u) index_specs ->
    exists i, find_index name c = Some i /\ idx_unique i = u.

Lemma find_index_snoc (name : string) (d : list value) (idx : list index) (i : index) :
  find_index name (mk_collection d (idx ++ [i]))
  = match find_index name (mk_collection d idx) with
    | Some x => Some x
    | None => if (idx_field i =? name)%string then Some i else None
    end.
Proof.
  unfold find_index. simpl. induction idx as [|x idx IH]; simpl.
  - destruct (idx_field i =? name)%string; reflexivity.
  - destruct (idx_field x =? name)%string; [reflexivity | exact IH].
Qed.

Lemma create_indexes_ok (specs : list (string * bool)) :
  forall c,
    NoDup (List.map fst specs) ->
    (forall name u, In (name, u) specs ->
       match find_index name c with
       | Some i => idx_unique i = u
       | None => u = true -> has_duplicates (List.map (field name) (docs c)) = false
       end) ->
    exists c',
      create_indexes specs c = (c', None) /\
      docs c' = docs c /\
      (forall name i, find_index name c = Some i -> find_index name c' = Some i) /\
      (forall name u, In (name, u) specs ->
         exists i, find_index name c' = Some i /\ idx_unique i = u).
Proof.
  induction specs as [|[n u] rest IH]; intros c Hnd Hc.
  - exists c. simpl. repeat split; auto. intros ? ? [].
  - inversion Hnd as [|? ? Hnin Hnd']; subst. simpl.
    pose proof (Hc n u (or_introl eq_refl)) as Hn.
    unfold create_index.
    destruct (find_index n c) as [i|] eqn:Ef.
    + subst u. rewrite Bool.eqb_reflx.
      destruct (IH c Hnd') as (c' & Hrun & Hdocs & Hkeep & Hall).
      { intros name u' Hin. apply Hc. now right. }
      exists c'. repeat split; auto.
      intros name u' [E | Hin]; [|now apply Hall].
      injection E as <- <-. exists i. split; [now apply Hkeep | reflexivity].
    + assert (Hu : u && has_duplicates (List.map (field n) (docs c)) = false).
      { destruct u; [apply Hn; reflexivity | reflexivity]. }
      rewrite Hu.
      set (c1 := mk_collection (docs c) (indexes c ++ [mk_index n u])).
      assert (Hfind : forall name,
                 find_index name c1
                 = match find_index name c with
                   | Some x => Some x
                   | None => if (n =? name)%string then Some (mk_index n u) else None
                   end).
      { intros name. unfold c1. rewrite find_index_snoc. destruct c; reflexivity. }
      destruct (IH c1 Hnd') as (c' & Hrun & Hdocs & Hkeep & Hall).
      { intros name u' Hin. rewrite Hfind.
        pose proof (Hc name u' (or_intror Hin)) as Hname.
        destruct (find_index name c); [exact Hname|].
        destruct (n =? name)%string eqn:En; [|exact Hname].
        apply String.eqb_eq in En. subst name. exfalso. apply Hnin.
        change n with (fst (n, u')). now apply in_map. }
      exists c'. repeat split; auto.
      * intros name i Hi. apply Hkeep. rewrite Hfind, Hi. reflexivity.
      * intros name u' [E | Hin]; [|now apply Hall].
        injection E as <- <-. exists (mk_index n u). split; [|reflexivity].
        apply Hkeep. rewrite Hfind, Ef, String.eqb_refl. reflexivity.
Qed.


Lemma index_specs_names : NoDup (List.map fst index_specs).
Proof.
  simpl. repeat constructor; simpl; intuition discriminate.
Qed.

Lemma compatible_keys (c : collection) :
  compatible c = true -> NoDup (keys (docs c)).
Proof.
  unfold compatible. rewrite andb_true_iff, negb_true_iff.
  intros [H _]. now apply has_duplicates_NoDup.
Qed.

(** On a compatible collection the seven [create_index] calls succeed
    and leave the documents alone. *)
Lemma compatible_create_indexes (c : collection) :
  compatible c = true ->
  exists c',
    create_indexes index_specs c = (c', None) /\ docs c' = docs c /\ indexed c'.
Proof.
  intros Hc. pose proof (compatible_keys c Hc) as Hnd.
  unfold compatible in Hc. apply andb_true_iff in Hc. destruct Hc as [_ Hopt].
  rewrite forallb_forall in Hopt.
  destruct (create_indexes_ok index_specs c index_specs_names)
    as (c' & Hrun & Hdocs & _ & Hall).
  - intros name u Hin. specialize (Hopt (name, u) Hin). simpl in Hopt.
    destruct (find_index name c) as [i|].
    + now apply Bool.eqb_prop.
    + intros ->. apply has_duplicates_NoDup.
      simpl in Hin.
      repeat (destruct Hin as [E | Hin]; [injection E as <-; try discriminate|]);
        try contradiction.
      exact Hnd.
  - exists c'. auto.
Qed.

(** ** The upsert loop *)

Section LoadFacts.

Variable encodable : value -> bool.

(** The effect of one loop iteration on a canonical record. *)
Definition step (st : load_state) (record : value) : load_state :=
  if encodable record then
    let (res, l) := replace_first "threat_id" (key record) record (docs (coll st)) in
    let c' := mk_collection l (indexes (coll st)) in
    if upserted res
    then mk_load_state (inserted_count st + 1) (updated_count st) c'
    else if 0 <? modified_count res
    then mk_load_state (inserted_count st) (updated_count st + 1) c'
    else mk_load_state (inserted_count st) (updated_count st) c'
  else st.

Lemma load_record_canonical (record : value) (st : load_state) :
  canonical record -> load_record encodable record st = Ok (step st record).
Proof.
  intros Hc. unfold load_record, step, replace_one.
  rewrite (canonical_getitem _ Hc). cbn [bind].
  destruct (encodable record).
  - destruct (replace_first _ _ _ _) as [res l].
    destruct (upserted res); [reflexivity|].
    destruct (0 <? modified_count res); reflexivity.
  - destruct (canonical_get record (VStr "unknown") Hc) as [v ->]. reflexivity.
Qed.

Lemma load_loop_canonical (batch : list value) (st : load_state) :
  Forall canonical batch ->
  load_loop encodable batch st = (List.fold_left step batch st, None).
Proof.
  intros H. revert st. induction H as [|d batch Hd _ IH]; intros st; [reflexivity|].
  simpl. rewrite (load_record_canonical _ _ Hd). apply IH.
Qed.

Lemma step_cases (st : load_state) (d : value) :
  let l := docs (coll st) in
  (encodable d = false /\ step st d = st) \/
  (encodable d = true /\ ~ In (key d) (keys l) /\
   step st d = mk_load_state (inserted_count st + 1) (updated_count st)
                             (mk_collection (l ++ [d]) (indexes (coll st)))) \/
  (encodable d = true /\ In (key d) (keys l) /\
   exists l',
     docs (coll (step st d)) = l' /\
     indexes (coll (step st d)) = indexes (coll st) /\
     inserted_count (step st d) = inserted_count st /\
     keys l' = keys l /\ In d l' /\
     (forall x, In x l -> key x <> key d -> In x l')).
Proof.
  cbv zeta. unfold step. destruct (encodable d); [right | left; auto].
  destruct (In_keys_dec (key d) (docs (coll st))) as [Hin | Hnin].
  - right. split; [reflexivity|]. split; [assumption|].
    destruct (replace_first_present (key d) d _ eq_refl Hin)
      as (modified & l' & -> & Hkeys & Hd & Hkeep & _).
    exists l'. simpl. destruct (0 <? modified); simpl; repeat split; auto.
  - left. split; [reflexivity|]. split; [assumption|].
    now rewrite (replace_first_absent _ _ _ Hnin).
Qed.

Lemma step_indexes (st : load_state) (d : value) :
  indexes (coll (step st d)) = indexes (coll st).
Proof.
  destruct (step_cases st d) as [[_ ->] | [(_ & _ & ->) | (_ & _ & l' & _ & H & _)]];
    auto.
Qed.

Lemma step_NoDup (st : load_state) (d : value) :
  NoDup (keys (docs (coll st))) -> NoDup (keys (docs (coll (step st d)))).
Proof.
  intros Hnd.
  destruct (step_cases st d)
    as [[_ ->] | [(_ & Hnin & ->) | (_ & _ & l' & -> & _ & _ & Hk & _)]]; auto.
  - simpl. unfold keys. rewrite map_app. simpl.
    apply NoDup_app; [assumption | repeat constructor; intros [] |].
    intros k Hk [<- | []]. contradiction.
  - now rewrite Hk.
Qed.

Lemma step_keys_grow (st : load_state) (d k : value) :
  In k (keys (docs (coll st))) -> In k (keys (docs (coll (step st d)))).
Proof.
  intros Hin.
  destruct (step_cases st d)
    as [[_ ->] | [(_ & _ & ->) | (_ & _ & l' & -> & _ & _ & Hk & _)]]; auto.
  - simpl. unfold keys. rewrite map_app. apply in_or_app. now left.
  - now rewrite Hk.
Qed.

Lemma step_stores (st : load_state) (d : value) :
  encodable d = true -> In d (docs (coll (step st d))).
Proof.
  intros He.
  destruct (step_cases st d)
    as [[Hf _] | [(_ & _ & ->) | (_ & _ & l' & -> & _ & _ & _ & Hd & _)]];
    [congruence | | assumption].
  simpl. apply in_or_app. right. now left.
Qed.

Lemma step_keeps (st : load_state) (d x : value) :
  In x (docs (coll st)) -> (encodable d = true -> key x <> key d) ->
  In x (docs (coll (step st d))).
Proof.
  intros Hx Hne.
  destruct (step_cases st d)
    as [[_ ->] | [(_ & _ & ->) | (He & _ & l' & -> & _ & _ & _ & _ & Hkeep)]]; auto.
  simpl. apply in_or_app. now left.
Qed.



(** *** The whole batch *)

Lemma loop_indexes (batch : list value) (st : load_state) :
  indexes (coll (List.fold_left step batch st)) = indexes (coll st).
Proof.
  revert st. induction batch as [|d batch IH]; intros st; [reflexivity|].
  simpl. rewrite IH. apply step_indexes.
Qed.

Lemma loop_NoDup (batch : list value) (st : load_state) :
  NoDup (keys (docs (coll st))) ->
  NoDup (keys (docs (coll (List.fold_left step batch st)))).
Proof.
  revert st. induction batch as [|d batch IH]; intros st H; [assumption|].
  simpl. apply IH. now apply step_NoDup.
Qed.

Lemma loop_keys_grow (batch : list value) (st : load_state) (k : value) :
  In k (keys (docs (coll st))) ->
  In k (keys (docs (coll (List.fold_left step batch st)))).
Proof.
  revert st. induction batch as [|d batch IH]; intros st H; [assumption|].
  simpl. apply IH. now apply step_keys_grow.
Qed.

Lemma loop_keys_loaded (batch : list value) (st : load_state) (d : value) :
  In d batch -> encodable d = true ->
  In (key d) (keys (docs (coll (List.fold_left step batch st)))).
Proof.
  revert st. induction batch as [|d0 batch IH]; intros st Hin He; [contradiction|].
  simpl. destruct Hin as [-> | Hin]; [|now apply IH].
  apply loop_keys_grow. unfold keys. apply in_map. now apply step_stores.
Qed.



Lemma loop_keeps (batch : list value) (st : load_state) (x : value) :
  In x (docs (coll st)) ->
  (forall d, In d batch -> encodable d = true -> key x <> key d) ->
  In x (docs (coll (List.fold_left step batch st))).
Proof.
  revert st. induction batch as [|d batch IH]; intros st Hx H; [assumption|].
  simpl. apply IH.
  - apply step_keeps; [assumption|]. intros He. apply H; [now left | assumption].
  - intros y Hy. apply H. now right.
Qed.






(** Nothing is stored that was not stored before or is an accepted
    document of the batch; so plain keys stay plain. *)
Lemma step_from (st : load_state) (d x : value) :
  In x (docs (coll (step st d))) ->
  (x = d /\ encodable d = true) \/ In x (docs (coll st)).
Proof.
  unfold step. destruct (encodable d); [|auto].
  pose proof (replace_first_from "threat_id" (key d) d (docs (coll st)) x) as H.
  destruct (replace_first "threat_id" (key d) d (docs (coll st))) as [res l'].
  simpl in H. destruct (upserted res); [|destruct (0 <? modified_count res)];
    simpl; intros Hx; destruct (H Hx); auto.
Qed.

Lemma loop_from (batch : list value) (st : load_state) (x : value) :
  In x (docs (coll (List.fold_left step batch st))) ->
  (In x batch /\ encodable x = true) \/ In x (docs (coll st)).
Proof.
  revert st. induction batch as [|d batch IH]; intros st; simpl; [auto|].
  intros Hx. destruct (IH _ Hx) as [[Hin He] | Hs]; [auto|].
  destruct (step_from _ _ _ Hs) as [[-> He] | Hst]; auto.
Qed.

Lemma loop_plain (batch : list value) (st : load_state) :
  plain_keys (docs (coll st)) -> plain_keys batch ->
  plain_keys (docs (coll (List.fold_left step batch st))).
Proof.
  unfold plain_keys. rewrite !Forall_forall. intros Hs Hb x Hx.
  destruct (loop_from _ _ _ Hx) as [[Hin _] | Hin]; auto.
Qed.

End LoadFacts.

(** ** [load_data] as a whole *)

Section LoadClaims.

Variable encodable : value -> bool.

Local Abbreviation load := (load_data encodable).
Local Abbreviation loop := (List.fold_left (step encodable)).

Lemma indexed_same_indexes (c c' : collection) :
  indexes c = indexes c' -> indexed c -> indexed c'.
Proof.
  intros E H name u Hin. destruct (H name u Hin) as (i & Hi & Hu).
  exists i. split; [|assumption]. unfold find_index in *. now rewrite <- E.
Qed.


Lemma load_data_compatible (c : collection) (batch : list value) :
  compatible c = true -> Forall canonical batch -> batch <> [] ->
  exists c1,
    docs c1 = docs c /\ indexed c1 /\
    let st := loop batch (mk_load_state 0 0 c1) in
    load (Some c) batch
    = mk_load_outcome true (inserted_count st) (updated_count st) (Some (coll st)).
Proof.
  intros Hc Hb Hne.
  destruct (compatible_create_indexes c Hc) as (c1 & Hrun & Hdocs & Hidx).
  exists c1. split; [assumption|]. split; [assumption|]. cbv zeta.
  unfold load_data. destruct batch as [|d batch]; [congruence|].
  rewrite Hrun. now rewrite (load_loop_canonical encodable (d :: batch) _ Hb).
Qed.


End LoadClaims.

(* ================================================================== *)
(** * Transform and load together *)
(* ================================================================== *)

Lemma getitem_field (doc : value) (name : string) (v : value) :
  getitem doc name = Ok v -> field name doc = v.
Proof.
  destruct doc; simpl; try discriminate.
  destruct (assoc name d); [congruence | discriminate].
Qed.

Lemma getitem_canonical (doc v : value) :
  getitem doc "threat_id" = Ok v -> canonical doc.
Proof.
  destruct doc; simpl; try discriminate.
  destruct (assoc "threat_id" d) eqn:E; [|discriminate].
  intros _. eexists. eexists. eauto.
Qed.

Lemma only_stored_under_key (doc : value) (l : list value) :
  NoDup (keys l) -> In doc l ->
  List.filter (matches "threat_id" (key doc)) l = [doc].
Proof.
  induction l as [|d l IH]; simpl; intros Hnd Hin; [contradiction|].
  inversion Hnd as [|? ? Hnin Hnd']; subst.
  destruct (matches "threat_id" (key doc) d) eqn:Em.
  - apply matches_key in Em. destruct Hin as [-> | Hin].
    + f_equal.
      assert (Hnone : forall x, In x l -> matches "threat_id" (key doc) x = false).
      { intros x Hx. apply matches_not_key. intros Ex. apply Hnin.
        rewrite <- Ex. now apply in_map. }
      clear -Hnone. induction l as [|x l IHl]; [reflexivity|]. simpl.
      rewrite (Hnone x) by now left. apply IHl. intros y Hy. apply Hnone. now right.
    + exfalso. apply Hnin. rewrite Em. now apply in_map.
  - apply matches_not_key in Em. destruct Hin as [-> | Hin]; [congruence|].
    now apply IH.
Qed.

Section PipelineClaims.

Variable strptime : string -> string -> option datetime.
Variable now : datetime.
Variable encodable : value -> bool.
Variable current_timestamp : datetime.

Local Abbreviation transform := (transform_record strptime now current_timestamp).
Local Abbreviation transform_all := (transform_data strptime now current_timestamp).
Local Abbreviation load := (load_data encodable).
Local Abbreviation run := (run_etl_pipeline strptime now encodable).

Lemma transform_canonical (r doc : value) :
  transform r = Ok doc -> canonical doc.
Proof.
  intros H.
  destruct (transform_ok_fields _ _ _ _ _ H)
    as (m & p & raw & fs & _ & _ & _ & _ & Hid & _).
  eapply getitem_canonical. exact Hid.
Qed.

Lemma in_transform_data (raw_data : list value) (doc : value) :
  In doc (transform_all raw_data) <->
  exists r, In r raw_data /\ transform r = Ok doc.
Proof.
  rewrite transform_data_flat_map, in_flat_map. split.
  - intros (r & Hr & Hd). exists r. split; [assumption|].
    destruct (transform r); simpl in Hd; [|contradiction].
    destruct Hd as [-> | []]. reflexivity.
  - intros (r & Hr & E). exists r. split; [assumption|]. rewrite E. now left.
Qed.

Lemma transform_data_canonical (raw_data : list value) :
  Forall canonical (transform_all raw_data).
Proof.
  apply Forall_forall. intros doc Hin. apply in_transform_data in Hin.
  destruct Hin as (r & _ & Hr). eapply transform_canonical. exact Hr.
Qed.

(** A record without an [id] that is transformed gets the key "unknown". *)
Lemma missing_id_unknown (m : list (string * value)) (doc : value) :
  assoc "id" m = None -> transform (VDict m) = Ok doc -> key doc = VStr "unknown".
Proof.
  intros Hid H.
  destruct (transform_ok_fields _ _ _ _ _ H)
    as (m' & p & raw & fs & E & _ & _ & _ & Hk & _).
  injection E as <-. apply getitem_field in Hk. unfold key. rewrite Hk.
  unfold item_or. now rewrite Hid.
Qed.

(** C9 (as amended).  Every record without an identifier that is
    transformed gets the literal key "unknown".  When a batch is
    transformed and loaded into a collection that respects the key and
    has no index whose options differ from the ones [load_data] asks
    for, the [threat_id]s stored and loaded being plain (strings,
    booleans, null or integers), and [r] is the last record of the
    batch whose document carries the key "unknown" and is accepted by
    the store, then afterwards exactly one stored document exists under
    "unknown", and it is the document of [r]: what earlier records
    stored under that key is overwritten. *)
Theorem C9_unknown_key_last_wins :
  forall (c : collection) (before after : list value) (r doc : value),
    compatible c = true ->
    plain_keys (docs c) ->
    plain_keys (transform_all (before ++ r :: after)) ->
    transform r = Ok doc ->
    key doc = VStr "unknown" ->
    encodable doc = true ->
    (forall r' doc', In r' after -> transform r' = Ok doc' ->
                     encodable doc' = true -> key doc' <> VStr "unknown") ->
    (forall m d, In (VDict m) (before ++ r :: after) -> assoc "id" m = None ->
                 transform (VDict m) = Ok d -> key d = VStr "unknown") /\
    exists c',
      collection_after (load (Some c) (transform_all (before ++ r :: after)))
      = Some c' /\
      List.filter (matches "threat_id" (VStr "unknown")) (docs c') = [doc] /\
      count_documents "threat_id" (VStr "unknown") c' = 1.
Proof.
  intros c before after r doc Hc Hpc Hpb Hr Hk He Hafter.
  split; [intros m d _ Hid Hd; eapply missing_id_unknown; eassumption|].
  set (batch := transform_all (before ++ r :: after)).
  assert (Hbatch : batch = transform_all before ++ doc :: transform_all after).
  { unfold batch. rewrite transform_data_app.
    change (r :: after) with ([r] ++ after). rewrite transform_data_app.
    rewrite (transform_data_flat_map _ _ _ [r]). simpl. now rewrite Hr. }
  assert (Hne : batch <> []).
  { rewrite Hbatch. destruct (transform_all before); discriminate. }
  destruct (load_data_compatible encodable c batch Hc
              (transform_data_canonical _) Hne) as (c1 & Hdocs & _ & ->).
  cbv zeta. cbn [collection_after]. eexists. split; [reflexivity|].
  rewrite Hbatch, fold_left_app. cbn [List.fold_left].
  set (st_a := List.fold_left (step encodable) (transform_all before) _).
  assert (Hnd : NoDup (keys (docs (coll st_a)))).
  { unfold st_a. apply loop_NoDup. simpl. rewrite Hdocs.
    now apply compatible_keys. }
  set (st_b := step encodable st_a doc).
  assert (Hin : In doc (docs (coll (List.fold_left (step encodable)
                                      (transform_all after) st_b)))).
  { apply loop_keeps; [unfold st_b; now apply step_stores|].
    intros d Hd Hed Ek. apply in_transform_data in Hd.
    destruct Hd as (r' & Hr' & Hd). apply (Hafter r' d Hr' Hd Hed). congruence. }
  assert (Hnd' : NoDup (keys (docs (coll (List.fold_left (step encodable)
                                            (transform_all after) st_b))))).
  { apply loop_NoDup. unfold st_b. now apply step_NoDup. }
  rewrite <- Hk. split; [now apply only_stored_under_key|].
  unfold count_documents. rewrite only_stored_under_key by assumption. reflexivity.
Qed.


End PipelineClaims.

(* ================================================================== *)
(** * Statistics *)
(* ================================================================== *)

(** The keys of a stats report, in source order. *)
Definition stats_keys : list string :=
  ["total_threats"; "high_severity_count"; "medium_severity_count";
   "active_threats"; "recent_threats"; "network_iocs"; "file_iocs";
   "latest_ingestion"; "avg_confidence_level"; "top_malware_families"].




(* ================================================================== *)
(** * The statements on sample inputs *)
(* ================================================================== *)

Module Samples.

Definition transform (r : value) : result value :=
  transform_record Reference.strptime Reference.now 0 r.

Definition transform_all (raw : list value) : list value :=
  transform_data Reference.strptime Reference.now 0 raw.

Definition document (r : value) : value :=
  match transform r with Ok doc => doc | Raise _ => VNone end.

(** A complete record with a high confidence level. *)
Definition complete : value :=
  VDict [("id", VStr "1001"); ("ioc_id", VStr "77");
         ("ioc_value", VStr " evil.example.com ");
         ("ioc_type", VStr "domain");
         ("threat_type", VStr "botnet_cc");
         ("malware", VStr "win.emotet");
         ("malware_printable", VStr "Emotet");
         ("first_seen", VStr "2025-01-10 08:30:00");
         ("last_seen", VStr "2025-01-14 09:00:00");
         ("confidence_level", VInt 90);
         ("reference", VStr "https://example.org/report");
         ("reporter", VStr "abuse_ch");
         ("tags", VList [VStr "emotet"; VStr "c2"])].

(** Records without an identifier. *)
Definition nameless_first : value := VDict [("malware", VStr "first")].
Definition nameless_second : value := VDict [("malware", VStr "second")].
Definition nameless_broken : value :=
  VDict [("malware", VStr "second"); ("ioc_value", VNone)].

Definition noisy : value :=
  VDict [("id", VStr "41"); ("malware_printable", VStr "win32:emotet trojan:loader")].

Definition bad_date : value :=
  VDict [("id", VStr "7"); ("first_seen", VStr "15/01/2025")].

Definition bad_date_and_null_value : value :=
  VDict [("first_seen", VStr "not-a-date"); ("ioc_value", VNone)].


Definition noisy_doc : value := Eval vm_compute in document noisy.
Definition nameless_second_doc : value := Eval vm_compute in document nameless_second.

(** Two canonical documents with distinct keys. *)
Definition distinct_batch : list value :=
  [VDict [("threat_id", VStr "1"); ("malware_family_clean", VStr "A")];
   VDict [("threat_id", VStr "2"); ("malware_family_clean", VStr "B")]].

(** A collection of two LOW documents and one HIGH document. *)
Definition mixed_collection : collection :=
  mk_collection
    (transform_all [VDict [("id", VStr "a")]; VDict [("id", VStr "b")]; complete])
    [].

(** Two EMAIL documents, one HIGH and one MEDIUM, and one LOW document
    of category OTHER. *)
Definition email_collection : collection :=
  mk_collection
    (transform_all
       [VDict [("id", VStr "e1"); ("ioc_type", VStr "email"); ("confidence_level", VInt 80)];
        VDict [("id", VStr "e2"); ("ioc_type", VStr "email"); ("confidence_level", VInt 30)];
        VDict [("id", VStr "o1")]])
    [].

End Samples.

(** The scenario of the specification: a complete record, one with an
    empty IOC value and confidence 0, one with an invalid date: three
    documents, of severities HIGH, LOW, LOW. *)
Example three_records_three_documents :
  List.map (field "threat_severity")
    (Samples.transform_all
       [Samples.complete;
        VDict [("id", VStr "2"); ("ioc_value", VStr ""); ("confidence_level", VInt 0)];
        VDict [("id", VStr "3"); ("first_seen", VStr "yesterday")]])
  = [VStr "HIGH"; VStr "LOW"; VStr "LOW"].
Proof. vm_compute. reflexivity. Qed.

Example empty_record_scores_zero :
  _calculate_threat_quality (VDict []) = Ok 0%float.
Proof. vm_compute. reflexivity. Qed.

Example fqdn_is_other : _categorize_ioc_type (VStr "FQDN") = Ok "OTHER".
Proof. reflexivity. Qed.

(** The first check that matches decides: a tag that mentions both an
    earlier and a later keyword gets the earlier category. *)
Example first_match_wins :
  _categorize_ioc_type (VStr "Email_IP") = Ok "NETWORK" /\
  _categorize_ioc_type (VStr "SHA256 of URL") = Ok "NETWORK" /\
  _categorize_ioc_type (VStr "email-md5") = Ok "FILE".
Proof. repeat split; reflexivity. Qed.

(** The eight possible scores are the binary64 numbers nearest to 0,
    0.14, 0.29, 0.43, 0.57, 0.71, 0.86 and 1; seven additions of 1/7 give
    0.9999999999999998, which rounds to 1. *)
Example quality_levels_hundredths :
  quality_levels
  = List.map (fun h => (float_of_Z h / 100)%float) [0; 14; 29; 43; 57; 71; 86; 100]
  /\ score_of_count 7 = 1%float.
Proof. split; vm_compute; reflexivity. Qed.

(** A collection in which two documents already share a key: the unique
    index cannot be built, the call returns [False] after the first
    index, and nothing is stored. *)
Example load_refused_on_shared_key :
  let stored := Samples.transform_all [Samples.nameless_first] in
  let c := mk_collection (stored ++ stored) [] in
  load_data Reference.encodable (Some c) Samples.distinct_batch
  = mk_load_outcome false 0 0
      (Some (mk_collection (stored ++ stored)
               [mk_index "etl_metadata.ingestion_timestamp" false])).
Proof. vm_compute. reflexivity. Qed.

(** A batch that holds something other than a dictionary: formatting the
    warning raises, and the call returns [False] with the earlier
    documents stored. *)
Example load_aborts_on_non_dictionary :
  let out := load_data Reference.encodable (Some Mongo.empty)
               [VDict [("threat_id", VStr "1")]; VStr "stray";
                VDict [("threat_id", VStr "2")]] in
  load_ok out = false /\ inserted out = 1 /\
  option_map (fun c => List.length (docs c)) (collection_after out) = Some 1%nat.
Proof. vm_compute. repeat split. Qed.

(** A document without a [threat_id], and a document the store refuses:
    each is skipped, and the rest of the batch is loaded. *)
Example load_skips_failing_records :
  let out := load_data Reference.encodable (Some Mongo.empty)
               [VDict [("ioc_value", VStr "x")];
                VDict [("threat_id", VStr "big"); ("confidence_level", VInt (2 ^ 70))];
                VDict [("threat_id", VStr "2")]] in
  load_ok out = true /\ inserted out = 1 /\ updated out = 0 /\
  option_map (fun c => List.map key (docs c)) (collection_after out)
  = Some [VStr "2"].
Proof. vm_compute. repeat split. Qed.

(** ** C1 *)


Example distinct_batch_reloaded :
  let first := load_data Reference.encodable (Some Mongo.empty) Samples.distinct_batch in
  let second :=
    load_data Reference.encodable (collection_after first) Samples.distinct_batch in
  (inserted first, updated first) = (2, 0) /\
  (inserted second, updated second) = (0, 0) /\
  collection_after second = collection_after first.
Proof. vm_compute. repeat split. Qed.


(** ** C3 *)

Lemma C3_witness :
  let threat := VDict [("id", VStr "1"); ("ioc_value", VStr "x");
                       ("confidence_level", VInt 50)] in
  let score := score_of_count 3 in
  _calculate_threat_quality threat = Ok score /\
  In score quality_levels /\
  PrimFloat.leb 0%float score = true /\
  PrimFloat.leb score 1%float = true /\
  (forall (threat' : value) (score' : float),
     _calculate_threat_quality threat' = Ok score' ->
     passes_superset threat threat' ->
     PrimFloat.leb score score' = true).
Proof.
  cbv zeta.
  assert (H : _calculate_threat_quality
                (VDict [("id", VStr "1"); ("ioc_value", VStr "x");
                        ("confidence_level", VInt 50)])
              = Ok (score_of_count 3)) by (vm_compute; reflexivity).
  split; [exact H|].
  exact (C3_quality_score_levels_and_monotone _ _ H).
Defined.

(** ** C5 *)

Lemma C5_witness :
  Samples.transform Samples.noisy = Ok Samples.noisy_doc /\
  exists printable raw mid cleaned : string,
    get Samples.noisy "malware_printable" (VStr "") = Ok (VStr printable) /\
    get Samples.noisy "malware" (VStr "") = Ok (VStr raw) /\
    removed "win32:"
            (strip (if (printable =? "")%string then raw else printable)) mid /\
    removed "trojan:" mid cleaned /\
    field "malware_family_clean" Samples.noisy_doc
    = VStr (if (cleaned =? "")%string then "Unknown" else title cleaned).
Proof.
  assert (H : transform_record Reference.strptime Reference.now 0 Samples.noisy
              = Ok Samples.noisy_doc) by (vm_compute; reflexivity).
  split; [exact H|].
  exact (C5_family_clean_exact_noise Reference.strptime Reference.now 0
           Samples.noisy Samples.noisy_doc H).
Defined.

Example noisy_family_is_cleaned :
  field "malware_family_clean" Samples.noisy_doc = VStr "Emotet Loader".
Proof. reflexivity. Qed.

(** A prefix spelled with a capital letter is not removed, where the
    rule of the specification removes it. *)
Lemma C5_counterexample_case_sensitive :
  _clean_malware_name (or_else (VStr "Win32:Emotet") (VStr ""))
  = Ok "Win32:Emotet" /\
  cleaned_name_as_specified "Win32:Emotet" "" = "Emotet" /\
  _clean_malware_name (or_else (VStr "Win32:Emotet") (VStr ""))
  <> Ok (cleaned_name_as_specified "Win32:Emotet" "").
Proof. vm_compute. repeat split. discriminate. Qed.

(** ** C6 *)

Lemma C6_witness :
  get Samples.bad_date "first_seen" (VStr "") = Ok (VStr "15/01/2025") /\
  Reference.strptime "15/01/2025" "%Y-%m-%d %H:%M:%S" = None /\
  Reference.strptime "15/01/2025" "%Y-%m-%d" = None /\
  transformable Samples.bad_date = true /\
  exists doc,
    Samples.transform Samples.bad_date = Ok doc /\
    Samples.transform_all [Samples.bad_date] = [doc] /\
    field "first_seen_parsed" doc = VNone /\
    field "is_recent_threat" doc = VBool false /\
    field "days_since_first_seen" doc = VNone /\
    field "threat_age_category" doc = VStr "Unknown".
Proof.
  assert (H0 : get Samples.bad_date "first_seen" (VStr "") = Ok (VStr "15/01/2025"))
    by reflexivity.
  assert (H1 : Reference.strptime "15/01/2025" "%Y-%m-%d %H:%M:%S" = None)
    by reflexivity.
  assert (H2 : Reference.strptime "15/01/2025" "%Y-%m-%d" = None) by reflexivity.
  assert (H3 : transformable Samples.bad_date = true) by reflexivity.
  repeat (split; [assumption|]).
  exact (C6_unparseable_first_seen Reference.strptime Reference.now 0
           Samples.bad_date "15/01/2025" H0 H1 H2 H3).
Defined.

(** A record with an unparseable first-seen string and a null IOC value
    yields no document. *)
Lemma C6_counterexample_no_document :
  get Samples.bad_date_and_null_value "first_seen" (VStr "")
  = Ok (VStr "not-a-date") /\
  Reference.strptime "not-a-date" "%Y-%m-%d %H:%M:%S" = None /\
  Reference.strptime "not-a-date" "%Y-%m-%d" = None /\
  Samples.transform Samples.bad_date_and_null_value = Raise AttributeError /\
  Samples.transform_all [Samples.bad_date_and_null_value] = [] /\
  ~ (exists doc, Samples.transform Samples.bad_date_and_null_value = Ok doc).
Proof.
  assert (H : Samples.transform Samples.bad_date_and_null_value
              = Raise AttributeError) by (vm_compute; reflexivity).
  split; [reflexivity|]. split; [reflexivity|]. split; [reflexivity|].
  split; [exact H|]. split; [vm_compute; reflexivity|].
  intros [doc Hd]. rewrite H in Hd. discriminate.
Qed.

(** ** C7 *)


Example run_succeeds_with_one_good_record :
  fst (run_etl_pipeline Reference.strptime Reference.now Reference.encodable
                        (Some Mongo.empty)
                        [Samples.bad_date_and_null_value; Samples.complete] 0)
  = true.
Proof. vm_compute. reflexivity. Qed.

(** ** C8 *)



Example mixed_collection_counts :
  count_documents "threat_severity" (VStr "LOW") Samples.mixed_collection = 2 /\
  count_documents "ioc_category" (VStr "OTHER") Samples.mixed_collection = 2 /\
  List.map fst
    (match get_pipeline_stats Reference.server (Some Samples.mixed_collection) with
     | VDict entries => entries
     | _ => []
     end) = stats_keys.
Proof. vm_compute. repeat split. Qed.

(** ** C9 *)

Lemma C9_witness :
  compatible Mongo.empty = true /\
  plain_keys (docs Mongo.empty) /\
  plain_keys
    (Samples.transform_all
       ([Samples.nameless_first] ++ Samples.nameless_second :: [Samples.complete])) /\
  Samples.transform Samples.nameless_second = Ok Samples.nameless_second_doc /\
  key Samples.nameless_second_doc = VStr "unknown" /\
  Reference.encodable Samples.nameless_second_doc = true /\
  exists c',
    collection_after
      (load_data Reference.encodable (Some Mongo.empty)
         (Samples.transform_all
            ([Samples.nameless_first] ++ Samples.nameless_second :: [Samples.complete])))
    = Some c' /\
    List.filter (matches "threat_id" (VStr "unknown")) (docs c')
    = [Samples.nameless_second_doc] /\
    count_documents "threat_id" (VStr "unknown") c' = 1.
Proof.
  assert (H0 : compatible Mongo.empty = true) by reflexivity.
  assert (Hpc : plain_keys (docs Mongo.empty)) by constructor.
  assert (Hpb : plain_keys
                  (transform_data Reference.strptime Reference.now 0
                     ([Samples.nameless_first]
                        ++ Samples.nameless_second :: [Samples.complete])))
    by (vm_compute; repeat constructor).
  assert (H1 : transform_record Reference.strptime Reference.now 0
                 Samples.nameless_second = Ok Samples.nameless_second_doc)
    by (vm_compute; reflexivity).
  assert (H2 : key Samples.nameless_second_doc = VStr "unknown") by reflexivity.
  assert (H3 : Reference.encodable Samples.nameless_second_doc = true)
    by (vm_compute; reflexivity).
  assert (H4 : forall r' doc',
             In r' [Samples.complete] ->
             transform_record Reference.strptime Reference.now 0 r' = Ok doc' ->
             Reference.encodable doc' = true -> key doc' <> VStr "unknown").
  { intros r' doc' [<- | []] Hd _. vm_compute in Hd. injection Hd as <-.
    vm_compute. discriminate. }
  repeat (split; [assumption|]).
  exact (proj2 (C9_unknown_key_last_wins Reference.strptime Reference.now
                  Reference.encodable 0 Mongo.empty [Samples.nameless_first]
                  [Samples.complete] Samples.nameless_second
                  Samples.nameless_second_doc H0 Hpc Hpb H1 H2 H3 H4)).
Defined.

(** Two records without an identifier, the last of which is dropped by
    the transform step: the document stored under "unknown" is the one
    of the first record. *)
Lemma C9_counterexample_last_record_dropped :
  let raw := [Samples.nameless_first; Samples.nameless_broken] in
  get Samples.nameless_first "id" VNone = Ok VNone /\
  get Samples.nameless_broken "id" VNone = Ok VNone /\
  Samples.transform Samples.nameless_broken = Raise AttributeError /\
  exists c',
    collection_after
      (load_data Reference.encodable (Some Mongo.empty) (Samples.transform_all raw))
    = Some c' /\
    List.filter (matches "threat_id" (VStr "unknown")) (docs c')
    = [Samples.document Samples.nameless_first] /\
    List.map (field "malware") (docs c') = [VStr "first"].
Proof.
  cbv zeta. repeat split; try (vm_compute; reflexivity).
  eexists. split; [vm_compute; reflexivity|]. split; vm_compute; reflexivity.
Qed.

(** ** C10 *)



(* ================================================================== *)
(** * Further properties: classification and scoring *)
(* ================================================================== *)

Definition tier_rank (tier : string) : Z :=
  if (tier =? "HIGH")%string then 2
  else if (tier =? "MEDIUM")%string then 1
  else 0.

(** X1. With the threat type fixed, a higher confidence level never gives
    a lower severity tier. *)
Theorem X1_severity_monotone_in_confidence :
  forall (c1 c2 : Z) (threat_type malware1 malware2 : string),
    c1 <= c2 ->
    exists t1 t2,
      _calculate_threat_severity (VInt c1) (VStr threat_type) (VStr malware1) = Ok t1 /\
      _calculate_threat_severity (VInt c2) (VStr threat_type) (VStr malware2) = Ok t2 /\
      tier_rank t1 <= tier_rank t2.
Proof.
  intros c1 c2 tt m1 m2 Hle. rewrite !severity_of_int.
  eexists. eexists. split; [reflexivity|]. split; [reflexivity|].
  destruct (List.existsb _ _);
    destruct (75 <=? c1) eqn:A1, (50 <=? c1) eqn:B1, (25 <=? c1) eqn:C1,
             (75 <=? c2) eqn:A2, (50 <=? c2) eqn:B2, (25 <=? c2) eqn:C2;
    try (vm_compute; discriminate);
    repeat match goal with
           | H : (_ <=? _) = true |- _ => apply Z.leb_le in H
           | H : (_ <=? _) = false |- _ => apply Z.leb_gt in H
           end; lia.
Qed.

Lemma X1_witness :
  30 <= 60 /\
  exists t1 t2,
    _calculate_threat_severity (VInt 30) (VStr "botnet_cc") (VStr "a") = Ok t1 /\
    _calculate_threat_severity (VInt 60) (VStr "botnet_cc") (VStr "b") = Ok t2 /\
    tier_rank t1 <= tier_rank t2.
Proof.
  assert (H : 30 <= 60) by lia.
  split; [exact H|].
  exact (X1_severity_monotone_in_confidence 30 60 "botnet_cc" "a" "b" H).
Defined.

(** X2. What the severity function does outside its declared types: a
    confidence that is not a number raises a [TypeError]; a threat type
    that is not a string raises an [AttributeError] when the confidence
    lies in 50..74, and is never looked at elsewhere, where the tier
    depends on the confidence alone. *)
Theorem X2_severity_outside_declared_types :
  (forall confidence threat_type malware,
     is_number confidence = false ->
     _calculate_threat_severity confidence threat_type malware = Raise TypeError) /\
  (forall c threat_type malware,
     50 <= c < 75 -> is_str threat_type = false ->
     _calculate_threat_severity (VInt c) threat_type malware = Raise AttributeError) /\
  (forall c threat_type malware,
     75 <= c ->
     _calculate_threat_severity (VInt c) threat_type malware = Ok "HIGH") /\
  (forall c threat_type malware,
     25 <= c < 50 ->
     _calculate_threat_severity (VInt c) threat_type malware = Ok "MEDIUM") /\
  (forall c threat_type malware,
     c < 25 ->
     _calculate_threat_severity (VInt c) threat_type malware = Ok "LOW").
Proof.
  repeat split.
  - intros v t m Hn. destruct v; try discriminate; reflexivity.
  - intros c t m [H1 H2] Ht. unfold _calculate_threat_severity. simpl.
    apply Z.leb_le in H1. apply Z.leb_gt in H2. rewrite H2, H1.
    destruct t; try discriminate; reflexivity.
  - intros c t m H. unfold _calculate_threat_severity. simpl.
    apply Z.leb_le in H. now rewrite H.
  - intros c t m [H1 H2]. unfold _calculate_threat_severity. simpl.
    assert (E75 : (75 <=? c) = false) by (apply Z.leb_gt; lia).
    assert (E50 : (50 <=? c) = false) by (apply Z.leb_gt; lia).
    apply Z.leb_le in H1. now rewrite E75, E50, H1.
  - intros c t m H. unfold _calculate_threat_severity. simpl.
    assert (E75 : (75 <=? c) = false) by (apply Z.leb_gt; lia).
    assert (E50 : (50 <=? c) = false) by (apply Z.leb_gt; lia).
    assert (E25 : (25 <=? c) = false) by (apply Z.leb_gt; lia).
    now rewrite E75, E50, E25.
Qed.

Definition age_rank (category : string) : Z :=
  if (category =? "New")%string then 0
  else if (category =? "Recent")%string then 1
  else if (category =? "Moderate")%string then 2
  else if (category =? "Old")%string then 3
  else 4.

Lemma DAY_positive : 0 < DAY.
Proof. reflexivity. Qed.

Lemma age_by_days (now t : datetime) :
  _categorize_threat_age now (Some t)
  = let days := (now - t) / DAY in
    if days <=? 7 then "New"
    else if days <=? 30 then "Recent"
    else if days <=? 90 then "Moderate" else "Old".
Proof. reflexivity. Qed.

(** X3. At one clock reading, a threat first seen earlier never gets a
    younger age category than one first seen later; a first-seen moment
    that lies in the future counts as New. *)
Theorem X3_age_category_monotone :
  forall now t1 t2 : datetime,
    t1 <= t2 ->
    age_rank (_categorize_threat_age now (Some t2))
    <= age_rank (_categorize_threat_age now (Some t1)) /\
    (now <= t2 -> _categorize_threat_age now (Some t2) = "New").
Proof.
  intros now t1 t2 Hle. rewrite !age_by_days. cbv zeta.
  assert (Hd : (now - t2) / DAY <= (now - t1) / DAY).
  { apply Z.div_le_mono; [apply DAY_positive | lia]. }
  split.
  - destruct ((now - t2) / DAY <=? 7) eqn:A2, ((now - t2) / DAY <=? 30) eqn:B2,
             ((now - t2) / DAY <=? 90) eqn:C2,
             ((now - t1) / DAY <=? 7) eqn:A1, ((now - t1) / DAY <=? 30) eqn:B1,
             ((now - t1) / DAY <=? 90) eqn:C1;
      try (vm_compute; discriminate);
      repeat match goal with
             | H : (_ <=? _) = true |- _ => apply Z.leb_le in H
             | H : (_ <=? _) = false |- _ => apply Z.leb_gt in H
             end; lia.
  - intros Hf.
    assert (H0 : (now - t2) / DAY <= 0).
    { apply Z.div_le_upper_bound; [apply DAY_positive | lia]. }
    assert (E : ((now - t2) / DAY <=? 7) = true) by (apply Z.leb_le; lia).
    now rewrite E.
Qed.

Lemma X3_witness :
  Reference.now - 100 * DAY <= Reference.now - 10 * DAY /\
  age_rank (_categorize_threat_age Reference.now (Some (Reference.now - 10 * DAY)))
  <= age_rank (_categorize_threat_age Reference.now (Some (Reference.now - 100 * DAY))) /\
  (Reference.now <= Reference.now - 10 * DAY ->
   _categorize_threat_age Reference.now (Some (Reference.now - 10 * DAY)) = "New").
Proof.
  assert (H : Reference.now - 100 * DAY <= Reference.now - 10 * DAY)
    by (vm_compute; discriminate).
  split; [exact H|].
  exact (X3_age_category_monotone Reference.now _ _ H).
Defined.

Lemma div_lt_iff (a b n : Z) : 0 < b -> (a / b < n <-> a < b * n).
Proof.
  intros Hb. split.
  - intros H. pose proof (Z.div_mod a b ltac:(lia)) as E.
    pose proof (Z.mod_pos_bound a b Hb) as Hm. nia.
  - intros H. now apply Z.div_lt_upper_bound.
Qed.

Lemma within_days (now t n : Z) :
  (now - n * DAY <? t) = ((now - t) / DAY <? n).
Proof.
  pose proof (div_lt_iff (now - t) DAY n DAY_positive) as H.
  destruct ((now - t) / DAY <? n) eqn:E.
  - apply Z.ltb_lt in E. apply Z.ltb_lt. apply H in E. lia.
  - apply Z.ltb_ge in E. apply Z.ltb_ge.
    destruct (Z_lt_le_dec (now - t) (DAY * n)) as [Hlt | Hge]; [|lia].
    apply H in Hlt. lia.
Qed.

(** X4. The two flags in whole days: a threat is recent exactly when its
    days since first seen are at most 29, and active exactly when its
    days since last seen are at most 6.  So a recent threat is always in
    the age category New or Recent, while a threat in its 31st day (30
    whole days old) is in the category Recent without being flagged
    recent, and that is the only such case. *)
Theorem X4_flags_in_whole_days :
  forall now t : datetime,
    let days := (now - t) / DAY in
    _days_since_date now (Some t) = Some days /\
    (_is_recent_threat now (Some t) = true <-> days <= 29) /\
    (_is_active_threat now (Some t) = true <-> days <= 6) /\
    (_is_recent_threat now (Some t) = true ->
     In (_categorize_threat_age now (Some t)) ["New"; "Recent"]) /\
    (In (_categorize_threat_age now (Some t)) ["New"; "Recent"] /\
     _is_recent_threat now (Some t) = false <-> days = 30).
Proof.
  intros now t days.
  assert (Hr : _is_recent_threat now (Some t) = (days <? 30))
    by apply within_days.
  assert (Ha : _is_active_threat now (Some t) = (days <? 7))
    by apply within_days.
  rewrite Hr, Ha, age_by_days. cbv zeta. fold days.
  split; [reflexivity|].
  split; [rewrite Z.ltb_lt; lia|].
  split; [rewrite Z.ltb_lt; lia|].
  split.
  - rewrite Z.ltb_lt. intros H.
    destruct (days <=? 7) eqn:E7; [simpl; tauto|].
    assert (E30 : (days <=? 30) = true) by (apply Z.leb_le; lia).
    rewrite E30. simpl. tauto.
  - rewrite Z.ltb_ge. split.
    + intros [Hin Hge].
      destruct (days <=? 7) eqn:E7; [apply Z.leb_le in E7; lia|].
      destruct (days <=? 30) eqn:E30; [apply Z.leb_le in E30; lia|].
      destruct (days <=? 90); simpl in Hin;
        destruct Hin as [H | [H | []]]; discriminate.
    + intros ->. split; [|lia]. simpl. tauto.
Qed.

Lemma count_passed_strict (l l' : list bool) :
  Forall2 (fun b b' => b = true -> b' = true) l l' ->
  ~ Forall2 (fun b' b => b' = true -> b = true) l' l ->
  (count_passed l < count_passed l')%nat.
Proof.
  unfold count_passed. induction 1 as [|b b' l l' Hb Hl IH]; intros Hn.
  - exfalso. apply Hn. constructor.
  - pose proof (count_passed_mono l l' Hl) as Hm. unfold count_passed in Hm.
    destruct b, b'; simpl.
    + apply -> Nat.succ_lt_mono. apply IH. intros H. apply Hn. now constructor.
    + discriminate (Hb eq_refl).
    + lia.
    + apply IH. intros H. apply Hn. now constructor.
Qed.

Lemma score_of_count_strict (k k' : nat) :
  (k < k')%nat -> (k' <= 7)%nat ->
  PrimFloat.ltb (score_of_count k) (score_of_count k') = true.
Proof.
  intros Hlt Hk'.
  do 8 (destruct k as [|k];
        [do 8 (destruct k' as [|k']; [first [lia | vm_compute; reflexivity]|]); lia|]).
  lia.
Qed.

(** The seven checks of a dictionary in the terms of [present] and
    [positive_confidence]. *)
Lemma checks_meaning (threat : value) (checks : list bool) :
  quality_checks threat = Ok checks ->
  exists b1 b2 b3 b4 b5 b6 b7,
    checks = [b1; b2; b3; b4; b5; b6; b7] /\
    (b1 = true <-> present threat "id") /\
    (b2 = true <-> present threat "ioc_value") /\
    (b3 = true <-> present threat "ioc_type") /\
    (b4 = true <-> present threat "threat_type") /\
    (b5 = true <-> present threat "malware") /\
    (b6 = true <-> present threat "first_seen") /\
    (b7 = true <-> positive_confidence threat).
Proof.
  intros E. destruct threat as [| | | | | |m|]; try discriminate E.
  unfold quality_checks in E. simpl in E.
  destruct (gt_int _ 0) as [p|] eqn:Ep in E; simpl in E; [|discriminate].
  injection E as <-.
  assert (Hp : forall key,
             truthy (match assoc key m with Some v => v | None => VNone end) = true
             <-> present (VDict m) key).
  { intros key. unfold present. simpl. split.
    - intros H. eexists. split; [reflexivity | exact H].
    - intros (v & [= <-] & H). exact H. }
  do 7 eexists. split; [reflexivity|].
  repeat (split; [apply Hp|]).
  unfold positive_confidence. simpl. split.
  - intros ->. eexists. split; [reflexivity | exact Ep].
  - intros (v & [= <-] & H). congruence.
Qed.

(** X5. The quality score tells complete and empty records apart and is
    strictly monotone: it is 1.0 exactly when all seven checks pass, 0.0
    exactly when none does, and a record that passes all the checks of
    another one and at least one more scores strictly higher. *)
Theorem X5_quality_score_strict :
  forall (threat : value) (score : float),
    _calculate_threat_quality threat = Ok score ->
    (score = 1%float <->
     (forall key, In key presence_keys -> present threat key) /\
     positive_confidence threat) /\
    (score = 0%float <->
     (forall key, In key presence_keys -> ~ present threat key) /\
     ~ positive_confidence threat) /\
    (forall (threat' : value) (score' : float),
       _calculate_threat_quality threat' = Ok score' ->
       passes_superset threat threat' ->
       ~ passes_superset threat' threat ->
       PrimFloat.ltb score score' = true).
Proof.
  intros threat score H.
  destruct (quality_by_checks _ _ H) as (checks & Hc & Hlen & ->).
  destruct (checks_meaning _ _ Hc)
    as (b1 & b2 & b3 & b4 & b5 & b6 & b7 & -> & M1 & M2 & M3 & M4 & M5 & M6 & M7).
  assert (Hall : (forall key, In key presence_keys -> present threat key)
                 <-> (b1 = true /\ b2 = true /\ b3 = true /\ b4 = true
                      /\ b5 = true /\ b6 = true)).
  { rewrite M1, M2, M3, M4, M5, M6. unfold presence_keys. split.
    - intros Hk. repeat split; apply Hk; simpl; tauto.
    - intros (P1 & P2 & P3 & P4 & P5 & P6) key Hin. simpl in Hin.
      repeat (destruct Hin as [<- | Hin]; [assumption|]). contradiction. }
  assert (Hnone : (forall key, In key presence_keys -> ~ present threat key)
                  <-> (b1 = false /\ b2 = false /\ b3 = false /\ b4 = false
                       /\ b5 = false /\ b6 = false)).
  { rewrite <- !Bool.not_true_iff_false, M1, M2, M3, M4, M5, M6.
    unfold presence_keys. split.
    - intros Hk. repeat split; apply Hk; simpl; tauto.
    - intros (P1 & P2 & P3 & P4 & P5 & P6) key Hin. simpl in Hin.
      repeat (destruct Hin as [<- | Hin]; [assumption|]). contradiction. }
  assert (Hk : (count_passed [b1; b2; b3; b4; b5; b6; b7] <= 7)%nat)
    by (rewrite <- Hlen; apply count_passed_le_length).
  split; [|split].
  - rewrite Hall, <- M7. split.
    + intros E.
      destruct (Nat.eq_dec (count_passed [b1; b2; b3; b4; b5; b6; b7]) 7) as [E7 | N7].
      * destruct b1, b2, b3, b4, b5, b6, b7; try discriminate E7. tauto.
      * exfalso.
        assert (Hlt : (count_passed [b1; b2; b3; b4; b5; b6; b7] < 7)%nat) by lia.
        pose proof (score_of_count_strict _ 7 Hlt (Nat.le_refl 7)) as Hs.
        rewrite E in Hs. vm_compute in Hs. discriminate.
    + intros [(-> & -> & -> & -> & -> & ->) ->]. vm_compute. reflexivity.
  - assert (Hn7 : ~ positive_confidence threat <-> b7 = false)
      by (rewrite <- M7; apply Bool.not_true_iff_false).
    rewrite Hnone, Hn7. split.
    + intros E.
      destruct (Nat.eq_dec (count_passed [b1; b2; b3; b4; b5; b6; b7]) 0) as [E0 | N0].
      * destruct b1, b2, b3, b4, b5, b6, b7; try discriminate E0. tauto.
      * exfalso.
        assert (Hlt : (0 < count_passed [b1; b2; b3; b4; b5; b6; b7])%nat) by lia.
        pose proof (score_of_count_strict 0 _ Hlt Hk) as Hs.
        rewrite E in Hs. vm_compute in Hs. discriminate.
    + intros [(-> & -> & -> & -> & -> & ->) ->]. vm_compute. reflexivity.
  - intros threat' score' H' Hsup Hnot.
    destruct (quality_by_checks _ _ H') as (checks' & Hc' & Hlen' & ->).
    apply score_of_count_strict;
      [|rewrite <- Hlen'; apply count_passed_le_length].
    apply count_passed_strict; [eapply checks_superset; eassumption|].
    intros Hconv. apply Hnot.
    destruct (checks_meaning _ _ Hc')
      as (c1 & c2 & c3 & c4 & c5 & c6 & c7 & -> & N1 & N2 & N3 & N4 & N5 & N6 & N7).
    inversion Hconv as [|? ? ? ? Q1 R1]; subst.
    inversion R1 as [|? ? ? ? Q2 R2]; subst.
    inversion R2 as [|? ? ? ? Q3 R3]; subst.
    inversion R3 as [|? ? ? ? Q4 R4]; subst.
    inversion R4 as [|? ? ? ? Q5 R5]; subst.
    inversion R5 as [|? ? ? ? Q6 R6]; subst.
    inversion R6 as [|? ? ? ? Q7 R7]; subst.
    split.
    + intros key Hin. simpl in Hin.
      repeat (destruct Hin as [<- | Hin];
              [rewrite <- ?N1, <- ?N2, <- ?N3, <- ?N4, <- ?N5, <- ?N6,
                       <- ?M1, <- ?M2, <- ?M3, <- ?M4, <- ?M5, <- ?M6; assumption|]).
      contradiction.
    + rewrite <- N7, <- M7. assumption.
Qed.

Lemma X5_witness :
  let threat := VDict [("id", VStr "1"); ("ioc_value", VStr "x")] in
  let score := score_of_count 2 in
  _calculate_threat_quality threat = Ok score /\
  (score = 1%float <->
   (forall key, In key presence_keys -> present threat key) /\
   positive_confidence threat) /\
  (score = 0%float <->
   (forall key, In key presence_keys -> ~ present threat key) /\
   ~ positive_confidence threat) /\
  (forall (threat' : value) (score' : float),
     _calculate_threat_quality threat' = Ok score' ->
     passes_superset threat threat' ->
     ~ passes_superset threat' threat ->
     PrimFloat.ltb score score' = true).
Proof.
  cbv zeta.
  assert (H : _calculate_threat_quality (VDict [("id", VStr "1"); ("ioc_value", VStr "x")])
              = Ok (score_of_count 2)) by (vm_compute; reflexivity).
  split; [exact H|].
  exact (X5_quality_score_strict _ _ H).
Defined.

(* ================================================================== *)
(** * Further properties: the cleaned family name *)
(* ================================================================== *)





(** A string made of whitespace only. *)
Fixpoint whitespace_only (s : string) : bool :=
  match s with
  | EmptyString => true
  | String c t => is_space c && whitespace_only t
  end.

Lemma strip_whitespace_only (s : string) :
  whitespace_only s = true -> strip s = "".
Proof.
  unfold strip. induction s as [|c s IH]; simpl; [reflexivity|].
  intros H. apply andb_true_iff in H. destruct H as [Hc Hs].
  rewrite Hc. now apply IH.
Qed.

Section FamilyInDocuments.

Variable strptime : string -> string -> option datetime.
Variable now : datetime.
Variable current_timestamp : datetime.

(** X7. A printable name that is present, not empty and made of
    whitespace only hides the raw malware name: the choice between the
    two names is made before trimming, so the cleaned family is Unknown
    whatever the raw name holds. *)
Theorem X7_blank_printable_name_hides_raw_name :
  forall (m : list (string * value)) (printable : string) (doc : value),
    transform_record strptime now current_timestamp (VDict m) = Ok doc ->
    assoc "malware_printable" m = Some (VStr printable) ->
    printable <> "" ->
    whitespace_only printable = true ->
    field "malware_family_clean" doc = VStr "Unknown".
Proof.
  intros m printable doc H Hp Hne Hw.
  destruct (transform_ok_fields _ _ _ _ _ H)
    as (m' & p & raw & fs & E & Ep & _ & _ & _ & _ & _ & _ & _ & _ & Hfam).
  injection E as <-. unfold item_or in Ep. rewrite Hp in Ep. injection Ep as <-.
  rewrite Hfam. f_equal.
  destruct (printable =? "")%string eqn:Ee; [apply String.eqb_eq in Ee; contradiction|].
  unfold clean_rule. now rewrite (strip_whitespace_only _ Hw).
Qed.

End FamilyInDocuments.

Definition blank_printable_record : value :=
  VDict [("id", VStr "9"); ("malware", VStr "win.emotet");
         ("malware_printable", VStr "  ")].

Definition blank_printable_doc : value :=
  Eval vm_compute in Samples.document blank_printable_record.

Lemma X7_witness :
  transform_record Reference.strptime Reference.now 0 blank_printable_record
  = Ok blank_printable_doc /\
  assoc "malware_printable"
        [("id", VStr "9"); ("malware", VStr "win.emotet");
         ("malware_printable", VStr "  ")] = Some (VStr "  ") /\
  "  " <> "" /\
  whitespace_only "  " = true /\
  field "malware_family_clean" blank_printable_doc = VStr "Unknown".
Proof.
  assert (H : transform_record Reference.strptime Reference.now 0
                blank_printable_record = Ok blank_printable_doc)
    by (vm_compute; reflexivity).
  assert (H1 : assoc "malware_printable"
                 [("id", VStr "9"); ("malware", VStr "win.emotet");
                  ("malware_printable", VStr "  ")] = Some (VStr "  "))
    by reflexivity.
  assert (H2 : "  " <> "") by discriminate.
  assert (H3 : whitespace_only "  " = true) by reflexivity.
  repeat (split; [assumption|]).
  exact (X7_blank_printable_name_hides_raw_name Reference.strptime Reference.now 0
           _ "  " blank_printable_doc H H1 H2 H3).
Defined.

(* ================================================================== *)
(** * Further properties: the documents [transform_data] builds *)
(* ================================================================== *)

(** The top-level keys of a document, in source order. *)
Definition document_keys : list string :=
  ["original_data"; "etl_metadata"; "threat_id"; "ioc_id"; "ioc_value";
   "ioc_type"; "threat_type"; "malware"; "malware_alias"; "malware_printable";
   "first_seen"; "last_seen"; "first_seen_parsed"; "last_seen_parsed";
   "confidence_level"; "reference"; "reporter"; "tags"; "is_recent_threat";
   "is_active_threat"; "threat_severity"; "ioc_category"; "tag_count";
   "has_reference"; "malware_family_clean"; "days_since_first_seen";
   "days_since_last_seen"; "threat_age_category"; "extraction_timestamp";
   "source_url"; "batch_size"].

Definition metadata_keys : list string :=
  ["ingestion_timestamp"; "source"; "version"; "record_id"; "data_quality_score"].

Definition entries_of (doc : value) : list (string * value) :=
  match doc with VDict entries => entries | _ => [] end.

Definition starts_with_space (s : string) : bool :=
  match s with
  | EmptyString => false
  | String c _ => is_space c
  end.

Fixpoint ends_with_space (s : string) : bool :=
  match s with
  | EmptyString => false
  | String c EmptyString => is_space c
  | String _ t => ends_with_space t
  end.

Lemma lstrip_head (s : string) : starts_with_space (lstrip s) = false.
Proof.
  induction s as [|c s IH]; simpl; [reflexivity|].
  destruct (is_space c) eqn:E; [exact IH | simpl; exact E].
Qed.

Lemma rstrip_head (s : string) :
  starts_with_space s = false -> starts_with_space (rstrip s) = false.
Proof.
  destruct s as [|c s]; simpl; [reflexivity|]. intros E.
  destruct (rstrip s); [rewrite E|]; simpl; assumption.
Qed.

Lemma rstrip_tail (s : string) : ends_with_space (rstrip s) = false.
Proof.
  induction s as [|c s IH]; simpl; [reflexivity|].
  destruct (rstrip s) as [|c' r] eqn:Er.
  - destruct (is_space c) eqn:E; simpl; [reflexivity | exact E].
  - exact IH.
Qed.

Lemma rstrip_idempotent (s : string) : rstrip (rstrip s) = rstrip s.
Proof.
  induction s as [|c s IH]; simpl; [reflexivity|].
  destruct (rstrip s) as [|c' r] eqn:Er.
  - destruct (is_space c) eqn:E; simpl; [reflexivity | now rewrite E].
  - change (rstrip (String c (String c' r)))
      with (match rstrip (String c' r) with
            | EmptyString => if is_space c then EmptyString else String c EmptyString
            | t' => String c t'
            end).
    now rewrite IH.
Qed.

Lemma lstrip_fixed (s : string) : starts_with_space s = false -> lstrip s = s.
Proof. destruct s as [|c s]; simpl; [reflexivity|]. now intros ->. Qed.

Lemma strip_edges (s : string) :
  starts_with_space (strip s) = false /\
  ends_with_space (strip s) = false /\
  strip (strip s) = strip s.
Proof.
  unfold strip. split; [|split].
  - apply rstrip_head, lstrip_head.
  - apply rstrip_tail.
  - rewrite (lstrip_fixed (rstrip (lstrip s))) by apply rstrip_head, lstrip_head.
    apply rstrip_idempotent.
Qed.

Lemma age_known (now t : datetime) :
  _categorize_threat_age now (Some t) <> "Unknown".
Proof.
  rewrite age_by_days. cbv zeta.
  destruct (_ <=? 7); [discriminate|].
  destruct (_ <=? 30); [discriminate|].
  destruct (_ <=? 90); discriminate.
Qed.

Section Documents.

Variable strptime : string -> string -> option datetime.
Variable now : datetime.
Variable current_timestamp : datetime.

Local Abbreviation transform := (transform_record strptime now current_timestamp).
Local Abbreviation transform_all := (transform_data strptime now current_timestamp).

(** Everything a produced document holds, in terms of the raw record. *)
Lemma transform_ok_document (threat_record doc : value) :
  transform threat_record = Ok doc ->
  exists m fs ls tier category score meta,
    threat_record = VDict m /\
    _parse_threatfox_date strptime (item_or m "first_seen" (VStr "")) = Ok fs /\
    _parse_threatfox_date strptime (item_or m "last_seen" (VStr "")) = Ok ls /\
    _calculate_threat_severity (item_or m "confidence_level" (VInt 0))
      (item_or m "threat_type" (VStr "")) (item_or m "malware" (VStr "")) = Ok tier /\
    _categorize_ioc_type (item_or m "ioc_type" (VStr "")) = Ok category /\
    _calculate_threat_quality threat_record = Ok score /\
    item_or m "extraction_metadata" (VDict []) = VDict meta /\
    List.map fst (entries_of doc) = document_keys /\
    List.map fst (entries_of (field "etl_metadata" doc)) = metadata_keys /\
    field "original_data" doc = threat_record /\
    field "ingestion_timestamp" (field "etl_metadata" doc) = VDatetime current_timestamp /\
    field "source" (field "etl_metadata" doc) = VStr "threatfox_json" /\
    field "version" (field "etl_metadata" doc) = VStr "1.0" /\
    field "record_id" (field "etl_metadata" doc) = item_or m "id" (VStr "unknown") /\
    field "data_quality_score" (field "etl_metadata" doc) = VFloat score /\
    field "threat_id" doc = item_or m "id" (VStr "unknown") /\
    field "ioc_id" doc = item_or m "ioc_id" (VStr "unknown") /\
    field "confidence_level" doc = item_or m "confidence_level" (VInt 0) /\
    field "first_seen_parsed" doc = of_optional_datetime fs /\
    field "last_seen_parsed" doc = of_optional_datetime ls /\
    field "is_recent_threat" doc = VBool (_is_recent_threat now fs) /\
    field "is_active_threat" doc = VBool (_is_active_threat now ls) /\
    field "days_since_first_seen" doc = of_optional_int (_days_since_date now fs) /\
    field "days_since_last_seen" doc = of_optional_int (_days_since_date now ls) /\
    field "threat_age_category" doc = VStr (_categorize_threat_age now fs) /\
    field "threat_severity" doc = VStr tier /\
    field "ioc_category" doc = VStr category /\
    field "tags" doc = match item_or m "tags" (VList []) with
                       | VList l => VList l
                       | _ => VList []
                       end /\
    field "tag_count" doc = match item_or m "tags" (VList []) with
                            | VList l => VInt (Z.of_nat (List.length l))
                            | _ => VInt 0
                            end /\
    field "has_reference" doc
    = VBool (negb (match field "reference" doc with
                   | VStr s => (s =? "")%string
                   | _ => true
                   end)) /\
    field "extraction_timestamp" doc = field "extracted_at" (VDict meta) /\
    field "source_url" doc = field "source_url" (VDict meta) /\
    field "batch_size" doc = field "total_records_in_batch" (VDict meta).
Proof.
  intros H. unfold transform_record in H. invert_ok H.
  destruct (get_dict_ok _ _ _ _ E) as [m ->].
  rewrite get_dict in *.
  repeat match goal with
         | E : Ok _ = Ok ?x |- _ => injection E as E; try subst x
         end.
  match goal with
  | E : get ?meta "extracted_at" _ = Ok _ |- _ =>
      destruct (get_dict_ok _ _ _ _ E) as [em Hem]
  end.
  rewrite Hem in *. rewrite get_dict in *.
  repeat match goal with
         | E : Ok _ = Ok ?x |- _ => injection E as E; try subst x
         end.
  subst.
  do 7 eexists.
  repeat match goal with |- _ /\ _ => split end;
    try eassumption; try reflexivity.
  all: destruct (item_or m "tags" (VList [])); reflexivity.
Qed.

Ltac open_document H :=
  let D := fresh "D" in
  destruct (transform_ok_document _ _ H)
    as (m & fs & ls & tier & category & score & meta & D);
  decompose [and] D; clear D.

Lemma transform_ok_original (r doc : value) :
  transform r = Ok doc -> field "original_data" doc = r.
Proof. intros H. open_document H. assumption. Qed.

(** The part of [transform_ok_document] on the dates. *)
Lemma transform_ok_date_fields (r doc : value) :
  transform r = Ok doc ->
  exists fs ls,
    field "first_seen_parsed" doc = of_optional_datetime fs /\
    field "last_seen_parsed" doc = of_optional_datetime ls /\
    field "is_recent_threat" doc = VBool (_is_recent_threat now fs) /\
    field "is_active_threat" doc = VBool (_is_active_threat now ls) /\
    field "days_since_first_seen" doc = of_optional_int (_days_since_date now fs) /\
    field "days_since_last_seen" doc = of_optional_int (_days_since_date now ls) /\
    field "threat_age_category" doc = VStr (_categorize_threat_age now fs).
Proof. intros H. open_document H. exists fs, ls. repeat split; assumption. Qed.

(** The part on the tags and the reference. *)
Lemma transform_ok_tags (r doc : value) :
  transform r = Ok doc ->
  exists m,
    r = VDict m /\
    field "tags" doc = match item_or m "tags" (VList []) with
                       | VList l => VList l
                       | _ => VList []
                       end /\
    field "tag_count" doc = match item_or m "tags" (VList []) with
                            | VList l => VInt (Z.of_nat (List.length l))
                            | _ => VInt 0
                            end /\
    field "has_reference" doc
    = VBool (negb (match field "reference" doc with
                   | VStr s => (s =? "")%string
                   | _ => true
                   end)).
Proof. intros H. open_document H. exists m. repeat split; assumption. Qed.

(** The part on the two labels. *)
Lemma transform_ok_labels (r doc : value) :
  transform r = Ok doc ->
  exists m tier category,
    r = VDict m /\
    _calculate_threat_severity (item_or m "confidence_level" (VInt 0))
      (item_or m "threat_type" (VStr "")) (item_or m "malware" (VStr "")) = Ok tier /\
    _categorize_ioc_type (item_or m "ioc_type" (VStr "")) = Ok category /\
    field "threat_severity" doc = VStr tier /\
    field "ioc_category" doc = VStr category.
Proof.
  intros H. open_document H. exists m, tier, category. repeat split; assumption.
Qed.

(** The part on the extraction metadata. *)
Lemma transform_ok_extraction (r doc : value) :
  transform r = Ok doc ->
  exists m meta,
    r = VDict m /\
    item_or m "extraction_metadata" (VDict []) = VDict meta /\
    field "extraction_timestamp" doc = field "extracted_at" (VDict meta) /\
    field "source_url" doc = field "source_url" (VDict meta) /\
    field "batch_size" doc = field "total_records_in_batch" (VDict meta).
Proof. intros H. open_document H. exists m, meta. repeat split; assumption. Qed.

(** X8. Every document of a transformed batch has the same shape: the
    thirty-one top-level keys and the five metadata keys, in source
    order.  It embeds the raw record it was made from, which is a record
    of the input and from which the transform step gives the document
    again; its metadata carry the clock reading of the run, the fixed
    source and version labels, and the same identifier as the upsert
    key. *)
Theorem X8_document_schema :
  forall (raw_data : list value) (doc : value),
    In doc (transform_all raw_data) ->
    List.map fst (entries_of doc) = document_keys /\
    List.map fst (entries_of (field "etl_metadata" doc)) = metadata_keys /\
    In (field "original_data" doc) raw_data /\
    transform (field "original_data" doc) = Ok doc /\
    field "ingestion_timestamp" (field "etl_metadata" doc)
    = VDatetime current_timestamp /\
    field "source" (field "etl_metadata" doc) = VStr "threatfox_json" /\
    field "version" (field "etl_metadata" doc) = VStr "1.0" /\
    field "record_id" (field "etl_metadata" doc) = field "threat_id" doc.
Proof.
  intros raw_data doc Hin.
  apply in_transform_data in Hin. destruct Hin as (r & Hr & H).
  rewrite (transform_ok_original _ _ H). open_document H.
  repeat split; try assumption; congruence.
Qed.

(** X9. The originals embedded in a transformed batch are exactly the
    transformable records of the input, in input order: nothing is
    reordered, merged or duplicated, the batch has one document per
    transformable record, and two records with the same document are the
    same record. *)
Theorem X9_originals_round_trip :
  forall raw_data : list value,
    List.map (field "original_data") (transform_all raw_data)
    = List.filter transformable raw_data /\
    List.length (transform_all raw_data)
    = List.length (List.filter transformable raw_data) /\
    (forall r1 r2 doc, transform r1 = Ok doc -> transform r2 = Ok doc -> r1 = r2).
Proof.
  intros raw_data.
  assert (Hmap : List.map (field "original_data") (transform_all raw_data)
                 = List.filter transformable raw_data).
  { rewrite transform_data_flat_map.
    induction raw_data as [|r raw IH]; [reflexivity|]. simpl.
    destruct (transform r) as [doc|e] eqn:E.
    - rewrite (transform_ok_transformable _ _ _ _ _ E). simpl.
      now rewrite (transform_ok_original _ _ E), IH.
    - assert (Hf : transformable r = false)
        by (apply (transform_raise_iff strptime now current_timestamp); eauto).
      now rewrite Hf. }
  split; [exact Hmap|]. split.
  - rewrite <- Hmap. now rewrite length_map.
  - intros r1 r2 doc H1 H2.
    rewrite <- (transform_ok_original _ _ H1). now apply transform_ok_original.
Qed.

(** X10. Two derived fields always agree with the stored fields they
    describe: the stored tags are a list (the record's own when it gave
    a list, the empty list otherwise) and the tag count is its length;
    the stored reference is a string and the reference flag is true
    exactly when that string is not empty. *)
Theorem X10_tag_count_and_reference_flag :
  forall r doc : value,
    transform r = Ok doc ->
    (exists l,
       field "tags" doc = VList l /\
       field "tag_count" doc = VInt (Z.of_nat (List.length l)) /\
       l = match field "tags" r with VList l0 => l0 | _ => [] end) /\
    (exists s,
       field "reference" doc = VStr s /\
       field "has_reference" doc = VBool (negb (s =? "")%string)).
Proof.
  intros r doc H.
  destruct (transform_ok_tags _ _ H) as (m & -> & Htags & Hcount & Href).
  split.
  - rewrite Htags, Hcount. unfold item_or. simpl.
    destruct (assoc "tags" m) as [v|]; [|exists []; auto].
    destruct v; try (exists []; repeat split; reflexivity).
    eexists; repeat split; reflexivity.
  - destruct (transform_ok_trimmed _ _ _ _ _ "reference" H) as (s & _ & Hs).
    { simpl. tauto. }
    exists (strip s). rewrite Href, Hs. split; reflexivity.
Qed.

(** X11. The eight cleaned text fields of a document are strings that
    neither begin nor end with whitespace; trimming them again changes
    nothing. *)
Theorem X11_cleaned_fields_have_no_edge_whitespace :
  forall (r doc : value) (name : string),
    transform r = Ok doc ->
    In name trimmed_fields ->
    exists s,
      field name doc = VStr s /\
      starts_with_space s = false /\
      ends_with_space s = false /\
      strip s = s.
Proof.
  intros r doc name H Hin.
  destruct (transform_ok_tags _ _ H) as (m & -> & _).
  destruct (transform_ok_trimmed _ _ _ _ _ _ H Hin) as (s & _ & Hs).
  exists (strip s). split; [exact Hs|]. apply strip_edges.
Qed.

(** X12. A missing date is told consistently, whatever the clock.  In a
    produced document the parsed first-seen date, the days since first
    seen and the age category are null, null and Unknown together, and
    then the recency flag is false; the parsed last-seen date and the
    days since last seen are null together, and then the activity flag
    is false; a true flag therefore comes with a parsed date and a
    number of days.  The source reads the clock anew in each helper;
    none of the above depends on the readings, since at every reading
    each helper answers null, Unknown or false for a missing date, and a
    number of days and an age category other than Unknown for a date
    that is there. *)
Theorem X12_missing_dates_agree :
  forall r doc : value,
    transform r = Ok doc ->
    (field "first_seen_parsed" doc = VNone
     <-> field "days_since_first_seen" doc = VNone) /\
    (field "first_seen_parsed" doc = VNone
     <-> field "threat_age_category" doc = VStr "Unknown") /\
    (field "first_seen_parsed" doc = VNone ->
     field "is_recent_threat" doc = VBool false) /\
    (field "last_seen_parsed" doc = VNone
     <-> field "days_since_last_seen" doc = VNone) /\
    (field "last_seen_parsed" doc = VNone ->
     field "is_active_threat" doc = VBool false) /\
    (field "is_recent_threat" doc = VBool true ->
     exists t d, field "first_seen_parsed" doc = VDatetime t /\
                 field "days_since_first_seen" doc = VInt d) /\
    (field "is_active_threat" doc = VBool true ->
     exists t d, field "last_seen_parsed" doc = VDatetime t /\
                 field "days_since_last_seen" doc = VInt d) /\
    (forall (reading : datetime) (date_obj : option datetime),
       (_days_since_date reading date_obj = None <-> date_obj = None) /\
       (_categorize_threat_age reading date_obj = "Unknown" <-> date_obj = None) /\
       (date_obj = None ->
        _is_recent_threat reading date_obj = false /\
        _is_active_threat reading date_obj = false)).
Proof.
  intros r doc H.
  destruct (transform_ok_date_fields _ _ H)
    as (fs & ls & Hfp & Hlp & Hrec & Hact & Hdf & Hdl & Hage).
  rewrite Hfp, Hlp, Hrec, Hact, Hdf, Hdl, Hage.
  assert (Hhelpers :
            forall (reading : datetime) (date_obj : option datetime),
              (_days_since_date reading date_obj = None <-> date_obj = None) /\
              (_categorize_threat_age reading date_obj = "Unknown"
               <-> date_obj = None) /\
              (date_obj = None ->
               _is_recent_threat reading date_obj = false /\
               _is_active_threat reading date_obj = false)).
  { intros reading [t|]; (split; [|split]).
    - simpl. split; discriminate.
    - split; [intros E; exfalso; revert E; apply age_known | discriminate].
    - discriminate.
    - split; reflexivity.
    - split; reflexivity.
    - intros _. split; reflexivity. }
  repeat match goal with |- _ /\ _ => split end; try exact Hhelpers;
    destruct fs as [tf|], ls as [tl|]; simpl;
    try (split; intros E; try discriminate E; try reflexivity;
         exfalso; injection E as E; revert E; apply age_known);
    try discriminate; try reflexivity;
    try (intros _; eexists; eexists; split; reflexivity).
Qed.

End Documents.

Definition complete_doc : value :=
  Eval vm_compute in Samples.document Samples.complete.

Lemma X8_witness :
  In complete_doc
     (transform_data Reference.strptime Reference.now 0 [Samples.complete]) /\
  List.map fst (entries_of complete_doc) = document_keys /\
  List.map fst (entries_of (field "etl_metadata" complete_doc)) = metadata_keys /\
  In (field "original_data" complete_doc) [Samples.complete] /\
  transform_record Reference.strptime Reference.now 0
    (field "original_data" complete_doc) = Ok complete_doc /\
  field "ingestion_timestamp" (field "etl_metadata" complete_doc) = VDatetime 0 /\
  field "source" (field "etl_metadata" complete_doc) = VStr "threatfox_json" /\
  field "version" (field "etl_metadata" complete_doc) = VStr "1.0" /\
  field "record_id" (field "etl_metadata" complete_doc)
  = field "threat_id" complete_doc.
Proof.
  assert (H : In complete_doc
                 (transform_data Reference.strptime Reference.now 0
                                 [Samples.complete]))
    by (vm_compute; left; reflexivity).
  split; [exact H|].
  exact (X8_document_schema Reference.strptime Reference.now 0 _ _ H).
Defined.

Lemma X10_witness :
  transform_record Reference.strptime Reference.now 0 Samples.complete
  = Ok complete_doc /\
  (exists l,
     field "tags" complete_doc = VList l /\
     field "tag_count" complete_doc = VInt (Z.of_nat (List.length l)) /\
     l = match field "tags" Samples.complete with VList l0 => l0 | _ => [] end) /\
  (exists s,
     field "reference" complete_doc = VStr s /\
     field "has_reference" complete_doc = VBool (negb (s =? "")%string)).
Proof.
  assert (H : transform_record Reference.strptime Reference.now 0 Samples.complete
              = Ok complete_doc) by (vm_compute; reflexivity).
  split; [exact H|].
  exact (X10_tag_count_and_reference_flag Reference.strptime Reference.now 0 _ _ H).
Defined.

Lemma X11_witness :
  transform_record Reference.strptime Reference.now 0 Samples.complete
  = Ok complete_doc /\
  In "ioc_value" trimmed_fields /\
  exists s,
    field "ioc_value" complete_doc = VStr s /\
    starts_with_space s = false /\
    ends_with_space s = false /\
    strip s = s.
Proof.
  assert (H : transform_record Reference.strptime Reference.now 0 Samples.complete
              = Ok complete_doc) by (vm_compute; reflexivity).
  assert (Hin : In "ioc_value" trimmed_fields) by (simpl; tauto).
  split; [exact H|]. split; [exact Hin|].
  exact (X11_cleaned_fields_have_no_edge_whitespace
           Reference.strptime Reference.now 0 _ _ _ H Hin).
Defined.

Lemma X12_witness :
  transform_record Reference.strptime Reference.now 0 Samples.complete
  = Ok complete_doc /\
  (field "first_seen_parsed" complete_doc = VNone
   <-> field "days_since_first_seen" complete_doc = VNone) /\
  (field "first_seen_parsed" complete_doc = VNone
   <-> field "threat_age_category" complete_doc = VStr "Unknown") /\
  (field "first_seen_parsed" complete_doc = VNone ->
   field "is_recent_threat" complete_doc = VBool false) /\
  (field "last_seen_parsed" complete_doc = VNone
   <-> field "days_since_last_seen" complete_doc = VNone) /\
  (field "last_seen_parsed" complete_doc = VNone ->
   field "is_active_threat" complete_doc = VBool false) /\
  (field "is_recent_threat" complete_doc = VBool true ->
   exists t d, field "first_seen_parsed" complete_doc = VDatetime t /\
               field "days_since_first_seen" complete_doc = VInt d) /\
  (field "is_active_threat" complete_doc = VBool true ->
   exists t d, field "last_seen_parsed" complete_doc = VDatetime t /\
               field "days_since_last_seen" complete_doc = VInt d) /\
  (forall (reading : datetime) (date_obj : option datetime),
     (_days_since_date reading date_obj = None <-> date_obj = None) /\
     (_categorize_threat_age reading date_obj = "Unknown" <-> date_obj = None) /\
     (date_obj = None ->
      _is_recent_threat reading date_obj = false /\
      _is_active_threat reading date_obj = false)).
Proof.
  assert (H : transform_record Reference.strptime Reference.now 0 Samples.complete
              = Ok complete_doc) by (vm_compute; reflexivity).
  split; [exact H|].
  exact (X12_missing_dates_agree Reference.strptime Reference.now 0 _ _ H).
Defined.

(* ================================================================== *)
(** * Further properties: [extract_data] *)
(* ================================================================== *)

Lemma assoc_setitem_same (k : string) (v : value) (d : list (string * value)) :
  assoc k (setitem k v d) = Some v.
Proof.
  induction d as [|[k0 v0] d IH]; simpl.
  - now rewrite String.eqb_refl.
  - destruct (k0 =? k)%string eqn:E; simpl.
    + now rewrite String.eqb_refl.
    + now rewrite E.
Qed.

Lemma assoc_setitem_other (k q : string) (v : value) (d : list (string * value)) :
  q <> k -> assoc q (setitem k v d) = assoc q d.
Proof.
  intros Hq. assert (Hkq : (k =? q)%string = false)
    by (apply String.eqb_neq; congruence).
  induction d as [|[k0 v0] d IH]; simpl.
  - now rewrite Hkq.
  - destruct (k0 =? k)%string eqn:E; simpl.
    + apply String.eqb_eq in E. subst k0. now rewrite Hkq.
    + destruct (k0 =? q)%string; [reflexivity | exact IH].
Qed.

(** The metadata dictionary [extract_data] attaches to every record. *)
Definition extraction_metadata (extraction_timestamp url : string) (n : nat) : value :=
  VDict [("extracted_at", VStr extraction_timestamp);
         ("source_url", VStr url);
         ("total_records_in_batch", VInt (Z.of_nat n))].

(** One record after the assignment of its metadata. *)
Definition stamped (meta : value) (threat : value) : value :=
  match threat with
  | VDict d => VDict (setitem "extraction_metadata" meta d)
  | _ => threat
  end.

Lemma add_metadata_dicts (meta : value) (items : list value) :
  List.forallb is_dict items = true ->
  add_metadata meta items = Ok (List.map (stamped meta) items).
Proof.
  induction items as [|x items IH]; simpl; [reflexivity|].
  rewrite andb_true_iff. intros [Hx Hrest].
  destruct x; try discriminate. simpl. now rewrite (IH Hrest).
Qed.

Lemma stamp_list (ts url : string) (l : list value) :
  stamp ts url (VList l)
  = if List.forallb is_dict l
    then Ok (VList (List.map (stamped (extraction_metadata ts url (List.length l))) l))
    else Raise TypeError.
Proof.
  unfold stamp. simpl. destruct (List.forallb is_dict l) eqn:E.
  - now rewrite (add_metadata_dicts _ _ E).
  - assert (H : forall meta, add_metadata meta l = Raise TypeError).
    { intros meta. clear -E. induction l as [|x l IH]; simpl in *; [discriminate|].
      destruct x; simpl in *; try reflexivity. now rewrite (IH E). }
    now rewrite H.
Qed.

(** What the stamping gives back when it does not raise: an empty value
    as it came, or a non-empty list of dictionaries with their
    metadata. *)
Lemma stamp_ok (ts url : string) (threats v : value) :
  stamp ts url threats = Ok v ->
  truthy v = false \/
  exists l,
    threats = VList l /\ l <> [] /\ List.forallb is_dict l = true /\
    v = VList (List.map (stamped (extraction_metadata ts url (List.length l))) l).
Proof.
  destruct threats as [| | | |str|l|d|]; try discriminate.
  - destruct str as [|c t]; [intros [= <-]; now left | discriminate].
  - rewrite stamp_list. destruct (List.forallb is_dict l) eqn:E; [|discriminate].
    intros [= <-]. destruct l as [|x l]; [now left|].
    right. eexists. repeat split; [discriminate | assumption].
  - destruct d as [|[k x] d]; [intros [= <-]; now left | discriminate].
Qed.

(** What [extract_data] returns, in terms of the response that counts. *)
Lemma extract_data_ok (first_get second_get : http_outcome) (ts : string)
  (self : connector) :
  truthy (extract_data first_get second_get ts self) = false \/
  exists cfg coll l,
    self = Configured cfg coll /\
    l <> [] /\ List.forallb is_dict l = true /\
    extract_data first_get second_get ts self
    = VList (List.map
               (stamped (extraction_metadata ts (base_url cfg ++ endpoint cfg)%string
                                             (List.length l))) l).
Proof.
  destruct self as [|cfg coll]; [now left|].
  unfold extract_data, extract_body.
  destruct first_get as [|status1 body1]; [now left|].
  destruct (if status1 =? 429 then second_get else Response status1 body1)
    as [|status body]; [now left|].
  destruct (is_error_status status); [now left|].
  destruct body as [threats|]; [|now left].
  destruct (stamp ts _ threats) as [v|e] eqn:E; [|now left].
  destruct (stamp_ok _ _ _ _ E) as [Hf | (l & -> & Hne & Hd & ->)]; [now left|].
  right. exists cfg, coll, l. auto.
Qed.

Lemma stamped_metadata (meta threat : value) :
  is_dict threat = true -> field "extraction_metadata" (stamped meta threat) = meta.
Proof.
  destruct threat; try discriminate. intros _. simpl.
  now rewrite assoc_setitem_same.
Qed.

Lemma stamped_other (meta threat : value) (name : string) :
  name <> "extraction_metadata" ->
  field name (stamped meta threat) = field name threat.
Proof.
  intros Hn. destruct threat; try reflexivity. simpl.
  now rewrite (assoc_setitem_other _ _ _ _ Hn).
Qed.

Lemma stamped_all (meta : value) (l : list value) :
  List.forallb is_dict l = true ->
  Forall2 (fun raw threat =>
             is_dict threat = true /\
             forall name, name <> "extraction_metadata" ->
                          field name threat = field name raw)
          l (List.map (stamped meta) l).
Proof.
  induction l as [|x l IH]; simpl; [constructor|].
  rewrite andb_true_iff. intros [Hx Hl]. constructor; [|now apply IH].
  split; [destruct x; try discriminate; reflexivity|].
  intros name Hn. now apply stamped_other.
Qed.

(** X13. Whatever the feed answers, [extract_data] returns either an
    empty value, on which the pipeline stops, or a non-empty list of
    dictionaries; in the latter case the connector is a configured one
    and every record carries the same extraction metadata: the
    timestamp of the extraction, the URL built from the base URL and the
    endpoint, and the number of records of the list. *)
Theorem X13_extract_result_shape :
  forall (first_get second_get : http_outcome) (extraction_timestamp : string)
         (self : connector),
    let result := extract_data first_get second_get extraction_timestamp self in
    truthy result = false \/
    exists cfg coll l,
      self = Configured cfg coll /\
      result = VList l /\ l <> [] /\
      Forall (fun threat =>
                is_dict threat = true /\
                field "extraction_metadata" threat
                = VDict [("extracted_at", VStr extraction_timestamp);
                         ("source_url", VStr (base_url cfg ++ endpoint cfg)%string);
                         ("total_records_in_batch", VInt (Z.of_nat (List.length l)))])
             l.
Proof.
  intros first_get second_get ts self result. subst result.
  destruct (extract_data_ok first_get second_get ts self)
    as [Hf | (cfg & coll & l & -> & Hne & Hd & ->)]; [now left|].
  right. exists cfg, coll. eexists. split; [reflexivity|]. split; [reflexivity|].
  split; [destruct l; [congruence | discriminate]|].
  rewrite length_map. apply Forall_forall. intros x Hx.
  apply in_map_iff in Hx. destruct Hx as (r & <- & Hr).
  rewrite forallb_forall in Hd. specialize (Hd r Hr).
  split; [destruct r; try discriminate; reflexivity|].
  now apply stamped_metadata.
Qed.

(** X14. The request is repeated once, and only after a 429.  With a
    first answer other than 429 the second answer plays no part.  After
    a 429 the second answer is treated as a first one would be, except
    that another 429, like a failed request, ends the extraction with
    the empty list. *)
Theorem X14_one_retry_after_rate_limit :
  forall (extraction_timestamp : string) (self : connector),
    (forall status body second second',
       status <> 429 ->
       extract_data (Response status body) second extraction_timestamp self
       = extract_data (Response status body) second' extraction_timestamp self) /\
    (forall body status' body' other,
       status' <> 429 ->
       extract_data (Response 429 body) (Response status' body')
                    extraction_timestamp self
       = extract_data (Response status' body') other extraction_timestamp self) /\
    (forall body body',
       extract_data (Response 429 body) (Response 429 body')
                    extraction_timestamp self = VList []) /\
    (forall body,
       extract_data (Response 429 body) RequestFailed extraction_timestamp self
       = VList []) /\
    (forall second,
       extract_data RequestFailed second extraction_timestamp self = VList []).
Proof.
  intros ts self. destruct self as [|cfg coll]; [repeat split|].
  unfold extract_data, extract_body. repeat split.
  - intros status body second second' Hs.
    apply Z.eqb_neq in Hs. now rewrite Hs.
  - intros body status' body' other Hs.
    apply Z.eqb_neq in Hs. now rewrite Hs.
Qed.

(** X15. A decoded feed is taken whole or not at all.  When the answer
    that counts is not an error and its body is a JSON array, the result
    is the array with every object stamped, each object keeping all its
    other fields, provided every element is an object; one element that
    is not an object makes the extraction return the empty list. *)
Theorem X15_extract_all_or_nothing :
  forall (second : http_outcome) (extraction_timestamp : string)
         (cfg : settings) (coll : option collection)
         (status : Z) (l : list value),
    status <> 429 ->
    is_error_status status = false ->
    let result :=
      extract_data (Response status (Some (VList l))) second extraction_timestamp
                   (Configured cfg coll) in
    (List.forallb is_dict l = true ->
     exists l',
       result = VList l' /\
       List.length l' = List.length l /\
       Forall2 (fun raw threat =>
                  is_dict threat = true /\
                  forall name, name <> "extraction_metadata" ->
                               field name threat = field name raw) l l') /\
    (List.forallb is_dict l = false -> result = VList []).
Proof.
  intros second ts cfg coll status l Hs He result. subst result.
  unfold extract_data, extract_body.
  apply Z.eqb_neq in Hs. rewrite Hs, He, stamp_list.
  split; intros Hd; rewrite Hd; [|reflexivity].
  eexists. split; [reflexivity|]. split; [apply length_map|].
  now apply stamped_all.
Qed.

(** The settings [_init_] assigns when the environment sets none. *)
Definition default_settings : settings :=
  mk_settings "https://threatfox.abuse.ch" "/export/json/threatfox_abuse_ch.json"
              "mongodb://localhost:27017/" "etl_database" "threatfox_raw".

Lemma X15_witness :
  200 <> 429 /\
  is_error_status 200 = false /\
  let result :=
    extract_data (Response 200 (Some (VList [Samples.complete; Samples.noisy])))
                 RequestFailed "2025-01-15T12:00:00+00:00"
                 (Configured default_settings None) in
  (List.forallb is_dict [Samples.complete; Samples.noisy] = true ->
   exists l',
     result = VList l' /\
     List.length l' = List.length [Samples.complete; Samples.noisy] /\
     Forall2 (fun raw threat =>
                is_dict threat = true /\
                forall name, name <> "extraction_metadata" ->
                             field name threat = field name raw)
             [Samples.complete; Samples.noisy] l') /\
  (List.forallb is_dict [Samples.complete; Samples.noisy] = false ->
   result = VList []).
Proof.
  assert (H1 : 200 <> 429) by discriminate.
  assert (H2 : is_error_status 200 = false) by reflexivity.
  split; [exact H1|]. split; [exact H2|].
  exact (X15_extract_all_or_nothing RequestFailed "2025-01-15T12:00:00+00:00"
           default_settings None 200 [Samples.complete; Samples.noisy] H1 H2).
Defined.

Lemma field_dict_inv (name : string) (m entries : list (string * value))
  (default : value) :
  field name (VDict m) = VDict entries ->
  item_or m name default = VDict entries.
Proof.
  unfold item_or. simpl. destruct (assoc name m); [auto | discriminate].
Qed.

Section ExtractThenTransform.

Variable strptime : string -> string -> option datetime.
Variable now : datetime.
Variable current_timestamp : datetime.

Local Abbreviation transform_all := (transform_data strptime now current_timestamp).

Lemma transform_data_length (raw_data : list value) :
  (List.length (transform_all raw_data) <= List.length raw_data)%nat.
Proof.
  rewrite transform_data_flat_map.
  induction raw_data as [|r raw IH]; simpl; [lia|].
  destruct (transform_record strptime now current_timestamp r); simpl; lia.
Qed.

(** X16. Extraction and transformation together: every document made
    from what [extract_data] returned carries the extraction timestamp,
    the feed URL and, as its batch size, the number of records
    extracted.  The batch size counts the extracted records, not the
    documents: the documents are never more. *)
Theorem X16_extraction_metadata_reaches_documents :
  forall (first_get second_get : http_outcome) (extraction_timestamp : string)
         (self : connector) (doc : value),
    let raw_data :=
      records_of (extract_data first_get second_get extraction_timestamp self) in
    In doc (transform_all raw_data) ->
    exists cfg coll,
      self = Configured cfg coll /\
      field "extraction_timestamp" doc = VStr extraction_timestamp /\
      field "source_url" doc = VStr (base_url cfg ++ endpoint cfg)%string /\
      field "batch_size" doc = VInt (Z.of_nat (List.length raw_data)) /\
      (List.length (transform_all raw_data) <= List.length raw_data)%nat.
Proof.
  intros first_get second_get ts self doc raw_data Hin.
  assert (Hlen := transform_data_length raw_data).
  subst raw_data.
  destruct (extract_data_ok first_get second_get ts self)
    as [Hf | (cfg & coll & l & -> & Hne & Hd & E)].
  - exfalso. destruct (extract_data first_get second_get ts self) as [| | | | |l| |];
      try contradiction.
    destruct l; [contradiction | discriminate].
  - rewrite E in *. cbn [records_of] in *.
    exists cfg, coll. split; [reflexivity|].
    apply in_transform_data in Hin. destruct Hin as (r & Hr & H).
    apply in_map_iff in Hr. destruct Hr as (r0 & <- & Hr0).
    rewrite forallb_forall in Hd. specialize (Hd r0 Hr0).
    pose proof (stamped_metadata
                  (extraction_metadata ts (base_url cfg ++ endpoint cfg)%string
                                       (List.length l)) r0 Hd) as Hmeta.
    destruct (transform_ok_extraction _ _ _ _ _ H)
      as (m & meta & Em & Hm & Hts & Hurl & Hsize).
    rewrite Em in Hmeta. unfold extraction_metadata in Hmeta.
    rewrite (field_dict_inv _ _ _ (VDict []) Hmeta) in Hm. injection Hm as <-.
    rewrite length_map in Hlen.
    rewrite Hts, Hurl, Hsize, length_map. repeat split. exact Hlen.
Qed.

End ExtractThenTransform.

Definition fetched_documents : list value :=
  Eval vm_compute in
    transform_data Reference.strptime Reference.now 0
      (records_of
         (extract_data (Response 200 (Some (VList [Samples.complete; Samples.noisy])))
                       RequestFailed "2025-01-15T12:00:00+00:00"
                       (Configured default_settings None))).

Definition fetched_document : value :=
  Eval vm_compute in List.hd VNone fetched_documents.

Lemma X16_witness :
  let raw_data :=
    records_of
      (extract_data (Response 200 (Some (VList [Samples.complete; Samples.noisy])))
                    RequestFailed "2025-01-15T12:00:00+00:00"
                    (Configured default_settings None)) in
  In fetched_document (transform_data Reference.strptime Reference.now 0 raw_data) /\
  exists cfg coll,
    Configured default_settings None = Configured cfg coll /\
    field "extraction_timestamp" fetched_document
    = VStr "2025-01-15T12:00:00+00:00" /\
    field "source_url" fetched_document = VStr (base_url cfg ++ endpoint cfg)%string /\
    field "batch_size" fetched_document = VInt (Z.of_nat (List.length raw_data)) /\
    (List.length (transform_data Reference.strptime Reference.now 0%Z raw_data)
     <= List.length raw_data)%nat.
Proof.
  cbv zeta.
  assert (H : In fetched_document
                 (transform_data Reference.strptime Reference.now 0
                    (records_of
                       (extract_data
                          (Response 200 (Some (VList [Samples.complete; Samples.noisy])))
                          RequestFailed "2025-01-15T12:00:00+00:00"
                          (Configured default_settings None)))))
    by (vm_compute; left; reflexivity).
  split; [exact H|].
  exact (X16_extraction_metadata_reaches_documents
           Reference.strptime Reference.now 0
           (Response 200 (Some (VList [Samples.complete; Samples.noisy])))
           RequestFailed "2025-01-15T12:00:00+00:00"
           (Configured default_settings None) fetched_document H).
Defined.

(* ================================================================== *)
(** * Further properties: the connector object and [main] *)
(* ================================================================== *)

Section MainFacts.

Variable strptime : string -> string -> option datetime.
Variable now : datetime.
Variable encodable : value -> bool.
Variable reach : string -> reach_outcome.
Variable first_get second_get : http_outcome.
Variable extraction_timestamp : string.
Variable current_timestamp : datetime.

Local Abbreviation transform_all := (transform_data strptime now current_timestamp).
Local Abbreviation run_method :=
  (run_etl_pipeline_method strptime now encodable reach first_get second_get
                           extraction_timestamp current_timestamp).
Local Abbreviation main_of :=
  (main_on strptime now encodable reach first_get second_get
           extraction_timestamp current_timestamp).
Local Abbreviation extract := (extract_data first_get second_get extraction_timestamp).

(** X17. [main()] never runs the pipeline.  The class defines [_init_]
    and no [__init__], so the instance [main] creates has no attribute:
    whatever the store and the feed would answer, connecting raises an
    [AttributeError] on the first attribute read, the pipeline method
    turns it into [False], nothing is extracted, and the [finally] block
    of [main] then fails on [connector.mongo_client], so that the process
    ends with an uncaught [AttributeError] instead of an exit code. *)
Theorem X17_main_never_runs_the_pipeline :
  main strptime now encodable reach first_get second_get
       extraction_timestamp current_timestamp
  = (Uncaught AttributeError, ThreatFoxETLConnector) /\
  connect_to_mongodb reach ThreatFoxETLConnector = Raise AttributeError /\
  run_method ThreatFoxETLConnector = (false, ThreatFoxETLConnector) /\
  extract ThreatFoxETLConnector = VList [].
Proof. repeat split. Qed.

Lemma run_on_nothing (c : collection) (raw_data : list value) :
  transform_all raw_data = [] ->
  run_etl_pipeline strptime now encodable (Some c) raw_data current_timestamp
  = (false, Some c).
Proof.
  intros H. unfold run_etl_pipeline. destruct raw_data; [reflexivity|].
  now rewrite H.
Qed.

(** X18. On an instance that has its settings, [main] always ends with
    exit code 0 or 1, never with an uncaught exception.  When the store
    cannot be reached or the connection fails otherwise, the exit code
    is 1 and the settings and the collection handle of the instance are
    as before (its [mongo_client], which [connect_to_mongodb] assigns
    before the ping, is not part of the model); when the store is
    reached but nothing is extracted, or no extracted record can be
    transformed, the exit code is 1 and the collection is bound but
    untouched: no index is created and no document written. *)
Theorem X18_configured_run_failures :
  forall (cfg : settings) (coll : option collection),
    (exists code self',
       main_of (Configured cfg coll) = (Exit code, self') /\
       (code = 0 \/ code = 1)) /\
    (reach (mongo_uri cfg) = Unreachable ->
     main_of (Configured cfg coll) = (Exit 1, Configured cfg coll)) /\
    (forall e, reach (mongo_uri cfg) = Failed e ->
               main_of (Configured cfg coll) = (Exit 1, Configured cfg coll)) /\
    (forall store,
       reach (mongo_uri cfg) = Reached store ->
       let c := store (database_name cfg) (collection_name cfg) in
       transform_all (records_of (extract (Configured cfg (Some c)))) = [] ->
       main_of (Configured cfg coll) = (Exit 1, Configured cfg (Some c))).
Proof.
  intros cfg coll. unfold main_on, run_etl_pipeline_method, connect_to_mongodb.
  split; [|split; [|split]].
  - destruct (reach (mongo_uri cfg)) as [store| |e].
    + match goal with
      | |- context [run_etl_pipeline ?a ?b ?c ?d ?e ?f] =>
          destruct (run_etl_pipeline a b c d e f) as [ok after]
      end.
      destruct ok; eexists; eexists; (split; [reflexivity | auto]).
    + eexists. eexists. split; [reflexivity | auto].
    + eexists. eexists. split; [reflexivity | auto].
  - intros ->. reflexivity.
  - intros e ->. reflexivity.
  - intros store -> H. now rewrite (run_on_nothing _ _ H).
Qed.

(** X19. The successful run.  When the store is reached, its collection
    respects the key and has no index with other options than the ones
    [load_data] asks for, the [threat_id]s stored and produced are plain
    (strings, booleans, null or integers), and at least one extracted
    record is transformable, [main] on an instance with settings ends
    with exit code 0.  Afterwards the collection has the seven indexes,
    no two stored documents share a [threat_id], the stored
    [threat_id]s are plain, exactly one document is stored under the
    [threat_id] of every accepted document of the run, and a document
    stored before whose [threat_id] no accepted document of the run
    carries is still there. *)
Theorem X19_configured_run_succeeds :
  forall (cfg : settings) (handle : option collection)
         (store : string -> string -> collection) (raw_data : list value),
    let c := store (database_name cfg) (collection_name cfg) in
    reach (mongo_uri cfg) = Reached store ->
    compatible c = true ->
    extract (Configured cfg (Some c)) = VList raw_data ->
    (exists r, In r raw_data /\ transformable r = true) ->
    plain_keys (docs c) ->
    plain_keys (transform_all raw_data) ->
    exists c',
      main_of (Configured cfg handle) = (Exit 0, Configured cfg (Some c')) /\
      indexed c' /\
      NoDup (keys (docs c')) /\
      plain_keys (docs c') /\
      (forall doc, In doc (transform_all raw_data) -> encodable doc = true ->
                   count_documents "threat_id" (key doc) c' = 1) /\
      (forall x, In x (docs c) ->
                 (forall doc, In doc (transform_all raw_data) ->
                              encodable doc = true -> key x <> key doc) ->
                 In x (docs c')).
Proof.
  intros cfg handle store raw_data c Hreach Hc Hex (r & Hr & Ht) Hpc Hpb.
  destruct (transformable_transform_ok strptime now current_timestamp _ Ht)
    as [doc Hdoc].
  assert (Hd : In doc (transform_all raw_data)) by (apply in_transform_data; eauto).
  assert (Hne : transform_all raw_data <> []).
  { intros E. rewrite E in Hd. contradiction. }
  unfold main_on, run_etl_pipeline_method, connect_to_mongodb.
  rewrite Hreach. fold c. rewrite Hex. cbn [records_of].
  unfold run_etl_pipeline.
  destruct raw_data as [|r0 raw0] eqn:Eraw; [contradiction|]. rewrite <- Eraw in *.
  destruct (transform_all raw_data) as [|d0 docs0] eqn:Edocs; [congruence|].
  rewrite <- Edocs in *.
  destruct (load_data_compatible encodable c _ Hc
              (transform_data_canonical strptime now current_timestamp raw_data) Hne)
    as (c1 & Hdocs & Hidx & ->).
  cbv zeta. cbn [load_ok collection_after negb].
  eexists. split; [reflexivity|].
  assert (Hnd : NoDup (keys (docs (coll (List.fold_left (step encodable)
                                           (transform_all raw_data)
                                           (mk_load_state 0 0 c1)))))).
  { apply loop_NoDup. simpl. rewrite Hdocs. now apply compatible_keys. }
  split; [|split; [exact Hnd|split; [|split]]].
  - apply (indexed_same_indexes c1); [|assumption]. now rewrite loop_indexes.
  - apply loop_plain; [simpl; now rewrite Hdocs | assumption].
  - intros x Hx He. unfold count_documents.
    rewrite count_one; [reflexivity | exact Hnd | now apply loop_keys_loaded].
  - intros x Hx Hfresh. apply loop_keeps; [simpl; now rewrite Hdocs | exact Hfresh].
Qed.

End MainFacts.

(** A deployment that answers, with empty collections. *)
Definition empty_deployment : string -> reach_outcome :=
  fun _ => Reached (fun _ _ => Mongo.empty).

Definition sample_feed : http_outcome :=
  Response 200 (Some (VList [Samples.complete; Samples.noisy])).

Definition fetched_records : list value :=
  Eval vm_compute in
    records_of (extract_data sample_feed RequestFailed "2025-01-15T12:00:00+00:00"
                             (Configured default_settings (Some Mongo.empty))).

Lemma X19_witness :
  empty_deployment (mongo_uri default_settings) = Reached (fun _ _ => Mongo.empty) /\
  compatible Mongo.empty = true /\
  extract_data sample_feed RequestFailed "2025-01-15T12:00:00+00:00"
               (Configured default_settings (Some Mongo.empty))
  = VList fetched_records /\
  (exists r, In r fetched_records /\ transformable r = true) /\
  plain_keys (docs Mongo.empty) /\
  plain_keys (transform_data Reference.strptime Reference.now 0 fetched_records) /\
  exists c',
    main_on Reference.strptime Reference.now Reference.encodable empty_deployment
            sample_feed RequestFailed "2025-01-15T12:00:00+00:00" 0
            (Configured default_settings None)
    = (Exit 0, Configured default_settings (Some c')) /\
    indexed c' /\
    NoDup (keys (docs c')) /\
    plain_keys (docs c') /\
    (forall doc,
       In doc (transform_data Reference.strptime Reference.now 0 fetched_records) ->
       Reference.encodable doc = true ->
       count_documents "threat_id" (key doc) c' = 1) /\
    (forall x, In x (docs Mongo.empty) ->
               (forall doc,
                  In doc (transform_data Reference.strptime Reference.now 0
                                         fetched_records) ->
                  Reference.encodable doc = true -> key x <> key doc) ->
               In x (docs c')).
Proof.
  assert (H1 : empty_deployment (mongo_uri default_settings)
               = Reached (fun _ _ => Mongo.empty)) by reflexivity.
  assert (H2 : compatible Mongo.empty = true) by reflexivity.
  assert (H3 : extract_data sample_feed RequestFailed "2025-01-15T12:00:00+00:00"
                            (Configured default_settings (Some Mongo.empty))
               = VList fetched_records) by (vm_compute; reflexivity).
  assert (H4 : exists r, In r fetched_records /\ transformable r = true).
  { exists (List.hd VNone fetched_records). split; [left; reflexivity|].
    vm_compute. reflexivity. }
  assert (H5 : plain_keys (docs Mongo.empty)) by constructor.
  assert (H6 : plain_keys (transform_data Reference.strptime Reference.now 0
                                          fetched_records))
    by (vm_compute; repeat constructor).
  split; [exact H1|]. split; [exact H2|]. split; [exact H3|]. split; [exact H4|].
  split; [exact H5|]. split; [exact H6|].
  exact (X19_configured_run_succeeds
           Reference.strptime Reference.now Reference.encodable empty_deployment
           sample_feed RequestFailed "2025-01-15T12:00:00+00:00" 0
           default_settings None (fun _ _ => Mongo.empty) fetched_records
           H1 H2 H3 H4 H5 H6).
Defined.

(* ================================================================== *)
(** * Further properties: [load_data] *)
(* ================================================================== *)


Lemma create_index_frame (name : string) (u : bool) (c c' : collection) :
  create_index name u c = Ok c' ->
  docs c' = docs c /\
  forall q, q <> name -> find_index q c' = find_index q c.
Proof.
  unfold create_index. destruct (find_index name c) as [i|] eqn:Ei.
  - destruct (Bool.eqb (idx_unique i) u); [|discriminate].
    intros [= <-]. auto.
  - destruct (u && has_duplicates _); [discriminate|].
    intros [= <-]. split; [reflexivity|]. intros q Hq.
    rewrite find_index_snoc.
    replace (find_index q (mk_collection (docs c) (indexes c)))
      with (find_index q c) by (destruct c; reflexivity).
    destruct (find_index q c); [reflexivity|]. simpl.
    destruct (name =? q)%string eqn:E; [|reflexivity].
    apply String.eqb_eq in E. congruence.
Qed.

Lemma create_indexes_refused (c : collection) :
  find_index "threat_id" c = None ->
  has_duplicates (keys (docs c)) = true ->
  exists c' e,
    create_indexes index_specs c = (c', Some e) /\
    docs c' = docs c /\
    find_index "threat_id" c' = None.
Proof.
  intros Hidx Hdup. unfold index_specs. cbn [create_indexes].
  destruct (create_index "etl_metadata.ingestion_timestamp" false c) as [c1|e] eqn:E1;
    [|exists c, e; auto].
  destruct (create_index_frame _ _ _ _ E1) as [Hdocs Hfind].
  assert (H1 : find_index "threat_id" c1 = None)
    by (rewrite Hfind; [assumption | discriminate]).
  assert (E2 : create_index "threat_id" true c1 = Raise OperationFailure).
  { unfold create_index. rewrite H1, Hdocs.
    change (List.map (field "threat_id") (docs c)) with (keys (docs c)).
    now rewrite Hdup. }
  rewrite E2. exists c1, OperationFailure. auto.
Qed.

Section LoadCounts.

Variable encodable : value -> bool.

Local Abbreviation load := (load_data encodable).
Local Abbreviation loop := (List.fold_left (step encodable)).






(** X22. A collection that already holds two documents with the same
    [threat_id], and has no index on that field, cannot be loaded: the
    request for the unique index is refused, the call returns [False]
    for every non-empty batch, and no document is written or changed. *)
Theorem X22_load_refused_over_duplicate_keys :
  forall (c : collection) (batch : list value),
    batch <> [] ->
    find_index "threat_id" c = None ->
    has_duplicates (keys (docs c)) = true ->
    let out := load (Some c) batch in
    load_ok out = false /\
    inserted out = 0 /\
    updated out = 0 /\
    exists c',
      collection_after out = Some c' /\
      docs c' = docs c /\
      find_index "threat_id" c' = None.
Proof.
  intros c batch Hne Hidx Hdup out. subst out. unfold load_data.
  destruct batch as [|d batch]; [congruence|].
  destruct (create_indexes_refused c Hidx Hdup) as (c' & e & -> & Hdocs & Hfind).
  simpl. repeat split. exists c'. auto.
Qed.

End LoadCounts.

(** Two stored documents under one [threat_id], no index. *)
Definition duplicated_collection : collection :=
  mk_collection [VDict [("threat_id", VStr "1"); ("malware_family_clean", VStr "A")];
                 VDict [("threat_id", VStr "1"); ("malware_family_clean", VStr "B")]]
                [].



Lemma X22_witness :
  Samples.distinct_batch <> [] /\
  find_index "threat_id" duplicated_collection = None /\
  has_duplicates (keys (docs duplicated_collection)) = true /\
  let out := load_data Reference.encodable (Some duplicated_collection)
                       Samples.distinct_batch in
  load_ok out = false /\
  inserted out = 0 /\
  updated out = 0 /\
  exists c',
    collection_after out = Some c' /\
    docs c' = docs duplicated_collection /\
    find_index "threat_id" c' = None.
Proof.
  assert (H1 : Samples.distinct_batch <> []) by discriminate.
  assert (H2 : find_index "threat_id" duplicated_collection = None) by reflexivity.
  assert (H3 : has_duplicates (keys (docs duplicated_collection)) = true)
    by reflexivity.
  split; [exact H1|]. split; [exact H2|]. split; [exact H3|].
  exact (X22_load_refused_over_duplicate_keys Reference.encodable
           duplicated_collection Samples.distinct_batch H1 H2 H3).
Defined.

(* ================================================================== *)
(** * Further properties: the URLhaus connector's [transform] and script *)
(* ================================================================== *)

(** The keys of a URLhaus document, in source order. *)
Definition urlhaus_keys : list string :=
  ["url_id"; "url"; "threat"; "status"; "date_added"; "tags"; "ingested_at"].

Lemma urlhaus_item_ok (t : datetime) (item doc : value) :
  UrlHaus.transform_item t item = Ok doc ->
  is_dict item = true /\
  doc = VDict [("url_id", field "id" item); ("url", field "url" item);
               ("threat", field "threat" item); ("status", field "url_status" item);
               ("date_added", field "date_added" item); ("tags", field "tags" item);
               ("ingested_at", VDatetime t)].
Proof.
  destruct item; try discriminate. unfold UrlHaus.transform_item. simpl.
  intros [= <-]. split; reflexivity.
Qed.

Lemma urlhaus_items_ok (utcnow : nat -> datetime) (items : list value) :
  forall (i : nat) (docs : list value),
    UrlHaus.transform_items utcnow i items = Ok docs ->
    Forall2 (fun item doc =>
               List.map fst (entries_of doc) = urlhaus_keys /\
               field "url_id" doc = field "id" item /\
               field "url" doc = field "url" item /\
               field "threat" doc = field "threat" item /\
               field "status" doc = field "url_status" item /\
               field "date_added" doc = field "date_added" item /\
               field "tags" doc = field "tags" item) items docs /\
    (forall k doc, nth_error docs k = Some doc ->
                   field "ingested_at" doc = VDatetime (utcnow (i + k)%nat)).
Proof.
  induction items as [|item items IH]; intros i docs H; simpl in H.
  - injection H as <-. split; [constructor|]. intros [|k] doc; discriminate.
  - apply bind_ok_inv in H. destruct H as (doc0 & E0 & H).
    apply bind_ok_inv in H. destruct H as (rest & Er & H). injection H as <-.
    destruct (urlhaus_item_ok _ _ _ E0) as [_ ->].
    destruct (IH _ _ Er) as [Hall Hat]. split.
    + constructor; [repeat split | exact Hall].
    + intros [|k] doc; simpl.
      * intros [= <-]. now rewrite Nat.add_0_r.
      * intros Hk. rewrite (Hat k doc Hk). do 2 f_equal. lia.
Qed.

Lemma urlhaus_items_raise (utcnow : nat -> datetime) (items : list value) (bad : value) :
  In bad items -> is_dict bad = false ->
  forall i, UrlHaus.transform_items utcnow i items = Raise AttributeError.
Proof.
  intros Hin Hbad. induction items as [|item items IH]; [contradiction|].
  intros i. simpl. destruct (is_dict item) eqn:Ed.
  - destruct item; try discriminate. simpl.
    destruct Hin as [E | Hin]; [rewrite <- E in Hbad; discriminate|].
    now rewrite (IH Hin).
  - destruct item; try discriminate; reflexivity.
Qed.

(** X23. What the URLhaus [transform] returns when it returns: one
    document per listed item, in the order of the list, each with the
    seven keys in source order; six of them are copied from the item, a
    missing one as null, with [url_status] stored as [status] and [id]
    as [url_id]; the seventh is the clock reading taken when the item
    was reached. *)
Theorem X23_urlhaus_documents :
  forall (utcnow : nat -> datetime) (data : value) (docs : list value),
    UrlHaus.transform utcnow data = Ok docs ->
    Forall (fun doc => List.map fst (entries_of doc) = urlhaus_keys) docs /\
    (forall k doc, nth_error docs k = Some doc ->
                   field "ingested_at" doc = VDatetime (utcnow k)) /\
    (forall root,
       field "urls" data = VList root -> root <> [] ->
       Forall2 (fun item doc =>
                  field "url_id" doc = field "id" item /\
                  field "url" doc = field "url" item /\
                  field "threat" doc = field "threat" item /\
                  field "status" doc = field "url_status" item /\
                  field "date_added" doc = field "date_added" item /\
                  field "tags" doc = field "tags" item) root docs).
Proof.
  intros utcnow data docs H. unfold UrlHaus.transform in H.
  apply bind_ok_inv in H. destruct H as (root0 & E0 & H).
  apply bind_ok_inv in H. destruct H as (urls_data & Eu & H).
  apply bind_ok_inv in H. destruct H as (items & Ei & H).
  destruct (urlhaus_items_ok _ _ _ _ H) as [Hall Hat].
  split; [|split].
  - clear -Hall. induction Hall as [|x y l l' Hxy _ IH]; constructor; [|exact IH].
    apply Hxy.
  - exact Hat.
  - intros root Hroot Hne.
    destruct data as [| | | | | |m|]; try discriminate.
    simpl in E0, Hroot. injection E0 as <-. rewrite Hroot in Eu.
    destruct root as [|x root]; [congruence|]. simpl in Eu. injection Eu as <-.
    simpl in Ei. injection Ei as <-.
    clear -Hall. induction Hall as [|a b l l' Hab _ IH]; constructor; [|exact IH].
    tauto.
Qed.

(** X24. Where the list of URLs is taken from.  A truthy [urls] at the
    root wins: whatever else the file holds, a nested list included,
    plays no part.  With [urls] missing or falsy at the root the nested
    list under [data] is used; without a [data] entry the result is the
    empty list, even when the root [urls] is a falsy value that could
    not be iterated; a [data] entry that is not a dictionary raises an
    [AttributeError], and so does a file whose root is not a
    dictionary. *)
Theorem X24_urlhaus_root_before_nested :
  forall (utcnow : nat -> datetime) (m : list (string * value)),
    (forall root,
       assoc "urls" m = Some root -> truthy root = true ->
       UrlHaus.transform utcnow (VDict m)
       = UrlHaus.transform utcnow (VDict [("urls", root)])) /\
    (truthy (item_or m "urls" VNone) = false ->
     (assoc "data" m = None -> UrlHaus.transform utcnow (VDict m) = Ok []) /\
     (forall inner l,
        assoc "data" m = Some (VDict inner) -> assoc "urls" inner = Some (VList l) ->
        UrlHaus.transform utcnow (VDict m) = UrlHaus.transform_items utcnow 0 l) /\
     (forall other,
        assoc "data" m = Some other -> is_dict other = false ->
        UrlHaus.transform utcnow (VDict m) = Raise AttributeError)) /\
    (forall data,
       is_dict data = false -> UrlHaus.transform utcnow data = Raise AttributeError).
Proof.
  intros utcnow m. unfold UrlHaus.transform. split; [|split].
  - intros root Hroot Ht. simpl. rewrite Hroot, ?Ht. simpl.
    rewrite ?Ht. reflexivity.
  - unfold item_or. intros Hf. simpl. rewrite Hf. split; [|split].
    + intros ->. reflexivity.
    + intros inner l -> Hl. simpl. now rewrite Hl.
    + intros other -> Ho. destruct other; try discriminate; reflexivity.
  - intros data Hd. destruct data; try discriminate; reflexivity.
Qed.

(** X25. The URLhaus script is all or nothing where the ThreatFox
    transform skips: one listed item that is not a dictionary makes
    [transform] raise, the script then prints the error and writes
    nothing, as it does when the file is missing or is not JSON. *)
Theorem X25_urlhaus_one_bad_item_stops_the_script :
  forall (utcnow : nat -> datetime) (m : list (string * value))
         (l : list value) (bad : value) (c : collection),
    assoc "urls" m = Some (VList l) ->
    In bad l ->
    is_dict bad = false ->
    UrlHaus.transform utcnow (VDict m) = Raise AttributeError /\
    UrlHaus.main utcnow (Some (Some (VDict m))) c = (c, false) /\
    UrlHaus.main utcnow (Some None) c = (c, false) /\
    UrlHaus.main utcnow None c = (c, false).
Proof.
  intros utcnow m l bad c Hm Hin Hbad.
  assert (H : UrlHaus.transform utcnow (VDict m) = Raise AttributeError).
  { unfold UrlHaus.transform. simpl. rewrite Hm.
    destruct l as [|x l]; [contradiction|]. simpl.
    now apply (urlhaus_items_raise utcnow (x :: l) bad). }
  split; [exact H|]. unfold UrlHaus.main. rewrite H. repeat split.
Qed.

Lemma urlhaus_items_any_clock (utcnow utcnow' : nat -> datetime) (items : list value) :
  forall (i i' : nat) (docs : list value),
    UrlHaus.transform_items utcnow i items = Ok docs ->
    exists docs',
      UrlHaus.transform_items utcnow' i' items = Ok docs' /\
      List.length docs' = List.length docs.
Proof.
  induction items as [|item items IH]; intros i i' docs H; simpl in H.
  - injection H as <-. exists []. split; reflexivity.
  - apply bind_ok_inv in H. destruct H as (doc0 & E0 & H).
    apply bind_ok_inv in H. destruct H as (rest & Er & H). injection H as <-.
    destruct (urlhaus_item_ok _ _ _ E0) as [Hd _].
    destruct (IH _ (S i') _ Er) as (rest' & Er' & Hlen).
    destruct item; try discriminate. simpl. rewrite Er'. simpl.
    eexists. split; [reflexivity|]. simpl. now rewrite Hlen.
Qed.

Lemma urlhaus_transform_any_clock (utcnow utcnow' : nat -> datetime)
  (data : value) (docs : list value) :
  UrlHaus.transform utcnow data = Ok docs ->
  exists docs',
    UrlHaus.transform utcnow' data = Ok docs' /\
    List.length docs' = List.length docs.
Proof.
  unfold UrlHaus.transform. intros H.
  apply bind_ok_inv in H. destruct H as (root & E0 & H).
  apply bind_ok_inv in H. destruct H as (urls_data & Eu & H).
  apply bind_ok_inv in H. destruct H as (items & Ei & H).
  rewrite E0. simpl. rewrite Eu. simpl. rewrite Ei. simpl.
  eapply urlhaus_items_any_clock. exact H.
Qed.

(** X27. The URLhaus script is not idempotent.  In a store that accepts
    every document, a run on a file that [transform] accepts reports
    success and appends one document per listed item behind the
    documents already stored, without looking any up and without
    creating an index; a second run on the same file, at whatever
    time, succeeds again and appends as many documents once more. *)
Theorem X27_urlhaus_rerun_appends_again :
  forall (utcnow utcnow' : nat -> datetime) (data : value) (docs1 : list value)
         (c : collection),
    UrlHaus.transform utcnow data = Ok docs1 ->
    let first := UrlHaus.main utcnow (Some (Some data)) c in
    let second := UrlHaus.main utcnow' (Some (Some data)) (fst first) in
    first = (UrlHaus.load c docs1, true) /\
    docs (fst first) = docs c ++ docs1 /\
    indexes (fst first) = indexes c /\
    snd second = true /\
    indexes (fst second) = indexes c /\
    exists docs2,
      UrlHaus.transform utcnow' data = Ok docs2 /\
      List.length docs2 = List.length docs1 /\
      docs (fst second) = docs c ++ docs1 ++ docs2.
Proof.
  intros utcnow utcnow' data docs1 c H.
  destruct (urlhaus_transform_any_clock utcnow utcnow' _ _ H) as (docs2 & H2 & Hlen).
  cbv zeta. unfold UrlHaus.main. rewrite H. cbn [fst snd]. rewrite H2. cbn [fst snd].
  assert (Hload : forall c0 l, docs (UrlHaus.load c0 l) = docs c0 ++ l /\
                               indexes (UrlHaus.load c0 l) = indexes c0).
  { intros c0 l. destruct l; simpl; [now rewrite app_nil_r | auto]. }
  destruct (Hload c docs1) as [Hd1 Hi1].
  destruct (Hload (UrlHaus.load c docs1) docs2) as [Hd2 Hi2].
  split; [reflexivity|]. split; [exact Hd1|]. split; [exact Hi1|].
  split; [reflexivity|]. split; [now rewrite Hi2|].
  exists docs2. split; [reflexivity|]. split; [exact Hlen|].
  now rewrite Hd2, Hd1, <- app_assoc.
Qed.

(** A URLhaus file with its list at the root. *)
Definition urlhaus_file : value :=
  VDict [("query_status", VStr "ok");
         ("urls", VList [VDict [("id", VStr "1"); ("url", VStr "http://a.example/x");
                                ("url_status", VStr "online");
                                ("threat", VStr "malware_download");
                                ("tags", VList [VStr "elf"])];
                         VDict [("id", VStr "2"); ("url", VStr "http://b.example/y")]])].

Definition urlhaus_clock (i : nat) : datetime := Reference.now + Z.of_nat i.

Definition urlhaus_documents : list value :=
  Eval vm_compute in
    match UrlHaus.transform urlhaus_clock urlhaus_file with
    | Ok docs => docs
    | Raise _ => []
    end.

Lemma X23_witness :
  UrlHaus.transform urlhaus_clock urlhaus_file = Ok urlhaus_documents /\
  Forall (fun doc => List.map fst (entries_of doc) = urlhaus_keys) urlhaus_documents /\
  (forall k doc, nth_error urlhaus_documents k = Some doc ->
                 field "ingested_at" doc = VDatetime (urlhaus_clock k)) /\
  (forall root,
     field "urls" urlhaus_file = VList root -> root <> [] ->
     Forall2 (fun item doc =>
                field "url_id" doc = field "id" item /\
                field "url" doc = field "url" item /\
                field "threat" doc = field "threat" item /\
                field "status" doc = field "url_status" item /\
                field "date_added" doc = field "date_added" item /\
                field "tags" doc = field "tags" item) root urlhaus_documents).
Proof.
  assert (H : UrlHaus.transform urlhaus_clock urlhaus_file = Ok urlhaus_documents)
    by (vm_compute; reflexivity).
  split; [exact H|].
  exact (X23_urlhaus_documents urlhaus_clock urlhaus_file urlhaus_documents H).
Defined.

Lemma X25_witness :
  assoc "urls" [("urls", VList [VDict [("id", VStr "1")]; VStr "http://b.example/y"])]
  = Some (VList [VDict [("id", VStr "1")]; VStr "http://b.example/y"]) /\
  In (VStr "http://b.example/y") [VDict [("id", VStr "1")]; VStr "http://b.example/y"] /\
  is_dict (VStr "http://b.example/y") = false /\
  UrlHaus.transform urlhaus_clock
    (VDict [("urls", VList [VDict [("id", VStr "1")]; VStr "http://b.example/y"])])
  = Raise AttributeError /\
  UrlHaus.main urlhaus_clock
    (Some (Some (VDict [("urls", VList [VDict [("id", VStr "1")];
                                        VStr "http://b.example/y"])])))
    Mongo.empty = (Mongo.empty, false) /\
  UrlHaus.main urlhaus_clock (Some None) Mongo.empty = (Mongo.empty, false) /\
  UrlHaus.main urlhaus_clock None Mongo.empty = (Mongo.empty, false).
Proof.
  assert (H1 : assoc "urls" [("urls", VList [VDict [("id", VStr "1")];
                                             VStr "http://b.example/y"])]
               = Some (VList [VDict [("id", VStr "1")]; VStr "http://b.example/y"]))
    by reflexivity.
  assert (H2 : In (VStr "http://b.example/y")
                  [VDict [("id", VStr "1")]; VStr "http://b.example/y"])
    by (right; left; reflexivity).
  assert (H3 : is_dict (VStr "http://b.example/y") = false) by reflexivity.
  split; [exact H1|]. split; [exact H2|]. split; [exact H3|].
  exact (X25_urlhaus_one_bad_item_stops_the_script urlhaus_clock _ _ _ Mongo.empty
           H1 H2 H3).
Defined.

(* ================================================================== *)
(** * Further properties: the stats report over loaded documents *)
(* ================================================================== *)

Lemma severity_tiers_only (confidence threat_type malware : value) (tier : string) :
  _calculate_threat_severity confidence threat_type malware = Ok tier ->
  In tier ["HIGH"; "MEDIUM"; "LOW"].
Proof.
  unfold _calculate_threat_severity.
  destruct (ge_int confidence 75) as [[|]|]; simpl; try discriminate.
  - intros [= <-]. simpl. tauto.
  - destruct (ge_int confidence 50) as [[|]|]; simpl; try discriminate.
    + destruct (lower_method threat_type) as [lowered|]; simpl; [|discriminate].
      match goal with
      | |- context [if ?b then _ else _] => destruct b
      end; intros [= <-]; simpl; tauto.
    + destruct (ge_int confidence 25) as [[|]|]; simpl; try discriminate;
        intros [= <-]; simpl; tauto.
Qed.

Lemma ioc_categories_only (ioc_type : value) (category : string) :
  _categorize_ioc_type ioc_type = Ok category ->
  In category ["NETWORK"; "FILE"; "EMAIL"; "OTHER"].
Proof.
  unfold _categorize_ioc_type.
  destruct (lower_method ioc_type) as [l|]; simpl; [|discriminate].
  destruct (contains "domain" l || contains "url" l); [intros [= <-]; simpl; tauto|].
  destruct (contains "ip" l); [intros [= <-]; simpl; tauto|].
  destruct (contains "hash" l || contains "md5" l || contains "sha" l);
    [intros [= <-]; simpl; tauto|].
  destruct (contains "email" l); intros [= <-]; simpl; tauto.
Qed.

(** A document some run of the transform step produced. *)
Definition produced (doc : value) : Prop :=
  exists strptime now current_timestamp r,
    transform_record strptime now current_timestamp r = Ok doc.

Lemma produced_vocabulary (doc : value) :
  produced doc ->
  (exists tier, field "threat_severity" doc = VStr tier /\
                In tier ["HIGH"; "MEDIUM"; "LOW"]) /\
  (exists category, field "ioc_category" doc = VStr category /\
                    In category ["NETWORK"; "FILE"; "EMAIL"; "OTHER"]).
Proof.
  intros (strptime & now & cur & r & H).
  destruct (transform_ok_labels _ _ _ _ _ H)
    as (m & tier & category & _ & Hsev & Hcat & Ht & Hc).
  split.
  - exists tier. split; [exact Ht|]. eapply severity_tiers_only. exact Hsev.
  - exists category. split; [exact Hc|]. eapply ioc_categories_only. exact Hcat.
Qed.

Definition count_of (name : string) (v : string) (l : list value) : Z :=
  Z.of_nat (List.length (List.filter (matches name (VStr v)) l)).

Lemma count_of_cons (name v : string) (d : value) (l : list value) :
  count_of name v (d :: l)
  = (if matches name (VStr v) d then 1 else 0) + count_of name v l.
Proof.
  unfold count_of. simpl. destruct (matches name (VStr v) d); simpl List.length; lia.
Qed.

Ltac decide_matches :=
  repeat match goal with
         | |- context [value_eqb ?a ?b] =>
             let r := eval vm_compute in (value_eqb a b) in
             change (value_eqb a b) with r
         end;
  cbv beta iota.

Lemma severity_partition (l : list value) :
  Forall produced l ->
  Z.of_nat (List.length l)
  = count_of "threat_severity" "HIGH" l + count_of "threat_severity" "MEDIUM" l
    + count_of "threat_severity" "LOW" l.
Proof.
  induction 1 as [|d l Hd _ IH]; [reflexivity|].
  rewrite !count_of_cons. simpl List.length. rewrite Nat2Z.inj_succ, IH.
  destruct (produced_vocabulary d Hd) as [(tier & Ht & Hin) _].
  unfold matches. rewrite Ht. simpl in Hin.
  destruct Hin as [<- | [<- | [<- | []]]]; decide_matches; lia.
Qed.

Lemma category_partition (l : list value) :
  Forall produced l ->
  Z.of_nat (List.length l)
  = count_of "ioc_category" "NETWORK" l + count_of "ioc_category" "FILE" l
    + count_of "ioc_category" "EMAIL" l + count_of "ioc_category" "OTHER" l.
Proof.
  induction 1 as [|d l Hd _ IH]; [reflexivity|].
  rewrite !count_of_cons. simpl List.length. rewrite Nat2Z.inj_succ, IH.
  destruct (produced_vocabulary d Hd) as [_ (category & Hc & Hin)].
  unfold matches. rewrite Hc. simpl in Hin.
  destruct Hin as [<- | [<- | [<- | [<- | []]]]]; decide_matches; lia.
Qed.

(** The seven counts of a report that is not empty. *)
Lemma report_counts (srv : server) (c : collection) :
  let report := get_pipeline_stats srv (Some c) in
  report <> VDict [] ->
  field "total_threats" report = VInt (count_all c) /\
  field "high_severity_count" report
  = VInt (count_documents "threat_severity" (VStr "HIGH") c) /\
  field "medium_severity_count" report
  = VInt (count_documents "threat_severity" (VStr "MEDIUM") c) /\
  field "network_iocs" report
  = VInt (count_documents "ioc_category" (VStr "NETWORK") c) /\
  field "file_iocs" report
  = VInt (count_documents "ioc_category" (VStr "FILE") c).
Proof.
  cbv zeta. unfold get_pipeline_stats, stats_body.
  destruct (0 <? count_all c); [|intros _; repeat split; reflexivity].
  destruct (find_one_sorted_desc srv _ (docs c)) as [latest|];
    destruct (aggregate srv AvgConfidence (docs c)) as [|first rest];
    cbn [bind];
    repeat match goal with
           | |- context [bind ?m _] =>
               lazymatch m with
               | map_result _ _ => destruct m; cbn [bind]
               | context [bind _ _] => fail
               | _ => destruct m; cbn [bind]
               end
           end;
    intros Hne; first [ congruence | repeat split; reflexivity ].
Qed.

(** X26. What the report leaves out can be read off it when the
    collection holds documents of this pipeline only: every such
    document is in exactly one of the tiers HIGH, MEDIUM and LOW and in
    exactly one of the categories NETWORK, FILE, EMAIL and OTHER, so in
    a report that is not empty the total minus the HIGH and MEDIUM
    counts is the number of LOW documents, and the total minus the
    NETWORK and FILE counts is the number of EMAIL and OTHER
    documents. *)
Theorem X26_report_counts_partition_the_total :
  forall (srv : server) (c : collection),
    Forall produced (docs c) ->
    let report := get_pipeline_stats srv (Some c) in
    report <> VDict [] ->
    exists total high medium network file,
      field "total_threats" report = VInt total /\
      field "high_severity_count" report = VInt high /\
      field "medium_severity_count" report = VInt medium /\
      field "network_iocs" report = VInt network /\
      field "file_iocs" report = VInt file /\
      total - high - medium = count_documents "threat_severity" (VStr "LOW") c /\
      total - network - file
      = count_documents "ioc_category" (VStr "EMAIL") c
        + count_documents "ioc_category" (VStr "OTHER") c.
Proof.
  intros srv c Hp report Hne.
  destruct (report_counts srv c Hne) as (Ht & Hh & Hm & Hn & Hf).
  do 5 eexists. repeat (split; [eassumption|]).
  pose proof (severity_partition _ Hp) as Hs.
  pose proof (category_partition _ Hp) as Hc.
  unfold count_of in Hs, Hc. unfold count_documents, count_all. lia.
Qed.

Lemma X26_witness :
  Forall produced (docs Samples.email_collection) /\
  let report := get_pipeline_stats Reference.server (Some Samples.email_collection) in
  report <> VDict [] /\
  exists total high medium network file,
    field "total_threats" report = VInt total /\
    field "high_severity_count" report = VInt high /\
    field "medium_severity_count" report = VInt medium /\
    field "network_iocs" report = VInt network /\
    field "file_iocs" report = VInt file /\
    total - high - medium
    = count_documents "threat_severity" (VStr "LOW") Samples.email_collection /\
    total - network - file
    = count_documents "ioc_category" (VStr "EMAIL") Samples.email_collection
      + count_documents "ioc_category" (VStr "OTHER") Samples.email_collection.
Proof.
  assert (H1 : Forall produced (docs Samples.email_collection)).
  { apply Forall_forall. intros doc Hin.
    apply (in_transform_data Reference.strptime Reference.now 0) in Hin.
    destruct Hin as (r & _ & Hr).
    exists Reference.strptime, Reference.now, 0, r. exact Hr. }
  assert (H2 : get_pipeline_stats Reference.server (Some Samples.email_collection)
               <> VDict []) by (vm_compute; discriminate).
  split; [exact H1|]. cbv zeta. split; [exact H2|].
  exact (X26_report_counts_partition_the_total Reference.server
           Samples.email_collection H1 H2).
Defined.

Lemma X27_witness :
  UrlHaus.transform urlhaus_clock urlhaus_file = Ok urlhaus_documents /\
  let first := UrlHaus.main urlhaus_clock (Some (Some urlhaus_file)) Mongo.empty in
  let second := UrlHaus.main urlhaus_clock (Some (Some urlhaus_file)) (fst first) in
  first = (UrlHaus.load Mongo.empty urlhaus_documents, true) /\
  docs (fst first) = docs Mongo.empty ++ urlhaus_documents /\
  indexes (fst first) = indexes Mongo.empty /\
  snd second = true /\
  indexes (fst second) = indexes Mongo.empty /\
  exists docs2,
    UrlHaus.transform urlhaus_clock urlhaus_file = Ok docs2 /\
    List.length docs2 = List.length urlhaus_documents /\
    docs (fst second) = docs Mongo.empty ++ urlhaus_documents ++ docs2.
Proof.
  assert (H : UrlHaus.transform urlhaus_clock urlhaus_file = Ok urlhaus_documents)
    by (vm_compute; reflexivity).
  split; [exact H|].
  exact (X27_urlhaus_rerun_appends_again urlhaus_clock urlhaus_clock urlhaus_file
           urlhaus_documents Mongo.empty H).
Defined.
